(** * Orpheus: the environmental-data aggregation and AI-routing core

    A shallow embedding of the two Express route modules of the server
    (the alerts router with its six provider fetchers, cache and rate
    limiter, and the chat router with its classifier, prompt builders
    and fallback) and of the application's upload filter and global
    error handler, followed by the properties proved about them.

    Conventions of the embedding.
    - Text is a [string] of 8-bit code units, the code points U+0000 to
      U+00FF (Basic Latin and Latin-1 Supplement). [toLowerCase], [trim]
      and the case-insensitive flag of a regular expression act on these
      units as ECMAScript does.
    - A JavaScript value is a [jsval]. A number is carried by the text
      that ECMAScript's Number-to-String conversion yields for it, since
      the code only ever tests a number for truthiness and interpolates
      it in a template literal; the number zero is the text 0.
    - The clock, the upstream services, the JSON codec of the runtime
      and its conversion of a text to a floating-point number are inputs:
      a handler receives the readings of [Date] for the request and what
      each upstream call yields, and the development is parametric in
      [JSON.parse].
    - An operation that can throw returns an [option]; [None] is the
      exception. The conversion of a value to text throws for an object
      with an own property toString, which in a value that comes out of
      [JSON.parse] is never a function.
    - Shared mutable state (the cache, the rate-limit map) is threaded
      explicitly; every upstream call is recorded in a trace. *)

From Stdlib Require Import ZArith List String Ascii Lia Bool Sorted.
From stdpp Require Import gmap strings.
Import ListNotations.

Set Warnings "-register-all".
Local Open Scope Z_scope.

(** ** Text *)

Module Text.

Definition chars (s : string) : list ascii := list_ascii_of_string s.
Definition text (l : list ascii) : string := string_of_list_ascii l.

(** The code unit lies between [lo] and [hi]. *)
Definition between (lo hi : nat) (c : ascii) : bool :=
  (lo <=? nat_of_ascii c)%nat && (nat_of_ascii c <=? hi)%nat.

(** The capital letters A-Z and, in the Latin-1 Supplement, U+00C0 to
    U+00DE without the multiplication sign; the small letters a-z and
    U+00E0 to U+00FE without the division sign. Each small letter is 32
    above its capital. The three other small letters of the range
    (U+00B5, U+00DF, U+00FF) have no capital in it. *)
Definition is_upper (c : ascii) : bool :=
  between 65 90 c || between 192 214 c || between 216 222 c.
Definition is_lower (c : ascii) : bool :=
  between 97 122 c || between 224 246 c || between 248 254 c.

Definition lower_char (c : ascii) : ascii :=
  if is_upper c then ascii_of_nat (nat_of_ascii c + 32) else c.
Definition upper_char (c : ascii) : ascii :=
  if is_lower c then ascii_of_nat (nat_of_ascii c - 32) else c.

(** [String.prototype.toLowerCase]. *)
Definition toLowerCase (s : string) : string :=
  text (map lower_char (chars s)).

(** [l] starts with [p]. *)
Fixpoint starts_with (p l : list ascii) : bool :=
  match p, l with
  | [], _ => true
  | a :: p', b :: l' => Ascii.eqb a b && starts_with p' l'
  | _ :: _, [] => false
  end.

(** [p] occurs somewhere in [l], scanning from the left. *)
Fixpoint occurs (p l : list ascii) : bool :=
  starts_with p l ||
  match l with
  | [] => false
  | _ :: l' => occurs p l'
  end.

(** [String.prototype.includes]. *)
Definition includes (s kw : string) : bool := occurs (chars kw) (chars s).

(** White space and line terminators of the 8-bit range, as [trim]
    strips them: tab, line feed, vertical tab, form feed, carriage
    return, space and the no-break space U+00A0. *)
Definition is_space (c : ascii) : bool :=
  match nat_of_ascii c with
  | 9%nat | 10%nat | 11%nat | 12%nat | 13%nat | 32%nat | 160%nat => true
  | _ => false
  end.

Fixpoint drop_space (l : list ascii) : list ascii :=
  match l with
  | c :: l' => if is_space c then drop_space l' else l
  | [] => []
  end.

(** [String.prototype.trim]. *)
Definition trim (s : string) : string :=
  text (rev (drop_space (rev (drop_space (chars s))))).

(** [Array.prototype.join] on texts. *)
Fixpoint join (sep : string) (l : list string) : string :=
  match l with
  | [] => EmptyString
  | [s] => s
  | s :: l' => s +:+ sep +:+ join sep l'
  end.

End Text.

(** ** Regular expressions

    The fragment of ECMAScript patterns the sources use: literal
    characters, the dot, the class of all characters, a greedy star over
    one character class, concatenation and alternation. *)

Module Regex.

Inductive cclass : Type :=
| CLit (c : ascii)      (* a literal character *)
| CDot                  (* [.]: anything but a line terminator *)
| CAll.                 (* [[\s\S]]: anything *)

Inductive regex : Type :=
| REps
| RClass (k : cclass)
| RStar (k : cclass)
| RCat (r1 r2 : regex)
| RAlt (r1 r2 : regex).

(** Does the character [x] belong to the class, under the ignore-case
    flag [ic]? Under the flag two units match when their upper-case
    forms are the same unit; a unit whose upper-case form lies outside
    the 8-bit range or is more than one unit long (U+00B5, U+00DF,
    U+00FF) matches itself only. *)
Definition class_ok (ic : bool) (k : cclass) (x : ascii) : bool :=
  match k with
  | CLit c =>
      if ic then Ascii.eqb (Text.upper_char x) (Text.upper_char c)
      else Ascii.eqb x c
  | CDot => negb (Nat.eqb (nat_of_ascii x) 10 || Nat.eqb (nat_of_ascii x) 13)
  | CAll => true
  end.

(** The pattern of a literal text. *)
Fixpoint lit_chars (l : list ascii) : regex :=
  match l with
  | [] => REps
  | [c] => RClass (CLit c)
  | c :: l' => RCat (RClass (CLit c)) (lit_chars l')
  end.
Definition lit (s : string) : regex := lit_chars (Text.chars s).

Section Backtracking.
Context {A : Type}.

(** Greedy star: take as many characters of the class as possible and
    give them back one at a time until the continuation succeeds. *)
Fixpoint star_greedy (ok : ascii -> bool) (s : list ascii)
    (k : list ascii -> option A) : option A :=
  match s with
  | x :: s' =>
      if ok x then
        match star_greedy ok s' k with
        | Some a => Some a
        | None => k s
        end
      else k s
  | [] => k s
  end.

(** The backtracking matcher: match [r] at the head of [s], then run the
    continuation on what is left; the first success in priority order
    wins. *)
Fixpoint run (ic : bool) (r : regex) (s : list ascii)
    (k : list ascii -> option A) : option A :=
  match r with
  | REps => k s
  | RClass c =>
      match s with
      | x :: s' => if class_ok ic c x then k s' else None
      | [] => None
      end
  | RStar c => star_greedy (class_ok ic c) s k
  | RCat r1 r2 => run ic r1 s (fun s' => run ic r2 s' k)
  | RAlt r1 r2 =>
      match run ic r1 s k with
      | Some a => Some a
      | None => run ic r2 s k
      end
  end.

End Backtracking.

(** The leftmost match: the text before it and the matched text. *)
Fixpoint search_from (ic : bool) (r : regex) (before s : list ascii)
    : option (list ascii * list ascii) :=
  match run ic r s (fun rest => Some rest) with
  | Some rest => Some (rev before, firstn (length s - length rest) s)
  | None =>
      match s with
      | [] => None
      | x :: s' => search_from ic r (x :: before) s'
      end
  end.

(** [String.prototype.match] with a pattern that has no global flag: the
    matched text (element 0 of the result), or nothing. *)
Definition str_match (ic : bool) (r : regex) (s : string) : option string :=
  match search_from ic r [] (Text.chars s) with
  | Some (_, m) => Some (Text.text m)
  | None => None
  end.

(** [RegExp.prototype.test]. *)
Definition test (ic : bool) (r : regex) (s : string) : bool :=
  match search_from ic r [] (Text.chars s) with
  | Some _ => true
  | None => false
  end.

(** The language of a pattern, declaratively. *)
Inductive matches (ic : bool) : regex -> list ascii -> Prop :=
| M_eps : matches ic REps []
| M_class k x : class_ok ic k x = true -> matches ic (RClass k) [x]
| M_star_nil k : matches ic (RStar k) []
| M_star_cons k x w :
    class_ok ic k x = true -> matches ic (RStar k) w ->
    matches ic (RStar k) (x :: w)
| M_cat r1 r2 w1 w2 :
    matches ic r1 w1 -> matches ic r2 w2 -> matches ic (RCat r1 r2) (w1 ++ w2)
| M_alt_l r1 r2 w : matches ic r1 w -> matches ic (RAlt r1 r2) w
| M_alt_r r1 r2 w : matches ic r2 w -> matches ic (RAlt r1 r2) w.

End Regex.

(** ** JavaScript values *)

Module JS.

Inductive jsval : Type :=
| JUndefined
| JNull
| JBool (b : bool)
| JNum (repr : string)
| JStr (s : string)
| JArr (items : list jsval)
| JObj (fields : list (string * jsval)).

(** Truthiness, as [if (v)], [!v] and [a || b] test it. *)
Definition truthy (v : jsval) : bool :=
  match v with
  | JUndefined | JNull => false
  | JBool b => b
  | JNum r => negb (String.eqb r "0") && negb (String.eqb r "NaN")
  | JStr s => negb (String.eqb s "")
  | JArr _ | JObj _ => true
  end.

Fixpoint assoc (name : string) (fs : list (string * jsval)) : jsval :=
  match fs with
  | [] => JUndefined
  | (k, v) :: fs' => if String.eqb k name then v else assoc name fs'
  end.

(** Reading the property [name] of [v]. Reading a property of
    [undefined] or [null] raises a TypeError ([None]). The names the
    sources read are own data properties only: none is a built-in
    property of a string, a number or an array. *)
Definition prop (v : jsval) (name : string) : option jsval :=
  match v with
  | JUndefined | JNull => None
  | JObj fs => Some (assoc name fs)
  | _ => Some JUndefined
  end.

(** Reading [v[0]]. *)
Definition index0 (v : jsval) : option jsval :=
  match v with
  | JUndefined | JNull => None
  | JArr (x :: _) => Some x
  | JStr (String c _) => Some (JStr (String c EmptyString))
  | JObj fs => Some (assoc "0" fs)
  | _ => Some JUndefined
  end.

(** The conversion to text that a template literal applies; [None]
    when it throws a TypeError. An array is converted by joining the
    texts of its elements, with the empty text for [undefined] and
    [null]. An object is converted through its [toString] and [valueOf]
    properties: the inherited ones yield the text [object Object]; an
    own property toString of a parsed value is not callable, an own or
    inherited [valueOf] then yields no primitive, and the conversion
    throws. *)
Fixpoint ToString (v : jsval) : option string :=
  match v with
  | JUndefined => Some "undefined"
  | JNull => Some "null"
  | JBool true => Some "true"
  | JBool false => Some "false"
  | JNum r => Some r
  | JStr s => Some s
  | JArr items =>
      option_map (Text.join ",")
        ((fix each (l : list jsval) : option (list string) :=
            match l with
            | [] => Some []
            | x :: l' =>
                match (match x with
                       | JUndefined | JNull => Some EmptyString
                       | _ => ToString x
                       end), each l' with
                | Some t, Some ts => Some (t :: ts)
                | _, _ => None
                end
            end) items)
  | JObj fs =>
      if existsb (fun kv => String.eqb (fst kv) "toString") fs then None
      else Some "[object Object]"
  end.

(** [items.join(sep)] on an array. *)
Fixpoint elementTexts (items : list jsval) : option (list string) :=
  match items with
  | [] => Some []
  | x :: items' =>
      match (match x with
             | JUndefined | JNull => Some EmptyString
             | _ => ToString x
             end), elementTexts items' with
      | Some t, Some ts => Some (t :: ts)
      | _, _ => None
      end
  end.

Definition Array_join (sep : string) (items : list jsval) : option string :=
  option_map (Text.join sep) (elementTexts items).

(** Is the number carried by the text [r] greater than zero? The text
    of a number is 0 for both zeros, starts with a minus sign for a
    negative number and is NaN for the one value that compares false
    with everything. *)
Definition positive (r : string) : bool :=
  negb (String.eqb r "0") && negb (String.eqb r "NaN")
  && negb (Text.starts_with (Text.chars "-") (Text.chars r)).

(** [JSON.stringify]. Serialising [undefined] yields [undefined]
    ([None]); inside an array it is written as null and inside an object
    the property is left out. *)
Definition hex_digit (n : nat) : ascii :=
  ascii_of_nat (if (n <? 10)%nat then 48 + n else 87 + n).

Definition quote_char (c : ascii) : list ascii :=
  let bs := ascii_of_nat 92 in
  match nat_of_ascii c with
  | 34%nat => [bs; c]
  | 92%nat => [bs; c]
  | 8%nat => [bs; ascii_of_nat 98]
  | 9%nat => [bs; ascii_of_nat 116]
  | 10%nat => [bs; ascii_of_nat 110]
  | 12%nat => [bs; ascii_of_nat 102]
  | 13%nat => [bs; ascii_of_nat 114]
  | n =>
      if (n <? 32)%nat then
        [bs; ascii_of_nat 117; ascii_of_nat 48; ascii_of_nat 48;
         hex_digit (n / 16); hex_digit (n mod 16)]
      else [c]
  end.

Definition quote (s : string) : string :=
  let q := String (ascii_of_nat 34) EmptyString in
  q +:+ Text.text (flat_map quote_char (Text.chars s)) +:+ q.

Fixpoint stringify (v : jsval) : option string :=
  match v with
  | JUndefined => None
  | JNull => Some "null"
  | JBool true => Some "true"
  | JBool false => Some "false"
  | JNum r =>
      Some (if String.eqb r "NaN" || String.eqb r "Infinity"
               || String.eqb r "-Infinity" then "null" else r)
  | JStr s => Some (quote s)
  | JArr items =>
      Some ("[" +:+
            Text.join ","
              (map (fun x => match stringify x with
                             | Some t => t
                             | None => "null"
                             end) items) +:+ "]")
  | JObj fs =>
      Some ("{" +:+
            Text.join ","
              (flat_map (fun kv => let '(k, x) := kv in
                                   match stringify x with
                                   | Some t => [quote k +:+ ":" +:+ t]
                                   | None => []
                                   end) fs) +:+ "}")
  end.

(** A template literal around [JSON.stringify(v)]. *)
Definition stringify_in_template (v : jsval) : string :=
  match stringify v with
  | Some t => t
  | None => "undefined"
  end.

(** Strict equality with a text: [v === s]. *)
Definition is_str (v : jsval) (s : string) : bool :=
  match v with
  | JStr t => String.eqb t s
  | _ => false
  end.

Definition is_object (v : jsval) : bool :=
  match v with JObj _ => true | _ => false end.

(** The object [v] has a property called [name]. *)
Definition has_field (v : jsval) (name : string) : bool :=
  match v with
  | JObj fs => existsb (fun kv => String.eqb (fst kv) name) fs
  | _ => false
  end.

End JS.

(** ** The TTL cache store *)

Module Cache.
Import JS.

(** Modelled from the spec: the TTL cache store is the npm package
    node-cache, which is not under src/. Section 4.1 gives its contract:
    [get] yields the value or a miss, a read after the entry's expiry is
    a miss (checked lazily at read time), [set] overwrites any entry of
    the key and takes the time to live in seconds, and reads have no
    side effect. An entry is live while the clock has not passed its
    expiry. *)
Record entry : Type := { value : jsval; expiresAt : Z }.

(** Modelled from the spec: [get(key)], read at the clock reading
    [now]; a miss is [None]. *)
Definition get (c : gmap string entry) (key : string) (now : Z)
    : option jsval :=
  match c !! key with
  | Some e => if expiresAt e <? now then None else Some (value e)
  | None => None
  end.

(** Modelled from the spec: [set(key, value, ttlSeconds)], written at
    the clock reading [now]. *)
Definition set (c : gmap string entry) (key : string) (v : jsval)
    (ttlSeconds : Z) (now : Z) : gmap string entry :=
  <[key := {| value := v; expiresAt := now + ttlSeconds * 1000 |}]> c.

End Cache.

(** ** The sliding-window rate limiter (alerts router) *)

Module RateLimit.

Definition RATE_LIMIT_WINDOW : Z := 60000.
Definition MAX_API_CALLS_PER_MINUTE : nat := 20.

(** [checkRateLimit(identifier)] on the module-level map
    [apiCallLimiter], at the clock reading [now]. *)
Definition checkRateLimit (now : Z) (identifier : string)
    (apiCallLimiter : gmap string (list Z)) : bool * gmap string (list Z) :=
  let userCalls := default [] (apiCallLimiter !! identifier) in
  let recentCalls :=
    List.filter (fun timestamp => now - timestamp <? RATE_LIMIT_WINDOW)
      userCalls in
  if (MAX_API_CALLS_PER_MINUTE <=? length recentCalls)%nat then
    (false, apiCallLimiter)
  else
    (true, <[identifier := recentCalls ++ [now]]> apiCallLimiter).

(** A run of admission checks by one caller at the given clock
    readings: the decisions and the final map. *)
Fixpoint admit_all (identifier : string) (times : list Z)
    (m : gmap string (list Z)) : list bool * gmap string (list Z) :=
  match times with
  | [] => ([], m)
  | t :: times' =>
      let '(b, m') := checkRateLimit t identifier m in
      let '(bs, m'') := admit_all identifier times' m' in
      (b :: bs, m'')
  end.

End RateLimit.

(** ** The alerts router: provider fetchers and the aggregation route *)

Module Alerts.
Import JS.

(** The six data domains, one fetcher each. *)
Inductive domain : Type :=
| Weather | AirQuality | Traffic | Health | Crime | Markets.

(** What awaiting [queryPerplexity] yields inside a fetcher: the call
    throws (time-out, transport or upstream error, malformed envelope),
    or it returns the content text of the first choice. A content that
    is not a text makes [response.match] throw in the same [try] block,
    with the same effect as a call that throws, and is read as
    [Threw]. *)
Inductive reply : Type :=
| Threw
| Content (response : string).

(** The surroundings of one request: the readings of [Date], the
    behaviour of the upstream service for each domain when it is
    called, and of the runtime: its reading of a text as a number
    (StringToNumber, on floating-point numbers), of which the code only
    asks whether it is greater than zero, the message it gives the
    TypeError of a failed conversion to text, and whether [NODE_ENV] is
    the text production. *)
Record world : Type := {
  Date_now : Z;                  (* Date.now(), milliseconds *)
  Date_toDateString : string;    (* new Date().toDateString() *)
  Date_toISOString : string;     (* new Date().toISOString() *)
  queryPerplexity : domain -> reply;
  Number_positive : string -> bool;  (* Number(text) > 0 *)
  TypeError_message : string;
  NODE_ENV_production : bool
}.

(** The module-level state: the rate-limit map and the cache; with it,
    the trace of the domains whose fetcher went to the upstream. *)
Record state : Type := {
  apiCallLimiter : gmap string (list Z);
  cache : gmap string Cache.entry;
  upstreamCalls : list domain
}.

Definition with_cache (st : state) (c : gmap string Cache.entry) : state :=
  {| apiCallLimiter := apiCallLimiter st; cache := c;
     upstreamCalls := upstreamCalls st |}.
Definition with_limiter (st : state) (m : gmap string (list Z)) : state :=
  {| apiCallLimiter := m; cache := cache st;
     upstreamCalls := upstreamCalls st |}.
Definition with_call (st : state) (d : domain) : state :=
  {| apiCallLimiter := apiCallLimiter st; cache := cache st;
     upstreamCalls := upstreamCalls st ++ [d] |}.

(** The payload each fetcher substitutes when parsing fails and returns
    when the upstream call throws (the two literals of a fetcher are
    the same object). *)
Definition default_payload (d : domain) : jsval :=
  match d with
  | Weather =>
      JObj [("temperature", JStr "N/A"); ("feelsLike", JStr "N/A");
            ("conditions", JStr "Data unavailable"); ("humidity", JStr "N/A");
            ("uvIndex", JStr "N/A"); ("windSpeed", JStr "N/A");
            ("precipitation", JBool false); ("heatWarning", JBool false)]
  | AirQuality =>
      JObj [("aqi", JStr "N/A"); ("quality", JStr "Data unavailable");
            ("pm25", JStr "N/A"); ("pollutants", JArr []);
            ("healthImpact", JNull)]
  | Traffic =>
      JObj [("conditions", JStr "Moderate"); ("estimatedDelay", JStr "N/A");
            ("closures", JArr [JStr "No major closures reported"]);
            ("accidents", JArr []); ("hotspots", JArr [])]
  | Health =>
      JObj [("pollenCount", JStr "Moderate"); ("fluActivity", JStr "Low");
            ("allergens", JArr []); ("covidUpdates", JArr []);
            ("healthAdvisories", JArr [])]
  | Crime =>
      JObj [("shootings", JArr []); ("robberies", JArr []);
            ("incidents", JArr []); ("areasToAvoid", JArr [])]
  | Markets =>
      JObj [("bankHolidays", JArr []); ("marketClosures", JArr []);
            ("businessHours", JArr []); ("governmentOffices", JArr [])]
  end.

(** The third argument of each fetcher's [cache.set], in seconds. *)
Definition ttl_seconds (d : domain) : Z :=
  match d with
  | Weather => 600
  | AirQuality => 600
  | Traffic => 300
  | Health => 1800
  | Crime => 1800
  | Markets => 3600
  end.

(** The pattern [/\{[\s\S]*\}/] every fetcher applies to the reply. *)
Definition jsonPattern : Regex.regex :=
  Regex.RCat (Regex.RClass (Regex.CLit "{"))
    (Regex.RCat (Regex.RStar Regex.CAll) (Regex.RClass (Regex.CLit "}"))).

(** [jsonMatch ? jsonMatch[0] : response]: the text handed to
    [JSON.parse]. *)
Definition jsonText (response : string) : string :=
  match Regex.str_match false jsonPattern response with
  | Some m => m
  | None => response
  end.

(** How a promise handed to [Promise.allSettled] settles. *)
Inductive settled : Type :=
| Fulfilled (value : jsval)
| Rejected.

Section WithParser.

(** [JSON.parse]: the parsed value, or [None] when it throws. *)
Variable JSON_parse : string -> option jsval.

(** The body the six fetchers share, after the cache key is computed:
    return a truthy cached value; otherwise build the prompt and call
    the upstream; when building the prompt or the call throws return the
    default payload; otherwise parse the extracted text, substitute the
    default payload when parsing throws, write the result to the cache
    and return it.

    The prompt is built inside the [try] block. Its text does not reach
    the result (the behaviour of the upstream is given per domain), so
    of the prompt only [promptBuilt] is kept: whether building it
    completed. When it did not, the handler of the [try] block returns
    the default payload and no call is made. *)
Definition fetchData (d : domain) (cacheKey : string) (promptBuilt : bool)
    (w : world) (st : state) : jsval * state :=
  let cached := Cache.get (cache st) cacheKey (Date_now w) in
  if truthy (default JUndefined cached) then (default JUndefined cached, st)
  else if negb promptBuilt then (default_payload d, st)
  else
    let st := with_call st d in
    match queryPerplexity w d with
    | Threw => (default_payload d, st)
    | Content response =>
        let data :=
          match JSON_parse (jsonText response) with
          | Some parsed => parsed
          | None => default_payload d
          end in
        (data,
         with_cache st
           (Cache.set (cache st) cacheKey data (ttl_seconds d) (Date_now w)))
    end.

(** The key of a location-scoped domain, built before the [try] block:
    the promise rejects when [location] is [undefined] or [null] and
    when the latitude or the longitude has no conversion to text. *)
Definition locationKey (prefix : string) (location : jsval) : option string :=
  match prop location "lat", prop location "lng" with
  | Some lat, Some lng =>
      match ToString lat, ToString lng with
      | Some latText, Some lngText =>
          Some (prefix +:+ latText +:+ "_" +:+ lngText)
      | _, _ => None
      end
  | _, _ => None
  end.

Definition fetchByLocation (d : domain) (prefix : string) (promptBuilt : bool)
    (w : world) (location : jsval) (st : state) : settled * state :=
  match locationKey prefix location with
  | Some cacheKey =>
      let '(data, st') := fetchData d cacheKey promptBuilt w st in
      (Fulfilled data, st')
  | None => (Rejected, st)
  end.

(** The prompts of the weather, air-quality, traffic and crime fetchers
    are fixed texts. *)
Definition getWeatherData (w : world) (location : jsval) (st : state) :=
  fetchByLocation Weather "weather_" true w location st.

Definition getAirQualityData (w : world) (location : jsval) (st : state) :=
  fetchByLocation AirQuality "air_quality_" true w location st.

Definition getTrafficData (w : world) (location : jsval) (st : state) :=
  fetchByLocation Traffic "traffic_" true w location st.

(** [v > 0] for the value [v] of [allergies.length] when [allergies] is
    an object; [None] when converting [v] to a number throws. *)
Definition greaterThanZero (w : world) (v : jsval) : option bool :=
  match v with
  | JUndefined | JNull => Some false
  | JBool b => Some b
  | JNum r => Some (positive r)
  | JStr s => Some (Number_positive w s)
  | JArr _ => option_map (Number_positive w) (ToString v)
  | JObj _ =>
      match ToString v with
      | Some _ => Some false    (* [object Object] reads as NaN *)
      | None => None
      end
  end.

(** The allergies sentence of the health prompt:
    [userPreferences.allergies && userPreferences.allergies.length > 0
       ? `Pay special attention to these allergens: ${...join(', ')}.`
       : ''];
    [None] when it throws. A text has a positive length and no [join];
    an object has no callable [join] either. *)
Definition allergiesFilter (w : world) (userPreferences : jsval)
    : option string :=
  match prop userPreferences "allergies" with
  | None => None
  | Some allergies =>
      if negb (truthy allergies) then Some EmptyString
      else
        match allergies with
        | JArr [] => Some EmptyString
        | JArr items =>
            option_map
              (fun joined =>
                 "Pay special attention to these allergens: " +:+ joined +:+ ".")
              (Array_join ", " items)
        | JStr _ => None
        | JObj fs =>
            match greaterThanZero w (assoc "length" fs) with
            | Some false => Some EmptyString
            | _ => None
            end
        | _ => Some EmptyString
        end
  end.

(** Whether the fetcher of a domain gets its prompt built. Only the
    health prompt interpolates data of the request; the market prompt
    interpolates the date, formatted by the runtime. *)
Definition promptBuilds (d : domain) (w : world) (userPreferences : jsval)
    : bool :=
  match d with
  | Health =>
      match allergiesFilter w userPreferences with
      | Some _ => true
      | None => false
      end
  | _ => true
  end.

Definition getHealthData (w : world) (location userPreferences : jsval)
    (st : state) :=
  fetchByLocation Health "health_" (promptBuilds Health w userPreferences)
    w location st.

Definition getCrimeData (w : world) (location : jsval) (st : state) :=
  fetchByLocation Crime "crime_" true w location st.

Definition getMarketData (w : world) (location : jsval) (st : state)
    : settled * state :=
  let cacheKey := "markets_" +:+ Date_toDateString w in
  let '(data, st') := fetchData Markets cacheKey true w st in
  (Fulfilled data, st').

(** The fetcher of a domain, for statements that range over the six. *)
Definition fetcher (d : domain) (w : world) (location userPreferences : jsval)
    (st : state) : settled * state :=
  match d with
  | Weather => getWeatherData w location st
  | AirQuality => getAirQualityData w location st
  | Traffic => getTrafficData w location st
  | Health => getHealthData w location userPreferences st
  | Crime => getCrimeData w location st
  | Markets => getMarketData w location st
  end.

(** *** POST /environmental-data *)

(** The request: the two properties destructured from the JSON body
    ([JUndefined] when absent) and the caller's address. *)
Record request : Type := {
  location : jsval;
  userPreferences : jsval;
  clientIP : string
}.

Record response : Type := { status : Z; body : jsval }.

(** [v.name] where the guard before it has made sure [v] is truthy. *)
Definition field (v : jsval) (name : string) : jsval :=
  default JUndefined (prop v name).

(** The negation of the guard
    [!location || !location.lat || !location.lng || !location.address]. *)
Definition has_location (location : jsval) : bool :=
  truthy location && truthy (field location "lat")
  && truthy (field location "lng") && truthy (field location "address").

Definition missingLocation : response :=
  {| status := 400;
     body := JObj [("error", JStr "Missing required location data");
                   ("required", JArr [JStr "location.lat";
                                      JStr "location.lng";
                                      JStr "location.address"])] |}.

Definition rateLimitExceeded : response :=
  {| status := 429;
     body := JObj [("error", JStr "Rate limit exceeded");
                   ("message",
                    JStr "Too many requests. Please try again in a minute.")] |}.

Definition settledValue (r : settled) : jsval :=
  match r with
  | Fulfilled v => v
  | Rejected => JNull
  end.

(** The answer of the handler's [catch]. The errors it catches are the
    TypeErrors of a conversion to text. *)
Definition routeError (w : world) : response :=
  {| status := 500;
     body := JObj [("error", JStr "Failed to fetch environmental data");
                   ("message",
                    JStr (if NODE_ENV_production w then "Internal server error"
                          else TypeError_message w))] |}.

(** The comprehensive cache key of the route; [None] when the latitude
    or the longitude has no conversion to text. *)
Definition environmentalKey (req : request) : option string :=
  match ToString (field (location req) "lat"),
        ToString (field (location req) "lng") with
  | Some latText, Some lngText =>
      Some ("environmental_data_" +:+ latText +:+ "_" +:+ lngText +:+ "_"
            +:+ stringify_in_template (userPreferences req))
  | _, _ => None
  end.

(** [userPreferences || {}], the second argument of [getHealthData]. *)
Definition preferencesOrEmpty (req : request) : jsval :=
  if truthy (userPreferences req) then userPreferences req else JObj [].

(** The aggregation proper: the part of the handler behind validation
    and admission. An exception while the key is built, or while the
    address is interpolated in the log line that precedes the fan-out,
    is caught by the handler's [catch]. The six fetchers start in
    source order and write to keys with six different prefixes, so
    running them one after the other yields the state that any
    interleaving of their completions yields. *)
Definition aggregate (w : world) (req : request) (st : state)
    : response * state :=
  match environmentalKey req with
  | None => (routeError w, st)
  | Some cacheKey =>
      let cachedData := Cache.get (cache st) cacheKey (Date_now w) in
      if truthy (default JUndefined cachedData) then
        ({| status := 200; body := default JUndefined cachedData |}, st)
      else
        match ToString (field (location req) "address") with
        | None => (routeError w, st)
        | Some _ =>
            let '(weather, st) := getWeatherData w (location req) st in
            let '(airQuality, st) := getAirQualityData w (location req) st in
            let '(traffic, st) := getTrafficData w (location req) st in
            let '(health, st) :=
              getHealthData w (location req) (preferencesOrEmpty req) st in
            let '(crime, st) := getCrimeData w (location req) st in
            let '(markets, st) := getMarketData w (location req) st in
            let environmentalData :=
              JObj [("weather", settledValue weather);
                    ("airQuality", settledValue airQuality);
                    ("traffic", settledValue traffic);
                    ("health", settledValue health);
                    ("crime", settledValue crime);
                    ("markets", settledValue markets);
                    ("lastUpdated", JStr (Date_toISOString w));
                    ("location", field (location req) "address")] in
            ({| status := 200; body := environmentalData |},
             with_cache st
               (Cache.set (cache st) cacheKey environmentalData 300
                  (Date_now w)))
        end
  end.

(** The handler of [router.post('/environmental-data')]. *)
Definition postEnvironmentalData (w : world) (req : request) (st : state)
    : response * state :=
  if negb (has_location (location req)) then (missingLocation, st)
  else
    let '(admitted, limiter) :=
      RateLimit.checkRateLimit (Date_now w) (clientIP req)
        (apiCallLimiter st) in
    if negb admitted then (rateLimitExceeded, st)
    else aggregate w req (with_limiter st limiter).

End WithParser.

(** *** DELETE /cache/clear *)

(** The handler of [router.delete('/cache/clear')]; [production] says
    whether [NODE_ENV] is the text production. Modelled from the spec:
    [flushAll] of the TTL cache store clears all entries. *)
Definition cacheClear (production : bool) (st : state) : response * state :=
  if negb production then
    ({| status := 200;
        body := JObj [("message", JStr "Cache cleared successfully")] |},
     with_cache st ∅)
  else
    ({| status := 404; body := JObj [("error", JStr "Not found")] |}, st).

End Alerts.

(** ** The chat router: classifier, prompt builders and the send route *)

Module Chat.
Import JS.

(** The two AI backends, as the texts the code tags a response with. *)
Inductive aiSource : Type :=
| perplexity
| gemini.

Definition realTimeKeywords : list string :=
  ["news"; "breaking"; "latest"; "recent"; "today";
   "yesterday"; "this week"; "current events"; "happening now"; "live";
   "update"; "announcement"; "press release"; "weather"; "temperature";
   "rain"; "snow"; "forecast"; "climate"; "storm";
   "hurricane"; "sunny"; "cloudy"; "wind"; "humidity";
   "verify"; "fact check"; "is it true"; "confirm"; "validate";
   "check if"; "real or fake"; "stock price"; "market"; "trading";
   "nasdaq"; "dow jones"; "cryptocurrency"; "bitcoin"; "score";
   "game result"; "match"; "tournament"; "championship"; "playoffs";
   "traffic"; "road conditions"; "accident"; "construction"; "transit";
   "flight status"; "right now"; "at this moment"; "currently"; "as of today";
   "real time"; "live data"; "status"; "availability"; "open now";
   "closed"; "hours of operation"; "upcoming"; "this year"; "this month";
   "next week"; "next day"; "as of now"; "tomorrow"].

Definition dotStar : Regex.regex := Regex.RStar Regex.CDot.

Definition timeSensitivePatterns : list Regex.regex :=
  [ (* /what.*(happened|happening).*today/i *)
    Regex.RCat (Regex.lit "what")
      (Regex.RCat dotStar
         (Regex.RCat (Regex.RAlt (Regex.lit "happened") (Regex.lit "happening"))
            (Regex.RCat dotStar (Regex.lit "today"))));
    (* /latest.*on/i *)
    Regex.RCat (Regex.lit "latest") (Regex.RCat dotStar (Regex.lit "on"));
    (* /current.*status/i *)
    Regex.RCat (Regex.lit "current") (Regex.RCat dotStar (Regex.lit "status"));
    (* /is.*open.*now/i *)
    Regex.RCat (Regex.lit "is")
      (Regex.RCat dotStar
         (Regex.RCat (Regex.lit "open") (Regex.RCat dotStar (Regex.lit "now"))));
    (* /weather.*in/i *)
    Regex.RCat (Regex.lit "weather") (Regex.RCat dotStar (Regex.lit "in"));
    (* /news.*about/i *)
    Regex.RCat (Regex.lit "news") (Regex.RCat dotStar (Regex.lit "about"));
    (* /stock.*price/i *)
    Regex.RCat (Regex.lit "stock") (Regex.RCat dotStar (Regex.lit "price"));
    (* /verify.*that/i *)
    Regex.RCat (Regex.lit "verify") (Regex.RCat dotStar (Regex.lit "that"));
    (* /fact.*check/i *)
    Regex.RCat (Regex.lit "fact") (Regex.RCat dotStar (Regex.lit "check")) ].

Definition determineAiSource (query : string) : aiSource :=
  let queryLower := Text.toLowerCase query in
  let needsRealTimeInfo :=
    existsb (fun keyword => Text.includes queryLower keyword)
      realTimeKeywords in
  let hasTimeSensitivePattern :=
    existsb (fun pattern => Regex.test true pattern query)
      timeSensitivePatterns in
  if needsRealTimeInfo || hasTimeSensitivePattern then perplexity else gemini.

(** [array.slice(-n)]: the last [n] elements. *)
Definition slice_last {A : Type} (n : nat) (l : list A) : list A :=
  skipn (length l - n) l.

(** [msg.parts[0].text]; [None] when a step reads a property of
    [undefined] or [null]. *)
Definition partsText (msg : jsval) : option jsval :=
  match prop msg "parts" with
  | Some parts =>
      match index0 parts with
      | Some part0 => prop part0 "text"
      | None => None
      end
  | None => None
  end.

(** One line of the conversation context of the system prompt. *)
Definition contextLine (msg : jsval) : option string :=
  match prop msg "role", partsText msg with
  | Some role, Some text =>
      match ToString text with
      | Some shown =>
          Some ((if is_str role "user" then "User" else "Assistant")
                +:+ ": " +:+ shown)
      | None => None
      end
  | _, _ => None
  end.

(** [Array.prototype.map] with a callback that may throw. *)
Fixpoint mapM {A B : Type} (f : A -> option B) (l : list A) : option (list B) :=
  match l with
  | [] => Some []
  | x :: l' =>
      match f x with
      | Some y =>
          match mapM f l' with
          | Some ys => Some (y :: ys)
          | None => None
          end
      | None => None
      end
  end.

(** The fixed pieces of the system prompt, between the interpolated
    values. *)
Definition promptHead : string := "You are **Orpheus**, a specialized civic assistant for Indianapolis, Indiana residents. You help with city services, public information, and civic duties.

**PRIMARY FOCUS**: Indianapolis city services, government, public utilities, civic engagement, local resources, and community information.

**USER INFORMATION**:
- Name: ".
Definition promptLocation : string := "
- Location: ".
Definition promptPhone : string := ", Indiana
- Phone: ".
Definition promptBloodGroup : string := "
- Blood Group: ".
Definition promptGender : string := "
- Gender: ".
Definition promptContext : string := "

**CONVERSATION CONTEXT**:
".
Definition promptTail : string := "

**YOUR ROLE**:
- Help with Indianapolis city services (permits, utilities, trash collection, etc.)
- Provide information about local government, city council, mayor's office
- Assist with civic duties (voting, jury duty, taxes, etc.)
- Share resources for Indianapolis residents (libraries, parks, public transportation)
- Guide users to appropriate city departments and services
- Answer questions about Indianapolis neighborhoods, zip codes, and local areas

**INTERACTION GUIDELINES**:
- Keep responses concise (1-3 sentences) unless detailed explanation is needed
- Always personalize responses using the user's information when relevant
- For casual conversation, be friendly but steer back to civic topics when appropriate
- If asked about non-Indianapolis topics, politely redirect to local civic matters
- Provide specific Indianapolis department contact information when relevant
- Include relevant website links for city services when helpful

**RESPONSE STYLE**:
- Professional yet friendly tone
- Factual and helpful
- Include actionable steps when possible
- Reference specific Indianapolis services and departments

Remember: You specialize in Indianapolis civic services and public information. For general topics, provide brief responses and offer to help with Indianapolis-specific civic matters instead.".

Definition newline : string := String (ascii_of_nat 10) EmptyString.

(** [${userData.name}] and the like: the property read and converted
    to text. *)
Definition interpolated (v : jsval) (name : string) : option string :=
  match prop v name with
  | Some x => ToString x
  | None => None
  end.

(** [getSystemPrompt(conversationHistory, userData)]; [None] when it
    throws a TypeError. The parameter [userData] has the default [{}],
    which replaces [undefined] and nothing else. *)
Definition getSystemPrompt (conversationHistory : list jsval)
    (userData : jsval) : option string :=
  let userData :=
    match userData with
    | JUndefined => JObj []
    | _ => userData
    end in
  match
    (if (0 <? length conversationHistory)%nat then
       option_map (Text.join newline)
         (mapM contextLine (slice_last 6 conversationHistory))
     else Some EmptyString)
  with
  | Some contextHistory =>
      match interpolated userData "name", interpolated userData "zipCode",
            interpolated userData "phone", interpolated userData "bloodGroup",
            interpolated userData "gender" with
      | Some name, Some zipCode, Some phone, Some bloodGroup, Some gender =>
          Some (promptHead +:+ name
                +:+ promptLocation +:+ zipCode
                +:+ promptPhone +:+ phone
                +:+ promptBloodGroup +:+ bloodGroup
                +:+ promptGender +:+ gender
                +:+ promptContext +:+ contextHistory
                +:+ promptTail)
      | _, _, _, _, _ => None
      end
  | None => None
  end.

(** The filter of [cleanedHistory]:
    [msg && msg.parts && msg.parts[0] && msg.parts[0].text]. *)
Definition hasText (msg : jsval) : bool :=
  truthy msg &&
  (let parts := default JUndefined (prop msg "parts") in
   truthy parts &&
   (let part0 := default JUndefined (index0 parts) in
    truthy part0 && truthy (default JUndefined (prop part0 "text")))).

(** The callback of [cleanedHistory]'s [map]: the role, with [other]
    for every role that is not the text user, and the trimmed text;
    [trim] is not a function unless the text is a string. *)
Definition cleanTurn (other : string) (msg : jsval) : option (string * string) :=
  match prop msg "role", partsText msg with
  | Some role, Some (JStr text) =>
      Some (if is_str role "user" then "user" else other, Text.trim text)
  | _, _ => None
  end.

Definition cleanedHistory (other : string) (conversationHistory : list jsval)
    : option (list (string * string)) :=
  mapM (cleanTurn other) (List.filter hasText (slice_last 5 conversationHistory)).

(** A message of the Perplexity request. *)
Record chatMessage : Type := { role : string; content : string }.

(** A part and a content of the Gemini request. *)
Inductive part : Type :=
| TextPart (text : string)
| InlineData (mime_type data : string).
Record contentItem : Type := { crole : string; parts : list part }.

Record fileData : Type := { base64Data : string; mimeType : string }.

(** The two upstream services and their configuration: whether each API
    key is set, and what posting a request yields ([None] when the post
    throws or the reply lacks the text the code reads from it). *)
Record services : Type := {
  PERPLEXITY_API_KEY : bool;
  GOOGLE_API_KEY : bool;
  perplexityPost : list chatMessage -> option string;
  geminiPost : list contentItem -> option string
}.

Definition perplexitySuffix : string := "

IMPORTANT: You have access to real-time information and web search. Provide current, accurate, and up-to-date information. Always cite your sources when providing recent information. And remeber every info is personalised for Indianapolis, Indiana".

Definition geminiAcknowledgement : string := "I understand. I'm Orpheus, your Indianapolis civic assistant. How can I help you with city services or civic matters today?".

(** The [messages] array of [callPerplexityAPI]. *)
Definition perplexityMessages (query : string) (conversationHistory : list jsval)
    (userData : jsval) : option (list chatMessage) :=
  match cleanedHistory "assistant" conversationHistory with
  | Some cleaned =>
      match getSystemPrompt conversationHistory userData with
      | Some systemPrompt =>
          Some ({| role := "system";
                   content := systemPrompt +:+ perplexitySuffix |}
                :: map (fun rc => {| role := fst rc; content := snd rc |}) cleaned
                ++ [{| role := "user"; content := Text.trim query |}])
      | None => None
      end
  | None => None
  end.

(** [callPerplexityAPI]; [None] when the promise rejects. *)
Definition callPerplexityAPI (svc : services) (query : string)
    (conversationHistory : list jsval) (userData : jsval) : option string :=
  if negb (PERPLEXITY_API_KEY svc) then None
  else
    match perplexityMessages query conversationHistory userData with
    | Some messages => perplexityPost svc messages
    | None => None
    end.

(** The [contents] array of [callGeminiAPI]. *)
Definition geminiContents (query : string) (conversationHistory : list jsval)
    (userData : jsval) (file : option fileData) : option (list contentItem) :=
  match cleanedHistory "model" conversationHistory with
  | Some cleaned =>
      let userParts :=
        TextPart (Text.trim query)
        :: match file with
           | Some f => [InlineData (mimeType f) (base64Data f)]
           | None => []
           end in
      let history :=
        map (fun rc => {| crole := fst rc; parts := [TextPart (snd rc)] |})
          cleaned in
      let current := [{| crole := "user"; parts := userParts |}] in
      if (length cleaned =? 0)%nat then
        match getSystemPrompt conversationHistory userData with
        | Some systemPrompt =>
            Some ({| crole := "user"; parts := [TextPart systemPrompt] |}
                  :: {| crole := "model";
                        parts := [TextPart geminiAcknowledgement] |}
                  :: history ++ current)
        | None => None
        end
      else Some (history ++ current)
  | None => None
  end.

(** [callGeminiAPI]; [None] when the promise rejects. An empty text in
    the reply is an invalid response format. *)
Definition callGeminiAPI (svc : services) (query : string)
    (conversationHistory : list jsval) (userData : jsval)
    (file : option fileData) : option string :=
  if negb (GOOGLE_API_KEY svc) then None
  else
    match geminiContents query conversationHistory userData file with
    | Some contents =>
        match geminiPost svc contents with
        | Some text => if String.eqb text "" then None else Some text
        | None => None
        end
    | None => None
    end.

(** *** POST /send *)

(** The multipart fields as multer delivers them: texts, or absent. *)
Record sendRequest : Type := {
  message : option string;
  conversationHistory : option string;
  userData : option string;
  file : option fileData
}.

(** The reply of the route. The [timestamp] of a success and the
    [message] of a failure, which echo the clock and the text of the
    upstream's error, are left out. *)
Inductive sendResponse : Type :=
| BadRequest (error : string)
| Success (response : string) (source : aiSource)
| ApiFailure (source : aiSource).

Section WithParser.

Variable JSON_parse : string -> option jsval.

(** [field ? JSON.parse(field) : fallback]; [None] when parsing throws. *)
Definition parseField (field : option string) (fallback : jsval)
    : option jsval :=
  match field with
  | Some text =>
      if String.eqb text "" then Some fallback else JSON_parse text
  | None => Some fallback
  end.

(** The orchestration proper (the inner [try] of the handler): the
    reply, and the backends called, in order. *)
Definition respond (svc : services) (query : string)
    (parsedHistory : list jsval) (parsedUserData : jsval)
    (file : option fileData) : sendResponse * list aiSource :=
  let source := determineAiSource query in
  match source with
  | perplexity =>
      match callPerplexityAPI svc query parsedHistory parsedUserData with
      | Some aiResponse => (Success aiResponse perplexity, [perplexity])
      | None =>
          match callGeminiAPI svc query parsedHistory parsedUserData file with
          | Some aiResponse => (Success aiResponse gemini, [perplexity; gemini])
          | None => (ApiFailure perplexity, [perplexity; gemini])
          end
      end
  | gemini =>
      match callGeminiAPI svc query parsedHistory parsedUserData file with
      | Some aiResponse => (Success aiResponse gemini, [gemini])
      | None => (ApiFailure gemini, [gemini])
      end
  end.

(** The handler of [router.post('/send')]. *)
Definition send (svc : services) (req : sendRequest)
    : sendResponse * list aiSource :=
  match message req with
  | None =>
      (BadRequest "Message is required and must be a non-empty string", [])
  | Some query =>
      if String.eqb (Text.trim query) "" then
        (BadRequest "Message is required and must be a non-empty string", [])
      else
        match parseField (conversationHistory req) (JArr []),
              parseField (userData req) (JObj []) with
        | Some parsedHistory, Some parsedUserData =>
            match parsedHistory with
            | JArr history =>
                respond svc query history parsedUserData (file req)
            | _ => (BadRequest "conversationHistory must be an array", [])
            end
        | _, _ =>
            (BadRequest "Invalid JSON in conversationHistory or userData", [])
        end
  end.

End WithParser.

End Chat.

(** ** The application: uploads and the global error handler *)

Module Server.
Import JS.

(** *** The file filter of the upload middleware *)

Definition supportedTypes : list string :=
  ["image/png"; "image/jpeg"; "image/webp"; "image/heic"; "image/heif";
   "audio/wav"; "audio/mp3"; "audio/aiff"; "audio/aac"; "audio/ogg"; "audio/flac";
   "video/mp4"; "video/mpeg"; "video/mov"; "video/avi"; "video/x-flv"; "video/mpg";
   "video/webm"; "video/wmv"; "video/3gp";
   "text/plain"; "text/html"; "text/css"; "text/javascript"; "application/json";
   "application/pdf"; "application/rtf";
   "text/x-typescript"; "text/x-python"; "text/x-java"; "text/x-c"; "text/x-cpp";
   "text/x-csharp"; "text/x-php"; "text/x-ruby"; "text/x-go"; "text/x-rust";
   "text/x-swift"; "text/x-kotlin"; "text/x-scala"; "text/x-r"; "text/x-sql";
   "text/xml"; "application/xml"; "text/csv"; "application/vnd.ms-excel";
   "application/vnd.openxmlformats-officedocument.spreadsheetml.sheet"].

(** What [fileFilter] hands to its callback: the file is accepted, or an
    error is raised. *)
Inductive filtered : Type :=
| Accepted
| Refused (error : jsval).

(** [new Error(message)]: an object with the message and the stack
    trace the runtime records for it. *)
Definition newError (message stack : string) : jsval :=
  JObj [("message", JStr message); ("stack", JStr stack)].

(** [fileFilter(req, file, cb)], for a file of the given MIME type;
    [stack] is the stack trace of the error it may construct. *)
Definition fileFilter (mimetype stack : string) : filtered :=
  if existsb (String.eqb mimetype) supportedTypes then Accepted
  else Refused (newError ("Unsupported file type: " +:+ mimetype) stack).

(** *** The global error handler *)

Record reply : Type := { status : jsval; body : jsval }.

(** [error.name], for the truthy value Express hands to an error
    handler. *)
Definition member (error : jsval) (name : string) : jsval :=
  default JUndefined (prop error name).

(** [a || b]. *)
Definition or_else (a b : jsval) : jsval := if truthy a then a else b.

(** The handler [app.use((error, req, res, next) => ...)]; [production]
    says whether [NODE_ENV] is the text production. A property whose
    value is [undefined] is left out of the body when it is serialised,
    as [stringify] has it. *)
Definition errorHandler (production : bool) (error : jsval) : reply :=
  if is_str (member error "type") "entity.parse.failed" then
    {| status := JNum "400";
       body := JObj [("error", JStr "Invalid JSON payload");
                     ("message", JStr "Please check your request format")] |}
  else if is_str (member error "code") "LIMIT_FILE_SIZE" then
    {| status := JNum "413";
       body := JObj [("error", JStr "File too large");
                     ("message",
                      JStr "File size exceeds the maximum limit of 10MB")] |}
  else
    let statusCode :=
      or_else (or_else (member error "statusCode") (member error "status"))
        (JNum "500") in
    let message :=
      if production then JStr "Internal server error"
      else member error "message" in
    {| status := statusCode;
       body := JObj (("error", message)
                     :: if negb production then [("stack", member error "stack")]
                        else []) |}.

End Server.

(** ** Vocabulary of the statements *)

Module Spec.

(** *** Classification *)

(** The text [needle] occurs in the text [hay]. *)
Definition contains_text (hay needle : string) : Prop :=
  exists pre post, Text.chars hay = pre ++ Text.chars needle ++ post.

(** Some substring of [s] is a word of [pattern], letter case ignored. *)
Definition pattern_found (pattern : Regex.regex) (s : string) : Prop :=
  exists pre w post,
    Text.chars s = pre ++ w ++ post /\ Regex.matches true pattern w.

(** The query holds a trigger term or fits a time-sensitive pattern. *)
Definition needs_live (query : string) : Prop :=
  (exists keyword, In keyword Chat.realTimeKeywords
                   /\ contains_text (Text.toLowerCase query) keyword)
  \/ (exists pattern, In pattern Chat.timeSensitivePatterns
                      /\ pattern_found pattern query).

(** *** Extraction of the JSON text *)

Definition lbrace : ascii := "{"%char.
Definition rbrace : ascii := "}"%char.

(** What follows the star in [Alerts.jsonPattern]: a closing brace. *)
Definition after_star (s : list ascii) : option (list ascii) :=
  Regex.run false (Regex.RClass (Regex.CLit rbrace)) s
    (fun rest => Some rest).

(** The first balanced JSON object substring of a text, in the words of
    section 4.3 of the specification: from the first opening brace that
    is ever closed to the brace that closes it, counting nested braces.
    [close_at depth l] is the prefix of [l] that ends at the brace
    closing [depth] braces still open besides the first. *)
Fixpoint close_at (depth : nat) (l : list ascii) : option (list ascii) :=
  match l with
  | [] => None
  | c :: l' =>
      if Ascii.eqb c lbrace then option_map (cons c) (close_at (S depth) l')
      else if Ascii.eqb c rbrace then
        match depth with
        | O => Some [c]
        | S d => option_map (cons c) (close_at d l')
        end
      else option_map (cons c) (close_at depth l')
  end.

Fixpoint first_balanced (l : list ascii) : option (list ascii) :=
  match l with
  | [] => None
  | c :: l' =>
      if Ascii.eqb c lbrace then
        match close_at 0 l' with
        | Some m => Some (c :: m)
        | None => first_balanced l'
        end
      else first_balanced l'
  end.

Definition first_balanced_object (s : string) : option string :=
  option_map Text.text (first_balanced (Text.chars s)).

(** *** Rate limiter *)

(** No caller has more than the maximum number of timestamps on
    record. *)
Definition limiter_bounded (m : gmap string (list Z)) : Prop :=
  forall identifier l,
    m !! identifier = Some l ->
    (length l <= RateLimit.MAX_API_CALLS_PER_MINUTE)%nat.

(** The clock reading [t] lies in the window that starts at [start]. *)
Definition in_window (start t : Z) : Prop :=
  start <= t < start + RateLimit.RATE_LIMIT_WINDOW.

(** *** Cache keys and times to live *)

(** The name of each domain as its cache keys start with it. *)
Definition key_prefix (d : Alerts.domain) : string :=
  match d with
  | Alerts.Weather => "weather_"
  | Alerts.AirQuality => "air_quality_"
  | Alerts.Traffic => "traffic_"
  | Alerts.Health => "health_"
  | Alerts.Crime => "crime_"
  | Alerts.Markets => "markets_"
  end.

(** The cache key of a domain for a request, when computing it does
    not throw: the name of the domain followed by the latitude and the
    longitude as supplied, or by the calendar date for the market
    domain. *)
Definition key_of (d : Alerts.domain) (w : Alerts.world)
    (location : JS.jsval) : option string :=
  match d with
  | Alerts.Markets => Some (key_prefix d +:+ Alerts.Date_toDateString w)
  | _ => Alerts.locationKey (key_prefix d) location
  end.

(** The time to live of each domain, in minutes, as the specification
    lists them. *)
Definition ttl_minutes (d : Alerts.domain) : Z :=
  match d with
  | Alerts.Traffic => 5
  | Alerts.Weather | Alerts.AirQuality => 10
  | Alerts.Health | Alerts.Crime => 30
  | Alerts.Markets => 60
  end.

(** No truthy value is cached under [key] at the time of the request. *)
Definition cache_miss (st : Alerts.state) (key : string) (w : Alerts.world)
    : Prop :=
  JS.truthy (default JS.JUndefined
               (Cache.get (Alerts.cache st) key (Alerts.Date_now w))) = false.

(** The cache key of a location-scoped domain as section 4.3 words it:
    the domain name and the coordinates after rounding. *)
Definition rounded_key (round : JS.jsval -> JS.jsval) (prefix : string)
    (lat lng : JS.jsval) : option string :=
  match JS.ToString (round lat), JS.ToString (round lng) with
  | Some latText, Some lngText =>
      Some (prefix +:+ latText +:+ "_" +:+ lngText)
  | _, _ => None
  end.

(** *** Shapes of payloads and of the snapshot *)

Definition all_domains : list Alerts.domain :=
  [Alerts.Weather; Alerts.AirQuality; Alerts.Traffic; Alerts.Health;
   Alerts.Crime; Alerts.Markets].

(** The fields of each domain payload, as the prompt of its fetcher and
    its default payload list them. *)
Definition required_fields (d : Alerts.domain) : list string :=
  match d with
  | Alerts.Weather =>
      ["temperature"; "feelsLike"; "conditions"; "humidity"; "uvIndex";
       "windSpeed"; "precipitation"; "heatWarning"]
  | Alerts.AirQuality =>
      ["aqi"; "quality"; "pm25"; "pollutants"; "healthImpact"]
  | Alerts.Traffic =>
      ["conditions"; "estimatedDelay"; "closures"; "accidents"; "hotspots"]
  | Alerts.Health =>
      ["pollenCount"; "fluActivity"; "allergens"; "covidUpdates";
       "healthAdvisories"]
  | Alerts.Crime => ["shootings"; "robberies"; "incidents"; "areasToAvoid"]
  | Alerts.Markets =>
      ["bankHolidays"; "marketClosures"; "businessHours"; "governmentOffices"]
  end.

(** A payload is well-formed for its domain when it is an object with
    every field of the domain. *)
Definition well_formed (d : Alerts.domain) (v : JS.jsval) : bool :=
  forallb (JS.has_field v) (required_fields d).

(** The field of the snapshot that holds a domain. *)
Definition snapshot_field (d : Alerts.domain) : string :=
  match d with
  | Alerts.Weather => "weather"
  | Alerts.AirQuality => "airQuality"
  | Alerts.Traffic => "traffic"
  | Alerts.Health => "health"
  | Alerts.Crime => "crime"
  | Alerts.Markets => "markets"
  end.

(** A snapshot is well-formed when it is an object that has the six
    domain fields, each well-formed for its domain, and the fields
    lastUpdated and location. *)
Definition snapshot_well_formed (v : JS.jsval) : bool :=
  forallb (fun d => JS.has_field v (snapshot_field d)
                    && well_formed d (Alerts.field v (snapshot_field d)))
    all_domains
  && JS.has_field v "lastUpdated" && JS.has_field v "location".

(** The upstream of a domain fails: the call throws, or its reply does
    not parse. *)
Definition upstream_fails (JSON_parse : string -> option JS.jsval)
    (w : Alerts.world) (d : Alerts.domain) : Prop :=
  Alerts.queryPerplexity w d = Alerts.Threw
  \/ exists response,
       Alerts.queryPerplexity w d = Alerts.Content response
       /\ JSON_parse (Alerts.jsonText response) = None.

(** The provider of a domain fails for a request: its prompt cannot be
    built, or its upstream fails. *)
Definition provider_fails (JSON_parse : string -> option JS.jsval)
    (w : Alerts.world) (userPreferences : JS.jsval) (d : Alerts.domain)
    : Prop :=
  Alerts.promptBuilds d w userPreferences = false
  \/ upstream_fails JSON_parse w d.

(** *** The fan-out *)

(** The six fetches of one aggregation, run in source order from the
    state [st] for the coordinates [coords]: what each returns and the
    state it leaves. *)
Section Fanout.
Variable JSON_parse : string -> option JS.jsval.
Variables (w : Alerts.world) (req : Alerts.request) (st : Alerts.state).
Variable coords : string.

Definition fetch1 :=
  Alerts.fetchData JSON_parse Alerts.Weather ("weather_" +:+ coords) true w st.
Definition fetch2 :=
  Alerts.fetchData JSON_parse Alerts.AirQuality
    ("air_quality_" +:+ coords) true w (snd fetch1).
Definition fetch3 :=
  Alerts.fetchData JSON_parse Alerts.Traffic ("traffic_" +:+ coords) true w
    (snd fetch2).
Definition fetch4 :=
  Alerts.fetchData JSON_parse Alerts.Health ("health_" +:+ coords)
    (Alerts.promptBuilds Alerts.Health w (Alerts.preferencesOrEmpty req)) w
    (snd fetch3).
Definition fetch5 :=
  Alerts.fetchData JSON_parse Alerts.Crime ("crime_" +:+ coords) true w
    (snd fetch4).
Definition fetch6 :=
  Alerts.fetchData JSON_parse Alerts.Markets
    ("markets_" +:+ Alerts.Date_toDateString w) true w (snd fetch5).

(** The snapshot assembled from the six results. *)
Definition assembled : JS.jsval :=
  JS.JObj [("weather", fst fetch1); ("airQuality", fst fetch2);
           ("traffic", fst fetch3); ("health", fst fetch4);
           ("crime", fst fetch5); ("markets", fst fetch6);
           ("lastUpdated", JS.JStr (Alerts.Date_toISOString w));
           ("location", Alerts.field (Alerts.location req) "address")].

End Fanout.

(** *** Chat *)

(** The request is well-formed: a message that is not blank, a history
    that parses to the array [history] and user data that parse to
    [userData]. *)
Definition accepted (JSON_parse : string -> option JS.jsval)
    (req : Chat.sendRequest) (query : string) (history : list JS.jsval)
    (userData : JS.jsval) : Prop :=
  Chat.message req = Some query
  /\ Text.trim query <> ""
  /\ Chat.parseField JSON_parse (Chat.conversationHistory req) (JS.JArr [])
     = Some (JS.JArr history)
  /\ Chat.parseField JSON_parse (Chat.userData req) (JS.JObj [])
     = Some userData.

(** The reply is the error of the inner handler. *)
Definition is_failure (r : Chat.sendResponse) : Prop :=
  exists source, r = Chat.ApiFailure source.

(** The content of the first message of a request to Perplexity. *)
Definition system_content (messages : option (list Chat.chatMessage))
    : option string :=
  match messages with
  | Some (m :: _) => Some (Chat.content m)
  | _ => None
  end.

(** *** Rate limiter, over a run of checks *)

(** The clock readings at which a run of checks by one caller is
    admitted. *)
Fixpoint admitted (identifier : string) (times : list Z)
    (m : gmap string (list Z)) : list Z :=
  match times with
  | [] => []
  | t :: times' =>
      let '(b, m') := RateLimit.checkRateLimit t identifier m in
      if b then t :: admitted identifier times' m'
      else admitted identifier times' m'
  end.

(** How many of the readings [l] lie in the window of 60 seconds that
    starts at [a]. *)
Definition window_count (a : Z) (l : list Z) : nat :=
  length (List.filter
            (fun t => (a <=? t) && (t <? a + RateLimit.RATE_LIMIT_WINDOW)) l).

(** *** The fetchers of one aggregation *)

(** The cache key the fetcher of a domain uses in an aggregation at
    the coordinates [coords]. *)
Definition domain_key (d : Alerts.domain) (w : Alerts.world)
    (coords : string) : string :=
  match d with
  | Alerts.Markets => key_prefix d +:+ Alerts.Date_toDateString w
  | _ => key_prefix d +:+ coords
  end.

(** In an aggregation of [req] at the coordinates [coords], the fetcher
    of the domain goes to the upstream: it finds no truthy live entry
    under its key in [st], and its prompt can be built. *)
Definition goes_upstream (st : Alerts.state) (w : Alerts.world)
    (req : Alerts.request) (coords : string) (d : Alerts.domain) : bool :=
  negb (JS.truthy
          (default JS.JUndefined
             (Cache.get (Alerts.cache st) (domain_key d w coords)
                (Alerts.Date_now w))))
  && Alerts.promptBuilds d w (Alerts.preferencesOrEmpty req).

(** The cache a fetch leaves, as a function of the cache it finds. *)
Definition fetched_cache (JSON_parse : string -> option JS.jsval)
    (d : Alerts.domain) (cacheKey : string) (promptBuilt : bool)
    (w : Alerts.world) (c : gmap string Cache.entry)
    : gmap string Cache.entry :=
  if JS.truthy (default JS.JUndefined (Cache.get c cacheKey (Alerts.Date_now w)))
  then c
  else if negb promptBuilt then c
  else
    match Alerts.queryPerplexity w d with
    | Alerts.Threw => c
    | Alerts.Content response =>
        Cache.set c cacheKey
          (default (Alerts.default_payload d)
             (JSON_parse (Alerts.jsonText response)))
          (Alerts.ttl_seconds d) (Alerts.Date_now w)
    end.

(** *** The snapshot and the states of the service *)

(** The fields of a snapshot. *)
Definition snapshot_fields : list string :=
  ["weather"; "airQuality"; "traffic"; "health"; "crime"; "markets";
   "lastUpdated"; "location"].

(** The value is an object with every field of a snapshot. *)
Definition has_snapshot_fields (v : JS.jsval) : bool :=
  forallb (JS.has_field v) snapshot_fields.

(** The states the alerts router can be in: the state at process start,
    and the state after any request to the aggregation route or to the
    cache-clearing route. No other code writes to the cache or the
    rate-limit map. *)
Inductive reachable (JSON_parse : string -> option JS.jsval)
    : Alerts.state -> Prop :=
| reach_start :
    reachable JSON_parse
      {| Alerts.apiCallLimiter := ∅; Alerts.cache := ∅;
         Alerts.upstreamCalls := [] |}
| reach_post w req st :
    reachable JSON_parse st ->
    reachable JSON_parse (snd (Alerts.postEnvironmentalData JSON_parse w req st))
| reach_clear production st :
    reachable JSON_parse st ->
    reachable JSON_parse (snd (Alerts.cacheClear production st)).

(** Every cache entry under the prefix of the route is an object with
    the fields of a snapshot. *)
Definition snapshots_under_route_keys (c : gmap string Cache.entry) : Prop :=
  forall rest e,
    c !! ("environmental_data_" +:+ rest) = Some e ->
    has_snapshot_fields (Cache.value e) = true.

(** The key of the snapshot cache for a latitude and a longitude, as
    texts, and the user preferences. *)
Definition snapshot_key (latText lngText : string) (userPreferences : JS.jsval)
    : string :=
  "environmental_data_" +:+ latText +:+ "_" +:+ lngText +:+ "_"
  +:+ JS.stringify_in_template userPreferences.

(** *** The system prompt *)

(** The properties of the user data that the system prompt shows. *)
Definition profile_fields : list string :=
  ["name"; "zipCode"; "phone"; "bloodGroup"; "gender"].

(** *** Letter case *)

(** The small letter of a capital A-Z; every other unit as it is. *)
Definition fold_ascii (c : ascii) : ascii :=
  if Text.between 65 90 c then ascii_of_nat (nat_of_ascii c + 32) else c.

(** Two texts that differ at most in the case of the letters A-Z. *)
Definition same_but_for_ascii_case (s s' : string) : Prop :=
  map fold_ascii (Text.chars s) = map fold_ascii (Text.chars s').

End Spec.

(** ** Sample inputs *)

Module Samples.

(** *** Replies and a parser for them *)

(** The double quote. *)
Definition dquote : string := String (ascii_of_nat 34) EmptyString.

(** A reply that is one JSON object: the member aqi with the value 42. *)
Definition aqi_object : string :=
  "{" +:+ dquote +:+ "aqi" +:+ dquote +:+ ":42}".

(** What [JSON.parse] makes of it. *)
Definition aqi_payload : JS.jsval := JS.JObj [("aqi", JS.JNum "42")].

(** A reply that wraps the object in prose with a closing brace in it. *)
Definition reply_with_stray_brace : string := aqi_object +:+ " and a stray }".

(** A reply that is no JSON at all. *)
Definition no_data_reply : string := "Sorry, I have no data for that.".

(** A stand-in for [JSON.parse] in closed examples. It agrees with
    [JSON.parse] on the texts the examples hand to it: the empty object,
    the aqi object above, and texts that are not JSON at all. *)
Definition parse_sample (s : string) : option JS.jsval :=
  if String.eqb s "{}" then Some (JS.JObj [])
  else if String.eqb s aqi_object then Some aqi_payload
  else None.

(** *** Aggregation requests *)

(** A process that has just started: nothing cached, nobody counted,
    no upstream call made. *)
Definition fresh_state : Alerts.state :=
  {| Alerts.apiCallLimiter := ∅; Alerts.cache := ∅;
     Alerts.upstreamCalls := [] |}.

(** A stand-in for the runtime's reading of a text as a number. It
    agrees with the runtime on the empty text and on the texts of
    decimal digits; the examples hand it no other. *)
Definition digits_positive (s : string) : bool :=
  forallb (Text.between 48 57) (Text.chars s)
  && existsb (Text.between 49 57) (Text.chars s).

(** The surroundings of a request on the second of November 2026, at
    [now] milliseconds, with the given upstream behaviour, on a
    development server. *)
Definition world_at (now : Z) (upstream : Alerts.domain -> Alerts.reply)
    : Alerts.world :=
  {| Alerts.Date_now := now;
     Alerts.Date_toDateString := "Mon Nov 02 2026";
     Alerts.Date_toISOString := "2026-11-02T12:00:00.000Z";
     Alerts.queryPerplexity := upstream;
     Alerts.Number_positive := digits_positive;
     Alerts.TypeError_message := "Cannot convert object to primitive value";
     Alerts.NODE_ENV_production := false |}.

(** A JSON body location with the given coordinates. *)
Definition location_at (lat lng : JS.jsval) : JS.jsval :=
  JS.JObj [("lat", lat); ("lng", lng); ("address", JS.JStr "Indianapolis, IN")].

(** Indianapolis, as the end-to-end scenario of the specification has
    it. *)
Definition indianapolis : JS.jsval :=
  location_at (JS.JNum "39.77") (JS.JNum "-86.15").

(** Twenty clock readings, one second apart. *)
Definition twenty_seconds : list Z :=
  map (fun i => 1000 * Z.of_nat i) (seq 0 20).

(** *** Chat requests *)

(** Both keys configured; Perplexity answers ok and Gemini is down. *)
Definition gemini_down : Chat.services :=
  {| Chat.PERPLEXITY_API_KEY := true; Chat.GOOGLE_API_KEY := true;
     Chat.perplexityPost := fun _ => Some "ok";
     Chat.geminiPost := fun _ => None |}.

(** Both keys configured; Perplexity is down and Gemini answers ok. *)
Definition perplexity_down : Chat.services :=
  {| Chat.PERPLEXITY_API_KEY := true; Chat.GOOGLE_API_KEY := true;
     Chat.perplexityPost := fun _ => None;
     Chat.geminiPost := fun _ => Some "ok" |}.

(** A request that carries only a message. *)
Definition just_message (query : string) : Chat.sendRequest :=
  {| Chat.message := Some query; Chat.conversationHistory := None;
     Chat.userData := None; Chat.file := None |}.

(** A conversation turn as the client sends it. *)
Definition turn (role text : string) : JS.jsval :=
  JS.JObj [("role", JS.JStr role);
           ("parts", JS.JArr [JS.JObj [("text", JS.JStr text)]])].

(** Five turns of a conversation, oldest first. *)
Definition recent_five : list JS.jsval :=
  [turn "model" "Noted.";
   turn "user" "Where is the central library?";
   turn "model" "At 40 East St. Clair Street.";
   turn "user" "Is it open on Sunday?";
   turn "model" "Yes, from noon to five."].

(** Two histories of six turns that differ in the oldest turn only. *)
Definition history_a : list JS.jsval :=
  turn "user" "My permit number is 4921." :: recent_five.
Definition history_b : list JS.jsval :=
  turn "user" "My permit number is 7750." :: recent_five.

(** A user profile. *)
Definition resident : JS.jsval :=
  JS.JObj [("name", JS.JStr "Ann"); ("zipCode", JS.JStr "46204");
           ("phone", JS.JStr "555-0100"); ("bloodGroup", JS.JStr "O+");
           ("gender", JS.JStr "female")].

(** A question the classifier sends to Perplexity. *)
Definition closures_question : string :=
  "What is the latest news on road closures?".

(** *** A burst of checks *)

(** Twenty-five clock readings, a tenth of a second apart. *)
Definition burst : list Z := map (fun i => 100 * Z.of_nat i) (seq 0 25).

(** *** Requests to the aggregation route *)

(** The coordinates of [indianapolis] under another address. *)
Definition same_spot_other_address : JS.jsval :=
  JS.JObj [("lat", JS.JNum "39.77"); ("lng", JS.JNum "-86.15");
           ("address", JS.JStr "1 Monument Circle")].

Definition request_from (location : JS.jsval) : Alerts.request :=
  {| Alerts.location := location; Alerts.userPreferences := JS.JUndefined;
     Alerts.clientIP := "203.0.113.7" |}.

(** A parser stand-in that also knows the text null. It agrees with
    [JSON.parse] on the texts the examples hand to it. *)
Definition parse_sample_null (s : string) : option JS.jsval :=
  if String.eqb s "null" then Some JS.JNull else parse_sample s.

(** *** More chat requests *)

(** Both keys configured; both backends answer ok. *)
Definition both_up : Chat.services :=
  {| Chat.PERPLEXITY_API_KEY := true; Chat.GOOGLE_API_KEY := true;
     Chat.perplexityPost := fun _ => Some "ok";
     Chat.geminiPost := fun _ => Some "ok" |}.

(** A first message whose user data field is the text null. *)
Definition null_profile (query : string) : Chat.sendRequest :=
  {| Chat.message := Some query; Chat.conversationHistory := None;
     Chat.userData := Some "null"; Chat.file := None |}.

(** *** Requests whose data do not convert to text *)

(** An object with an own property toString, as [JSON.parse] makes it
    of the text of an object with the member toString. *)
Definition unprintable : JS.jsval := JS.JObj [("toString", JS.JNum "1")].

(** Preferences whose allergies are a text, not a list. *)
Definition allergies_as_text : JS.jsval :=
  JS.JObj [("allergies", JS.JStr "pollen")].

Definition request_with (location userPreferences : JS.jsval)
    : Alerts.request :=
  {| Alerts.location := location; Alerts.userPreferences := userPreferences;
     Alerts.clientIP := "203.0.113.7" |}.

(** Preferences with a list of allergies. *)
Definition pollen_allergy : JS.jsval :=
  JS.JObj [("allergies", JS.JArr [JS.JStr "pollen"])].

End Samples.

(** ** Proof automation *)

(** Closes a goal about the reply of [respond] once the outcomes of the
    two calls are known. *)
Ltac settle_reply :=
  repeat match goal with
         | H : exists _, _ |- _ => destruct H
         | H : _ /\ _ |- _ => destruct H
         end;
  first [congruence | eauto].

(** * Properties *)

(** ** Text search *)

Lemma starts_with_spec (p l : list ascii) :
  Text.starts_with p l = true <-> exists post, l = p ++ post.
Proof.
  revert l. induction p as [|a p IH]; intros l; simpl.
  - split; [intros _; exists l; reflexivity | reflexivity].
  - destruct l as [|b l].
    + split; [discriminate | intros [post H]; discriminate].
    + rewrite andb_true_iff, Ascii.eqb_eq, IH. split.
      * intros [-> [post ->]]. exists post. reflexivity.
      * intros [post H]. injection H as -> ->. split; [reflexivity | eauto].
Qed.

Lemma occurs_spec (p l : list ascii) :
  Text.occurs p l = true <-> exists pre post, l = pre ++ p ++ post.
Proof.
  induction l as [|b l IH].
  - simpl. rewrite orb_false_r, starts_with_spec. split.
    + intros [post H]. exists [], post. exact H.
    + intros [pre [post H]]. destruct pre; [exists post; exact H | discriminate].
  - cbn [Text.occurs]. rewrite orb_true_iff, starts_with_spec, IH. split.
    + intros [[post H] | [pre [post H]]].
      * exists [], post. exact H.
      * exists (b :: pre), post. rewrite H. reflexivity.
    + intros [[|c pre] [post H]].
      * left. exists post. exact H.
      * right. injection H as _ H. exists pre, post. exact H.
Qed.

(** ** The backtracking matcher finds exactly the words of the pattern *)

Lemma star_greedy_sound {A : Type} ic k s (K : list ascii -> option A) a :
  Regex.star_greedy (Regex.class_ok ic k) s K = Some a ->
  exists w rest, s = w ++ rest /\ Regex.matches ic (Regex.RStar k) w
                 /\ K rest = Some a.
Proof.
  induction s as [|x s IH]; simpl.
  - intros H. exists [], []. repeat split; [constructor | exact H].
  - destruct (Regex.class_ok ic k x) eqn:Hx.
    + destruct (Regex.star_greedy (Regex.class_ok ic k) s K) as [a'|] eqn:Hs.
      * intros [= <-]. destruct (IH eq_refl) as (w & rest & -> & Hw & HK).
        exists (x :: w), rest. repeat split; [constructor; assumption | exact HK].
      * intros H. exists [], (x :: s). repeat split; [constructor | exact H].
    + intros H. exists [], (x :: s). repeat split; [constructor | exact H].
Qed.

Lemma run_sound {A : Type} ic r : forall s (K : list ascii -> option A) a,
  Regex.run ic r s K = Some a ->
  exists w rest, s = w ++ rest /\ Regex.matches ic r w /\ K rest = Some a.
Proof.
  induction r as [|k|k|r1 IH1 r2 IH2|r1 IH1 r2 IH2]; intros s K a; simpl.
  - intros H. exists [], s. repeat split; [constructor | exact H].
  - destruct s as [|x s]; [discriminate|].
    destruct (Regex.class_ok ic k x) eqn:Hx; [|discriminate].
    intros H. exists [x], s. repeat split; [constructor; exact Hx | exact H].
  - apply star_greedy_sound.
  - intros H. apply IH1 in H as (w1 & rest1 & -> & Hw1 & H).
    apply IH2 in H as (w2 & rest & -> & Hw2 & H).
    exists (w1 ++ w2), rest. rewrite <- app_assoc.
    repeat split; [constructor; assumption | exact H].
  - destruct (Regex.run ic r1 s K) as [a'|] eqn:H1.
    + intros [= <-]. apply IH1 in H1 as (w & rest & -> & Hw & H).
      exists w, rest. repeat split; [apply Regex.M_alt_l; exact Hw | exact H].
    + intros H. apply IH2 in H as (w & rest & -> & Hw & H).
      exists w, rest. repeat split; [apply Regex.M_alt_r; exact Hw | exact H].
Qed.

Lemma run_complete {A : Type} ic r w :
  Regex.matches ic r w ->
  forall rest (K : list ascii -> option A),
    is_Some (K rest) -> is_Some (Regex.run ic r (w ++ rest) K).
Proof.
  induction 1 as [|k x Hx|k|k x w Hx Hw IH|r1 r2 w1 w2 H1 IH1 H2 IH2
                  |r1 r2 w H1 IH1|r1 r2 w H2 IH2]; intros rest K HK; simpl.
  - exact HK.
  - rewrite Hx. exact HK.
  - destruct rest as [|y rest]; simpl; [exact HK|].
    destruct (Regex.class_ok ic k y); [|exact HK].
    destruct (Regex.star_greedy _ rest K); [eauto | exact HK].
  - rewrite Hx. specialize (IH rest K HK). simpl in IH.
    destruct IH as [a ->]. eauto.
  - rewrite <- app_assoc. apply IH1. apply IH2. exact HK.
  - destruct (IH1 rest K HK) as [a ->]. eauto.
  - destruct (Regex.run ic r1 (w ++ rest) K); [eauto | apply IH2; exact HK].
Qed.

Lemma firstn_split_length (w rest : list ascii) :
  firstn (length (w ++ rest) - length rest) (w ++ rest) = w.
Proof.
  rewrite length_app, Nat.add_sub. rewrite firstn_app, Nat.sub_diag.
  rewrite firstn_all. simpl. apply app_nil_r.
Qed.

Lemma run_matched_text ic r s rest :
  Regex.run ic r s (fun rest => Some rest) = Some rest ->
  s = firstn (length s - length rest) s ++ rest
  /\ Regex.matches ic r (firstn (length s - length rest) s).
Proof.
  intros H. apply run_sound in H as (w & rest' & -> & Hw & [= ->]).
  rewrite firstn_split_length. split; [reflexivity | exact Hw].
Qed.

Lemma search_from_sound ic r : forall s before p m,
  Regex.search_from ic r before s = Some (p, m) ->
  exists skipped rest,
    s = skipped ++ m ++ rest /\ p = rev before ++ skipped
    /\ Regex.matches ic r m.
Proof.
  assert (Hhit : forall s before p m rest,
    Regex.run ic r s (fun rest => Some rest) = Some rest ->
    Some (rev before, firstn (length s - length rest) s) = Some (p, m) ->
    exists skipped rest,
      s = skipped ++ m ++ rest /\ p = rev before ++ skipped
      /\ Regex.matches ic r m).
  { intros s before p m rest Hr [= <- <-].
    apply run_matched_text in Hr as [Hs Hm].
    exists [], rest. repeat split;
      [exact Hs | symmetry; apply app_nil_r | exact Hm]. }
  induction s as [|x s IH]; intros before p m; simpl.
  - destruct (Regex.run ic r [] (fun rest => Some rest)) as [rest|] eqn:Hr;
      [|discriminate].
    apply (Hhit [] before p m rest Hr).
  - destruct (Regex.run ic r (x :: s) (fun rest => Some rest)) as [rest|] eqn:Hr.
    + apply (Hhit (x :: s) before p m rest Hr).
    + intros H. apply IH in H as (skipped & rest & -> & -> & Hm).
      exists (x :: skipped), rest. simpl. rewrite <- app_assoc.
      repeat split. exact Hm.
Qed.

Lemma search_from_complete ic r : forall pre before w post,
  Regex.matches ic r w ->
  is_Some (Regex.search_from ic r before (pre ++ w ++ post)).
Proof.
  induction pre as [|x pre IH]; intros before w post Hw.
  - simpl. destruct (run_complete ic r w Hw post (fun rest => Some rest))
      as [rest Hr]; [eauto|].
    destruct (w ++ post) as [|y l]; simpl; simpl in Hr; rewrite Hr; eauto.
  - simpl. destruct (Regex.run ic r (x :: pre ++ w ++ post) _); [eauto|].
    apply IH. exact Hw.
Qed.

(** [RegExp.prototype.test] holds exactly when some substring of the
    text is a word of the pattern. *)
Lemma test_spec ic r q :
  Regex.test ic r q = true <->
  exists pre w post, Text.chars q = pre ++ w ++ post /\ Regex.matches ic r w.
Proof.
  unfold Regex.test. split.
  - destruct (Regex.search_from ic r [] (Text.chars q)) as [[p m]|] eqn:H;
      [|discriminate].
    intros _. apply search_from_sound in H as (skipped & rest & Hs & _ & Hm).
    exists skipped, m, rest. split; assumption.
  - intros (pre & w & post & -> & Hw).
    destruct (search_from_complete ic r pre [] w post Hw) as [x ->].
    reflexivity.
Qed.

(** ** The query classifier *)

Lemma determineAiSource_live (query : string) :
  Chat.determineAiSource query = Chat.perplexity <-> Spec.needs_live query.
Proof.
  unfold Chat.determineAiSource, Spec.needs_live.
  destruct (existsb _ Chat.realTimeKeywords || existsb _ Chat.timeSensitivePatterns)
    eqn:E.
  - split; [intros _ | reflexivity].
    apply orb_true_iff in E as [E|E]; apply existsb_exists in E as [x [Hin Hx]].
    + left. exists x. split; [exact Hin | apply occurs_spec; exact Hx].
    + right. exists x. split; [exact Hin | apply test_spec; exact Hx].
  - split; [discriminate|].
    intros H. exfalso.
    assert (Ht : existsb (fun keyword =>
                   Text.includes (Text.toLowerCase query) keyword)
                   Chat.realTimeKeywords
                 || existsb (fun pattern => Regex.test true pattern query)
                      Chat.timeSensitivePatterns = true).
    { apply orb_true_iff.
      destruct H as [[x [Hin Hx]] | [x [Hin Hx]]]; [left | right];
        apply existsb_exists; exists x; split; try exact Hin.
      - apply occurs_spec. exact Hx.
      - apply test_spec. exact Hx. }
    rewrite E in Ht. discriminate.
Qed.

(** C6. Classification is a function of the query text alone: it
    answers perplexity (LIVE) exactly when the lower-cased query
    contains one of the fixed trigger terms or the query fits one of the
    fixed time-sensitive patterns, and gemini (GENERAL) exactly
    otherwise; the weather question is LIVE and the property-tax
    question is GENERAL. *)
Theorem classify_live_iff_trigger_or_pattern (query : string) :
  (Chat.determineAiSource query = Chat.perplexity <-> Spec.needs_live query)
  /\ (Chat.determineAiSource query = Chat.gemini <-> ~ Spec.needs_live query)
  /\ Chat.determineAiSource "What's the weather like today in Indianapolis?"
     = Chat.perplexity
  /\ Chat.determineAiSource "Explain how property tax assessments work"
     = Chat.gemini.
Proof.
  split; [apply determineAiSource_live|].
  split; [|split; vm_compute; reflexivity].
  rewrite <- determineAiSource_live.
  destruct (Chat.determineAiSource query); split; congruence.
Qed.

(** ** Extraction of the JSON text from a reply *)

Lemma chars_text (l : list ascii) : Text.chars (Text.text l) = l.
Proof. apply list_ascii_of_string_of_list_ascii. Qed.

Lemma text_chars (s : string) : Text.text (Text.chars s) = s.
Proof. apply string_of_list_ascii_of_string. Qed.

Lemma star_no_close (post : list ascii) :
  ~ In Spec.rbrace post ->
  Regex.star_greedy (Regex.class_ok false Regex.CAll) post Spec.after_star = None.
Proof.
  induction post as [|x post IH]; intros Hno; simpl; [reflexivity|].
  rewrite IH by (intros H; apply Hno; right; exact H).
  unfold Spec.after_star. simpl.
  destruct (Ascii.eqb x Spec.rbrace) eqn:E; [|reflexivity].
  apply Ascii.eqb_eq in E. exfalso. apply Hno. left. exact E.
Qed.

Lemma star_to_last_close (mid post : list ascii) :
  ~ In Spec.rbrace post ->
  Regex.star_greedy (Regex.class_ok false Regex.CAll)
    (mid ++ Spec.rbrace :: post) Spec.after_star = Some post.
Proof.
  intros Hno. induction mid as [|x mid IH]; simpl.
  - rewrite (star_no_close post Hno). reflexivity.
  - rewrite IH. reflexivity.
Qed.

Lemma search_first_open_last_close (pre mid post : list ascii) :
  ~ In Spec.lbrace pre -> ~ In Spec.rbrace post ->
  forall before,
    Regex.search_from false Alerts.jsonPattern before
      (pre ++ Spec.lbrace :: mid ++ Spec.rbrace :: post)
    = Some (rev before ++ pre, Spec.lbrace :: mid ++ [Spec.rbrace]).
Proof.
  intros Hpre Hpost. induction pre as [|x pre IH]; intros before.
  - cbn [app Regex.search_from Alerts.jsonPattern Regex.run].
    change (Regex.class_ok false (Regex.CLit "{") Spec.lbrace) with true.
    cbv iota.
    match goal with
    | |- context [Regex.star_greedy ?f ?s ?k] =>
        change (Regex.star_greedy f s k)
          with (Regex.star_greedy f s Spec.after_star)
    end.
    rewrite (star_to_last_close mid post Hpost).
    rewrite app_nil_r. f_equal. f_equal.
    replace (Spec.lbrace :: mid ++ Spec.rbrace :: post)
      with ((Spec.lbrace :: mid ++ [Spec.rbrace]) ++ post)
      by (simpl; rewrite <- app_assoc; reflexivity).
    apply firstn_split_length.
  - cbn [app Regex.search_from Alerts.jsonPattern Regex.run].
    assert (Hx : Regex.class_ok false (Regex.CLit "{") x = false).
    { simpl. apply Ascii.eqb_neq. intros ->. apply Hpre. left. reflexivity. }
    rewrite Hx. rewrite IH by (intros H; apply Hpre; right; exact H).
    simpl. rewrite <- app_assoc. reflexivity.
Qed.

Lemma jsonPattern_words (m : list ascii) :
  Regex.matches false Alerts.jsonPattern m ->
  exists mid, m = Spec.lbrace :: mid ++ [Spec.rbrace].
Proof.
  intros H. inversion H as [| | | |r1 r2 w1 w2 H1 H2| |]; subst.
  inversion H1 as [|k x Hx| | | | |]; subst.
  inversion H2 as [| | | |r1 r2 w3 w4 H3 H4| |]; subst.
  inversion H4 as [|k y Hy| | | | |]; subst.
  simpl in Hx, Hy. apply Ascii.eqb_eq in Hx, Hy. subst.
  exists w3. reflexivity.
Qed.

Lemma jsonText_pair (pre mid post : list ascii) :
  ~ In Spec.lbrace pre -> ~ In Spec.rbrace post ->
  Alerts.jsonText
    (Text.text (pre ++ Spec.lbrace :: mid ++ Spec.rbrace :: post))
  = Text.text (Spec.lbrace :: mid ++ [Spec.rbrace]).
Proof.
  intros Hpre Hpost. unfold Alerts.jsonText, Regex.str_match.
  rewrite chars_text.
  rewrite (search_first_open_last_close pre mid post Hpre Hpost).
  reflexivity.
Qed.

Lemma jsonText_no_pair (response : string) :
  (forall pre mid post,
     Text.chars response <> pre ++ Spec.lbrace :: mid ++ Spec.rbrace :: post) ->
  Alerts.jsonText response = response.
Proof.
  intros Hno. unfold Alerts.jsonText, Regex.str_match.
  destruct (Regex.search_from false Alerts.jsonPattern [] (Text.chars response))
    as [[p m]|] eqn:H; [|reflexivity].
  exfalso. apply search_from_sound in H as (skipped & rest & Hs & _ & Hm).
  apply jsonPattern_words in Hm as [mid ->].
  apply (Hno skipped mid rest). rewrite Hs. simpl.
  rewrite <- app_assoc. reflexivity.
Qed.

(** What a fetcher returns when the cache has no truthy value for the
    key, the prompt is built and the upstream call returns a text. *)
Lemma fetchData_on_reply JSON_parse d cacheKey w st response :
  JS.truthy (default JS.JUndefined
               (Cache.get (Alerts.cache st) cacheKey (Alerts.Date_now w)))
    = false ->
  Alerts.queryPerplexity w d = Alerts.Content response ->
  Alerts.fetchData JSON_parse d cacheKey true w st
  = (default (Alerts.default_payload d) (JSON_parse (Alerts.jsonText response)),
     Alerts.with_cache (Alerts.with_call st d)
       (Cache.set (Alerts.cache st) cacheKey
          (default (Alerts.default_payload d)
             (JSON_parse (Alerts.jsonText response)))
          (Alerts.ttl_seconds d) (Alerts.Date_now w))).
Proof.
  intros Hmiss Hreply. unfold Alerts.fetchData. rewrite Hmiss, Hreply.
  destruct (JSON_parse (Alerts.jsonText response)); reflexivity.
Qed.

(** C8, as the code has it. On a cache miss with a reply from the
    upstream (the prompt was built and the call returned a text), the
    fetcher returns [JSON.parse] of the extracted text
    (the default payload when parsing throws), and the extracted text is
    the substring from the first opening brace of the reply through its
    last closing brace; a reply with no closing brace after an opening
    brace is parsed whole. Text after a balanced object that holds a
    closing brace is therefore part of the extracted substring. *)
Theorem extraction_spans_first_open_to_last_close
    (JSON_parse : string -> option JS.jsval) (d : Alerts.domain)
    (cacheKey : string) (w : Alerts.world) (st : Alerts.state)
    (response : string) :
  JS.truthy (default JS.JUndefined
               (Cache.get (Alerts.cache st) cacheKey (Alerts.Date_now w)))
    = false ->
  Alerts.queryPerplexity w d = Alerts.Content response ->
  fst (Alerts.fetchData JSON_parse d cacheKey true w st)
    = default (Alerts.default_payload d)
        (JSON_parse (Alerts.jsonText response))
  /\ (forall pre mid post,
        ~ In Spec.lbrace pre -> ~ In Spec.rbrace post ->
        Text.chars response
          = pre ++ Spec.lbrace :: mid ++ Spec.rbrace :: post ->
        Alerts.jsonText response
          = Text.text (Spec.lbrace :: mid ++ [Spec.rbrace]))
  /\ ((forall pre mid post,
         Text.chars response
           <> pre ++ Spec.lbrace :: mid ++ Spec.rbrace :: post) ->
      Alerts.jsonText response = response).
Proof.
  intros Hmiss Hreply. split; [|split].
  - rewrite (fetchData_on_reply _ _ _ _ _ _ Hmiss Hreply). reflexivity.
  - intros pre mid post Hpre Hpost Hchars.
    rewrite <- (text_chars response), Hchars.
    apply jsonText_pair; assumption.
  - apply jsonText_no_pair.
Qed.

(** The reply with a stray brace, asked of the air-quality fetcher on
    an empty cache: the whole reply is extracted, parsing fails, and the
    default payload comes back. *)
Lemma extraction_witness :
  fst (Alerts.fetchData Samples.parse_sample Alerts.AirQuality
         "air_quality_39.77_-86.15" true
         (Samples.world_at 1000
            (fun _ => Alerts.Content Samples.reply_with_stray_brace))
         Samples.fresh_state)
  = Alerts.default_payload Alerts.AirQuality.
Proof.
  pose proof (extraction_spans_first_open_to_last_close Samples.parse_sample
                Alerts.AirQuality "air_quality_39.77_-86.15"
                (Samples.world_at 1000
                   (fun _ => Alerts.Content Samples.reply_with_stray_brace))
                Samples.fresh_state Samples.reply_with_stray_brace) as H.
  destruct H as [H _]; [reflexivity | reflexivity |].
  rewrite H. vm_compute. reflexivity.
Defined.

(** C8 fails as stated: for the aqi object followed by the words and a
    stray and a closing brace, the first balanced object is the aqi
    object, but the text the fetchers extract is the whole reply. *)
Lemma extraction_is_not_first_balanced_object :
  Spec.first_balanced_object Samples.reply_with_stray_brace
    = Some Samples.aqi_object
  /\ Alerts.jsonText Samples.reply_with_stray_brace = Samples.reply_with_stray_brace
  /\ Some (Alerts.jsonText Samples.reply_with_stray_brace)
     <> Spec.first_balanced_object Samples.reply_with_stray_brace.
Proof.
  split; [vm_compute; reflexivity|].
  split; [vm_compute; reflexivity|].
  vm_compute. discriminate.
Qed.

(** ** The sliding-window rate limiter *)

Lemma filter_keep_all {A : Type} (f : A -> bool) (l : list A) :
  Forall (fun x => f x = true) l -> List.filter f l = l.
Proof.
  induction 1 as [|x l Hx _ IH]; simpl; [reflexivity|].
  rewrite Hx, IH. reflexivity.
Qed.

Lemma filter_drop_all {A : Type} (f : A -> bool) (l : list A) :
  Forall (fun x => f x = false) l -> List.filter f l = [].
Proof.
  induction 1 as [|x l Hx _ IH]; simpl; [reflexivity|].
  rewrite Hx, IH. reflexivity.
Qed.

(** One admission check, by cases on the pruned count. *)
Lemma checkRateLimit_step (now : Z) (identifier : string)
    (m : gmap string (list Z)) :
  let recent :=
    List.filter (fun t => now - t <? RateLimit.RATE_LIMIT_WINDOW)
      (default [] (m !! identifier)) in
  RateLimit.checkRateLimit now identifier m
  = if (length recent <? RateLimit.MAX_API_CALLS_PER_MINUTE)%nat
    then (true, <[identifier := recent ++ [now]]> m)
    else (false, m).
Proof.
  intros recent. unfold RateLimit.checkRateLimit. fold recent.
  destruct (Nat.leb_spec RateLimit.MAX_API_CALLS_PER_MINUTE (length recent))
    as [Hle|Hlt];
    destruct (Nat.ltb_spec (length recent) RateLimit.MAX_API_CALLS_PER_MINUTE);
    first [reflexivity | lia].
Qed.

Lemma checkRateLimit_bounded (now : Z) (identifier : string)
    (m : gmap string (list Z)) :
  Spec.limiter_bounded m ->
  Spec.limiter_bounded (snd (RateLimit.checkRateLimit now identifier m)).
Proof.
  intros Hm. rewrite checkRateLimit_step.
  destruct (Nat.ltb_spec
              (length (List.filter
                         (fun t => now - t <? RateLimit.RATE_LIMIT_WINDOW)
                         (default [] (m !! identifier))))
              RateLimit.MAX_API_CALLS_PER_MINUTE) as [Hlt|Hge];
    simpl; [|exact Hm].
  intros id l. destruct (decide (identifier = id)) as [->|Hne].
  - rewrite lookup_insert_eq. intros [= <-].
    rewrite length_app. simpl. lia.
  - rewrite lookup_insert_ne by exact Hne. apply Hm.
Qed.

(** Checks whose clock readings share one window with everything on
    record are all admitted, while the record stays within the
    maximum. *)
Lemma admit_all_in_window (identifier : string) (start : Z) :
  forall (times l : list Z) (m : gmap string (list Z)),
    default [] (m !! identifier) = l ->
    Forall (Spec.in_window start) (l ++ times) ->
    (length (l ++ times) <= RateLimit.MAX_API_CALLS_PER_MINUTE)%nat ->
    fst (RateLimit.admit_all identifier times m) = repeat true (length times)
    /\ default [] (snd (RateLimit.admit_all identifier times m) !! identifier)
       = l ++ times.
Proof.
  induction times as [|t times IH]; intros l m Hl Hwin Hlen.
  - simpl. rewrite app_nil_r. split; [reflexivity | exact Hl].
  - cbn [RateLimit.admit_all]. rewrite checkRateLimit_step, Hl.
    assert (Hkeep : List.filter
                      (fun x => t - x <? RateLimit.RATE_LIMIT_WINDOW) l = l).
    { apply filter_keep_all. apply List.Forall_forall. intros x Hx.
      rewrite List.Forall_forall in Hwin.
      assert (Spec.in_window start x) by (apply Hwin, in_or_app; left; exact Hx).
      assert (Spec.in_window start t)
        by (apply Hwin, in_or_app; right; left; reflexivity).
      unfold Spec.in_window in *. apply Z.ltb_lt. lia. }
    rewrite Hkeep.
    assert (Hlt : (length l <? RateLimit.MAX_API_CALLS_PER_MINUTE)%nat = true).
    { apply Nat.ltb_lt. rewrite length_app in Hlen. simpl in Hlen. lia. }
    rewrite Hlt.
    specialize (IH (l ++ [t]) (<[identifier := l ++ [t]]> m)).
    destruct (RateLimit.admit_all identifier times
                (<[identifier := l ++ [t]]> m)) as [bs m'] eqn:E.
    simpl in IH |- *.
    destruct IH as [IH1 IH2].
    + rewrite lookup_insert_eq. reflexivity.
    + rewrite <- app_assoc. exact Hwin.
    + rewrite <- app_assoc. exact Hlen.
    + rewrite IH1, IH2, <- app_assoc. split; reflexivity.
Qed.

(** Twenty admits in one window, the twenty-first, and one more after
    the clock has moved on by 61 seconds. *)
Lemma twenty_then_denied_then_admitted (identifier : string)
    (m : gmap string (list Z)) (start : Z) (times : list Z) (t21 t22 : Z) :
  m !! identifier = None ->
  length times = 20%nat ->
  Forall (Spec.in_window start) times ->
  Forall (fun t => t <= t21) times ->
  Spec.in_window start t21 ->
  t21 + 61000 <= t22 ->
  fst (RateLimit.admit_all identifier times m) = repeat true 20
  /\ snd (RateLimit.admit_all identifier times m) !! identifier = Some times
  /\ RateLimit.checkRateLimit t21 identifier
       (snd (RateLimit.admit_all identifier times m))
     = (false, snd (RateLimit.admit_all identifier times m))
  /\ RateLimit.checkRateLimit t22 identifier
       (snd (RateLimit.admit_all identifier times m))
     = (true, <[identifier := [t22]]>
                (snd (RateLimit.admit_all identifier times m))).
Proof.
  intros Hfresh Hlen Hwin Hbefore Ht21 Ht22.
  destruct (admit_all_in_window identifier start times [] m) as [Hall Hrec].
  { rewrite Hfresh. reflexivity. }
  { exact Hwin. }
  { simpl. rewrite Hlen. unfold RateLimit.MAX_API_CALLS_PER_MINUTE. lia. }
  simpl in Hrec. rewrite Hlen in Hall.
  set (m20 := snd (RateLimit.admit_all identifier times m)) in *.
  assert (Hm20 : m20 !! identifier = Some times).
  { destruct (m20 !! identifier) as [l|]; simpl in Hrec.
    - rewrite Hrec. reflexivity.
    - rewrite <- Hrec in Hlen. discriminate. }
  split; [exact Hall|]. split; [exact Hm20|]. split.
  - rewrite checkRateLimit_step, Hm20. simpl default.
    rewrite filter_keep_all.
    + rewrite Hlen. reflexivity.
    + rewrite List.Forall_forall in Hwin |- *. intros x Hx.
      specialize (Hwin x Hx). unfold Spec.in_window in *.
      apply Z.ltb_lt. lia.
  - rewrite checkRateLimit_step, Hm20. simpl default.
    rewrite filter_drop_all; [reflexivity|].
    rewrite List.Forall_forall in Hbefore |- *. intros x Hx.
    specialize (Hbefore x Hx). apply Z.ltb_ge.
    unfold RateLimit.RATE_LIMIT_WINDOW. lia.
Qed.

(** C5. Each admission check prunes the caller's timestamps that are
    60 seconds old or older, then admits and records the clock reading
    exactly when fewer than 20 remain; a denied call leaves the map as it
    was. So no record ever holds more than 20 timestamps; twenty checks
    by a new caller within one 60-second window are all admitted, the
    twenty-first in that window is denied, and a check 61 seconds later
    is admitted again. *)
Theorem rate_limiter_sliding_window :
  (forall now identifier m,
      RateLimit.checkRateLimit now identifier m
      = let recent :=
          List.filter (fun t => now - t <? 60000)
            (default [] (m !! identifier)) in
        if (length recent <? 20)%nat
        then (true, <[identifier := recent ++ [now]]> m)
        else (false, m))
  /\ Spec.limiter_bounded ∅
  /\ (forall now identifier m,
        Spec.limiter_bounded m ->
        Spec.limiter_bounded (snd (RateLimit.checkRateLimit now identifier m)))
  /\ (forall identifier m start times t21 t22,
        m !! identifier = None ->
        length times = 20%nat ->
        Forall (Spec.in_window start) times ->
        Forall (fun t => t <= t21) times ->
        Spec.in_window start t21 ->
        t21 + 61000 <= t22 ->
        fst (RateLimit.admit_all identifier times m) = repeat true 20
        /\ snd (RateLimit.admit_all identifier times m) !! identifier
           = Some times
        /\ RateLimit.checkRateLimit t21 identifier
             (snd (RateLimit.admit_all identifier times m))
           = (false, snd (RateLimit.admit_all identifier times m))
        /\ RateLimit.checkRateLimit t22 identifier
             (snd (RateLimit.admit_all identifier times m))
           = (true, <[identifier := [t22]]>
                      (snd (RateLimit.admit_all identifier times m)))).
Proof.
  split; [|split; [|split]].
  - intros now identifier m. apply checkRateLimit_step.
  - intros identifier l H. rewrite lookup_empty in H. discriminate.
  - intros now identifier m. apply checkRateLimit_bounded.
  - apply twenty_then_denied_then_admitted.
Qed.

(** Twenty checks one second apart from time 0, a twenty-first at 20
    seconds and one more at 81 seconds, by a caller nobody has seen. *)
Lemma rate_limiter_witness :
  fst (RateLimit.admit_all "203.0.113.7" Samples.twenty_seconds ∅)
    = repeat true 20
  /\ fst (RateLimit.checkRateLimit 20000 "203.0.113.7"
            (snd (RateLimit.admit_all "203.0.113.7" Samples.twenty_seconds ∅)))
     = false
  /\ fst (RateLimit.checkRateLimit 81000 "203.0.113.7"
            (snd (RateLimit.admit_all "203.0.113.7" Samples.twenty_seconds ∅)))
     = true.
Proof.
  destruct rate_limiter_sliding_window as (_ & _ & _ & H).
  destruct (H "203.0.113.7" ∅ 0 Samples.twenty_seconds 20000 81000)
    as (H1 & _ & H2 & H3).
  - apply lookup_empty.
  - reflexivity.
  - unfold Samples.twenty_seconds, Spec.in_window, RateLimit.RATE_LIMIT_WINDOW.
    simpl. repeat constructor; lia.
  - unfold Samples.twenty_seconds. simpl. repeat constructor; lia.
  - unfold Spec.in_window, RateLimit.RATE_LIMIT_WINDOW. lia.
  - lia.
  - rewrite H1, H2, H3. repeat split.
Defined.

(** ** The provider fetchers *)

(** Each named fetcher is the shared body run at the key of its
    domain, and rejects only when building the key throws. *)
Lemma fetcher_at_key JSON_parse d w location userPreferences st :
  Alerts.fetcher JSON_parse d w location userPreferences st
  = match Spec.key_of d w location with
    | Some cacheKey =>
        (Alerts.Fulfilled
           (fst (Alerts.fetchData JSON_parse d cacheKey
                   (Alerts.promptBuilds d w userPreferences) w st)),
         snd (Alerts.fetchData JSON_parse d cacheKey
                (Alerts.promptBuilds d w userPreferences) w st))
    | None => (Alerts.Rejected, st)
    end.
Proof.
  destruct d; cbn [Alerts.fetcher Spec.key_of Spec.key_prefix];
    unfold Alerts.getWeatherData, Alerts.getAirQualityData,
      Alerts.getTrafficData, Alerts.getHealthData, Alerts.getCrimeData,
      Alerts.getMarketData, Alerts.fetchByLocation;
    try (destruct (Alerts.locationKey _ location) as [key|]; [|reflexivity]);
    match goal with
    | |- context [Alerts.fetchData ?p ?d ?k ?b ?w ?st] =>
        change (Alerts.promptBuilds d w userPreferences) with b;
        destruct (Alerts.fetchData p d k b w st); reflexivity
    end.
Qed.

Lemma fetchData_hit JSON_parse d cacheKey promptBuilt w st v :
  Cache.get (Alerts.cache st) cacheKey (Alerts.Date_now w) = Some v ->
  JS.truthy v = true ->
  Alerts.fetchData JSON_parse d cacheKey promptBuilt w st = (v, st).
Proof.
  intros Hget Htruthy. unfold Alerts.fetchData. rewrite Hget. simpl.
  rewrite Htruthy. reflexivity.
Qed.

Lemma fetchData_threw JSON_parse d cacheKey w st :
  Spec.cache_miss st cacheKey w ->
  Alerts.queryPerplexity w d = Alerts.Threw ->
  Alerts.fetchData JSON_parse d cacheKey true w st
  = (Alerts.default_payload d, Alerts.with_call st d).
Proof.
  intros Hmiss Hreply. unfold Alerts.fetchData.
  unfold Spec.cache_miss in Hmiss. rewrite Hmiss, Hreply. reflexivity.
Qed.

(** Without a prompt there is no call: the default payload, and the
    state as it was. *)
Lemma fetchData_no_prompt JSON_parse d cacheKey w st :
  Spec.cache_miss st cacheKey w ->
  Alerts.fetchData JSON_parse d cacheKey false w st
  = (Alerts.default_payload d, st).
Proof.
  intros Hmiss. unfold Alerts.fetchData.
  unfold Spec.cache_miss in Hmiss. rewrite Hmiss. reflexivity.
Qed.

(** C3, as the code has it. On a cache miss, a fetcher whose upstream
    reply parses writes the parsed payload to the cache under its key
    and time to live and returns it; a fetcher whose upstream call
    throws returns the default payload of its domain and leaves the
    cache as it was, and so does, without a call, a fetcher whose prompt
    cannot be built; a fetcher whose reply does not parse returns the
    default payload of its domain. *)
Theorem fetch_caches_parsed_payload_only_upstream_error_leaves_cache
    (JSON_parse : string -> option JS.jsval) (d : Alerts.domain)
    (w : Alerts.world) (location userPreferences : JS.jsval)
    (st : Alerts.state) (cacheKey : string) :
  Spec.key_of d w location = Some cacheKey ->
  Spec.cache_miss st cacheKey w ->
  (forall response payload,
      Alerts.promptBuilds d w userPreferences = true ->
      Alerts.queryPerplexity w d = Alerts.Content response ->
      JSON_parse (Alerts.jsonText response) = Some payload ->
      Alerts.fetcher JSON_parse d w location userPreferences st
      = (Alerts.Fulfilled payload,
         Alerts.with_cache (Alerts.with_call st d)
           (Cache.set (Alerts.cache st) cacheKey payload
              (Alerts.ttl_seconds d) (Alerts.Date_now w))))
  /\ (Alerts.promptBuilds d w userPreferences = true ->
      Alerts.queryPerplexity w d = Alerts.Threw ->
      Alerts.fetcher JSON_parse d w location userPreferences st
      = (Alerts.Fulfilled (Alerts.default_payload d), Alerts.with_call st d)
      /\ Alerts.cache
           (snd (Alerts.fetcher JSON_parse d w location userPreferences st))
         = Alerts.cache st)
  /\ (Alerts.promptBuilds d w userPreferences = false ->
      Alerts.fetcher JSON_parse d w location userPreferences st
      = (Alerts.Fulfilled (Alerts.default_payload d), st))
  /\ (forall response,
        Alerts.promptBuilds d w userPreferences = true ->
        Alerts.queryPerplexity w d = Alerts.Content response ->
        JSON_parse (Alerts.jsonText response) = None ->
        fst (Alerts.fetcher JSON_parse d w location userPreferences st)
        = Alerts.Fulfilled (Alerts.default_payload d)).
Proof.
  intros Hkey Hmiss. rewrite fetcher_at_key, Hkey. split; [|split; [|split]].
  - intros response payload -> Hreply Hparse.
    rewrite (fetchData_on_reply _ _ _ _ _ _ Hmiss Hreply), Hparse.
    reflexivity.
  - intros -> Hreply. rewrite (fetchData_threw _ _ _ _ _ Hmiss Hreply).
    split; reflexivity.
  - intros ->. rewrite (fetchData_no_prompt _ _ _ _ _ Hmiss). reflexivity.
  - intros response -> Hreply Hparse.
    rewrite (fetchData_on_reply _ _ _ _ _ _ Hmiss Hreply), Hparse.
    reflexivity.
Qed.

(** The weather fetcher on a fresh process whose upstream call throws:
    the default payload, and still nothing cached. *)
Lemma fetch_upstream_error_witness :
  Alerts.getWeatherData Samples.parse_sample
    (Samples.world_at 1000 (fun _ => Alerts.Threw)) Samples.indianapolis
    Samples.fresh_state
  = (Alerts.Fulfilled (Alerts.default_payload Alerts.Weather),
     Alerts.with_call Samples.fresh_state Alerts.Weather)
  /\ Alerts.cache (Alerts.with_call Samples.fresh_state Alerts.Weather) = ∅.
Proof.
  destruct (fetch_caches_parsed_payload_only_upstream_error_leaves_cache
              Samples.parse_sample Alerts.Weather
              (Samples.world_at 1000 (fun _ => Alerts.Threw)) Samples.indianapolis
              JS.JUndefined Samples.fresh_state "weather_39.77_-86.15")
    as (_ & H & _); [reflexivity | reflexivity |].
  destruct (H eq_refl eq_refl) as [H1 _].
  split; [exact H1 | reflexivity].
Defined.

(** C3 fails as stated: a reply that is no JSON makes the weather
    fetcher return the default payload and also write it to the cache,
    for ten minutes, where there was no entry before. *)
Lemma parse_failure_creates_cache_entry :
  fst (Alerts.getWeatherData Samples.parse_sample
         (Samples.world_at 1000 (fun _ => Alerts.Content Samples.no_data_reply))
         Samples.indianapolis Samples.fresh_state)
  = Alerts.Fulfilled (Alerts.default_payload Alerts.Weather)
  /\ Alerts.cache Samples.fresh_state !! "weather_39.77_-86.15" = None
  /\ Alerts.cache
       (snd (Alerts.getWeatherData Samples.parse_sample
               (Samples.world_at 1000
                  (fun _ => Alerts.Content Samples.no_data_reply))
               Samples.indianapolis Samples.fresh_state))
     !! "weather_39.77_-86.15"
     = Some {| Cache.value := Alerts.default_payload Alerts.Weather;
               Cache.expiresAt := 601000 |}.
Proof.
  split; [vm_compute; reflexivity|].
  split; [apply lookup_empty|].
  vm_compute. reflexivity.
Qed.

(** C7, as the code has it. A fetcher's cache key is the name of its
    domain followed by the latitude and the longitude exactly as the
    request supplies them, converted to text, except for the market
    domain, whose key is the domain name followed by the calendar date
    and does not depend on the location; a successful fetch stores its
    payload under that key until the domain's time to live has passed: 5
    minutes for traffic, 10 for weather and air quality, 30 for health
    and crime, 60 for markets. *)
Theorem cache_key_and_ttl_per_domain
    (JSON_parse : string -> option JS.jsval) (d : Alerts.domain)
    (w : Alerts.world) (location userPreferences : JS.jsval)
    (st : Alerts.state) (lat lng : JS.jsval)
    (latText lngText cacheKey response : string) (payload : JS.jsval) :
  JS.prop location "lat" = Some lat ->
  JS.prop location "lng" = Some lng ->
  JS.ToString lat = Some latText ->
  JS.ToString lng = Some lngText ->
  cacheKey = match d with
             | Alerts.Markets =>
                 Spec.key_prefix d +:+ Alerts.Date_toDateString w
             | _ =>
                 Spec.key_prefix d +:+ latText +:+ "_" +:+ lngText
             end ->
  Spec.cache_miss st cacheKey w ->
  Alerts.promptBuilds d w userPreferences = true ->
  Alerts.queryPerplexity w d = Alerts.Content response ->
  JSON_parse (Alerts.jsonText response) = Some payload ->
  Alerts.fetcher JSON_parse d w location userPreferences st
  = (Alerts.Fulfilled payload,
     Alerts.with_cache (Alerts.with_call st d)
       (<[cacheKey := {| Cache.value := payload;
                         Cache.expiresAt :=
                           Alerts.Date_now w + Spec.ttl_minutes d * 60000 |}]>
          (Alerts.cache st)))
  /\ (forall location',
        Alerts.getMarketData JSON_parse w location' st
        = Alerts.getMarketData JSON_parse w location st).
Proof.
  intros Hlat Hlng HlatText HlngText Hkey Hmiss Hbuilt Hreply Hparse.
  split; [|reflexivity].
  assert (Hof : Spec.key_of d w location = Some cacheKey).
  { rewrite Hkey. destruct d; simpl; unfold Alerts.locationKey;
      rewrite ?Hlat, ?Hlng, ?HlatText, ?HlngText; reflexivity. }
  rewrite fetcher_at_key, Hof, Hbuilt.
  rewrite (fetchData_on_reply _ _ _ _ _ _ Hmiss Hreply), Hparse.
  cbn [fst snd default from_option id]. unfold Cache.set.
  do 4 f_equal. destruct d; simpl; lia.
Qed.

(** The traffic fetcher at Indianapolis on a fresh process, with a
    reply that is the aqi object: the entry expires five minutes after
    the request. *)
Lemma cache_key_and_ttl_witness :
  Alerts.getTrafficData Samples.parse_sample
    (Samples.world_at 1000 (fun _ => Alerts.Content Samples.aqi_object))
    Samples.indianapolis Samples.fresh_state
  = (Alerts.Fulfilled Samples.aqi_payload,
     Alerts.with_cache (Alerts.with_call Samples.fresh_state Alerts.Traffic)
       (<["traffic_39.77_-86.15" :=
            {| Cache.value := Samples.aqi_payload; Cache.expiresAt := 301000 |}]>
          ∅)).
Proof.
  destruct (cache_key_and_ttl_per_domain Samples.parse_sample Alerts.Traffic
              (Samples.world_at 1000 (fun _ => Alerts.Content Samples.aqi_object))
              Samples.indianapolis JS.JUndefined Samples.fresh_state
              (JS.JNum "39.77") (JS.JNum "-86.15") "39.77" "-86.15"
              "traffic_39.77_-86.15"
              Samples.aqi_object Samples.aqi_payload)
    as [H _];
    [reflexivity | reflexivity | reflexivity | reflexivity | reflexivity
    | reflexivity | reflexivity | reflexivity | reflexivity | exact H].
Defined.

(** C7 fails as stated: the key holds the coordinates as supplied, so
    two latitudes that differ in the seventh decimal place get two keys,
    and no rounding that identifies the two is applied to them. *)
Lemma cache_key_is_not_rounded :
  Alerts.locationKey "weather_"
    (Samples.location_at (JS.JNum "39.7684031") (JS.JNum "-86.15"))
  = Some "weather_39.7684031_-86.15"
  /\ Alerts.locationKey "weather_"
       (Samples.location_at (JS.JNum "39.7684032") (JS.JNum "-86.15"))
     = Some "weather_39.7684032_-86.15"
  /\ ~ (exists round : JS.jsval -> JS.jsval,
          round (JS.JNum "39.7684031") = round (JS.JNum "39.7684032")
          /\ forall lat lng,
               Alerts.locationKey "weather_" (Samples.location_at lat lng)
               = Spec.rounded_key round "weather_" lat lng).
Proof.
  split; [reflexivity|]. split; [reflexivity|].
  intros (round & Hsame & Hkey).
  pose proof (Hkey (JS.JNum "39.7684031") (JS.JNum "-86.15")) as H1.
  pose proof (Hkey (JS.JNum "39.7684032") (JS.JNum "-86.15")) as H2.
  unfold Spec.rounded_key in H1, H2. rewrite Hsame in H1.
  rewrite <- H2 in H1. vm_compute in H1. discriminate H1.
Qed.

(** ** Validation of the aggregation request *)

Lemma rejects_falsy_field JSON_parse w req st :
  JS.truthy (Alerts.field (Alerts.location req) "lat") = false
  \/ JS.truthy (Alerts.field (Alerts.location req) "lng") = false
  \/ JS.truthy (Alerts.field (Alerts.location req) "address") = false ->
  Alerts.postEnvironmentalData JSON_parse w req st = (Alerts.missingLocation, st).
Proof.
  intros H. unfold Alerts.postEnvironmentalData, Alerts.has_location.
  destruct H as [H|[H|H]]; rewrite H;
    rewrite ?andb_false_r, ?andb_false_l; reflexivity.
Qed.

(** C10. A request whose location has latitude 0, longitude 0 or an
    empty address is answered with the 400 missing-location error, and
    the rate-limit map, the cache and the trace of upstream calls are
    what they were: the guard takes a falsy field for an absent one, so
    the coordinates 0 are rejected. *)
Theorem zero_coordinate_or_empty_address_is_rejected
    (JSON_parse : string -> option JS.jsval) (w : Alerts.world)
    (req : Alerts.request) (st : Alerts.state) :
  Alerts.field (Alerts.location req) "lat" = JS.JNum "0"
  \/ Alerts.field (Alerts.location req) "lng" = JS.JNum "0"
  \/ Alerts.field (Alerts.location req) "address" = JS.JStr "" ->
  Alerts.postEnvironmentalData JSON_parse w req st = (Alerts.missingLocation, st)
  /\ Alerts.status Alerts.missingLocation = 400.
Proof.
  intros H. split; [|reflexivity]. apply rejects_falsy_field.
  destruct H as [H|[H|H]]; rewrite H; auto.
Qed.

(** A request from the equator, latitude 0, on a fresh process. *)
Lemma zero_latitude_witness :
  Alerts.postEnvironmentalData Samples.parse_sample
    (Samples.world_at 1000 (fun _ => Alerts.Content Samples.aqi_object))
    {| Alerts.location :=
         Samples.location_at (JS.JNum "0") (JS.JNum "-86.15");
       Alerts.userPreferences := JS.JUndefined;
       Alerts.clientIP := "203.0.113.7" |}
    Samples.fresh_state
  = (Alerts.missingLocation, Samples.fresh_state).
Proof.
  apply (zero_coordinate_or_empty_address_is_rejected Samples.parse_sample
           (Samples.world_at 1000 (fun _ => Alerts.Content Samples.aqi_object))
           {| Alerts.location :=
                Samples.location_at (JS.JNum "0") (JS.JNum "-86.15");
              Alerts.userPreferences := JS.JUndefined;
              Alerts.clientIP := "203.0.113.7" |}
           Samples.fresh_state).
  left. reflexivity.
Defined.

(** ** The aggregation *)

(** The key prefixes of the six domains start with six different
    letters. *)
Lemma key_prefix_disjoint d d' rest rest' :
  Spec.key_prefix d +:+ rest = Spec.key_prefix d' +:+ rest' -> d = d'.
Proof. destruct d, d'; intros H; first [reflexivity | discriminate H]. Qed.

Lemma default_payload_well_formed d :
  Spec.well_formed d (Alerts.default_payload d) = true.
Proof. destruct d; reflexivity. Qed.

(** The guard lets only objects through. *)
Lemma has_location_object location :
  Alerts.has_location location = true -> exists fs, location = JS.JObj fs.
Proof.
  unfold Alerts.has_location, Alerts.field.
  destruct location; cbn [JS.prop default from_option JS.truthy]; unfold id;
    intros H; try (rewrite ?andb_false_r in H; discriminate H).
  eauto.
Qed.

Lemma has_location_key location prefix latText lngText :
  Alerts.has_location location = true ->
  JS.ToString (Alerts.field location "lat") = Some latText ->
  JS.ToString (Alerts.field location "lng") = Some lngText ->
  Alerts.locationKey prefix location
  = Some (prefix +:+ latText +:+ "_" +:+ lngText).
Proof.
  intros H Hlat Hlng. apply has_location_object in H as [fs ->].
  unfold Alerts.locationKey, Alerts.field in *.
  cbn [JS.prop default from_option] in *. unfold id in *.
  rewrite Hlat, Hlng. reflexivity.
Qed.

Lemma environmentalKey_Some req latText lngText :
  JS.ToString (Alerts.field (Alerts.location req) "lat") = Some latText ->
  JS.ToString (Alerts.field (Alerts.location req) "lng") = Some lngText ->
  Alerts.environmentalKey req
  = Some (Spec.snapshot_key latText lngText (Alerts.userPreferences req)).
Proof. intros H1 H2. unfold Alerts.environmentalKey. rewrite H1, H2. reflexivity. Qed.

Lemma environmentalKey_inv req key :
  Alerts.environmentalKey req = Some key ->
  exists latText lngText,
    JS.ToString (Alerts.field (Alerts.location req) "lat") = Some latText
    /\ JS.ToString (Alerts.field (Alerts.location req) "lng") = Some lngText
    /\ key = Spec.snapshot_key latText lngText (Alerts.userPreferences req).
Proof.
  unfold Alerts.environmentalKey.
  destruct (JS.ToString (Alerts.field (Alerts.location req) "lat")) as [a|];
    [|discriminate].
  destruct (JS.ToString (Alerts.field (Alerts.location req) "lng")) as [b|];
    [|discriminate].
  intros [= <-]. exists a, b. auto.
Qed.

(** The key of the route tells the preferences apart by their
    serialisation. *)
Lemma snapshot_key_inj latText lngText prefs prefs' :
  Spec.snapshot_key latText lngText prefs
  = Spec.snapshot_key latText lngText prefs' ->
  JS.stringify_in_template prefs = JS.stringify_in_template prefs'.
Proof.
  unfold Spec.snapshot_key. intros H.
  assert (Happ : forall a b c : string, a +:+ b = a +:+ c -> b = c).
  { induction a as [|x a IH]; simpl; intros b c E; [exact E|].
    injection E as E. apply IH. exact E. }
  apply Happ in H. apply Happ in H. apply Happ in H. apply Happ in H.
  apply Happ in H. exact H.
Qed.

(** The aggregation answers the error of its [catch] when the key
    cannot be built, and when nothing is cached and the address cannot be
    shown; the state stays as it was. *)
Lemma aggregate_no_key JSON_parse w req st :
  Alerts.environmentalKey req = None ->
  Alerts.aggregate JSON_parse w req st = (Alerts.routeError w, st).
Proof. intros H. unfold Alerts.aggregate. rewrite H. reflexivity. Qed.

Lemma aggregate_no_address JSON_parse w req st key :
  Alerts.environmentalKey req = Some key ->
  Spec.cache_miss st key w ->
  JS.ToString (Alerts.field (Alerts.location req) "address") = None ->
  Alerts.aggregate JSON_parse w req st = (Alerts.routeError w, st).
Proof.
  intros Hkey Hmiss Ha. unfold Alerts.aggregate. rewrite Hkey.
  unfold Spec.cache_miss in Hmiss. rewrite Hmiss, Ha. reflexivity.
Qed.

(** On a miss of the route's own key, the aggregation is the six
    fetches in order, the assembly of their results, and one write of
    the snapshot for 300 seconds. *)
Lemma aggregate_on_miss JSON_parse w req st latText lngText address :
  Alerts.has_location (Alerts.location req) = true ->
  JS.ToString (Alerts.field (Alerts.location req) "lat") = Some latText ->
  JS.ToString (Alerts.field (Alerts.location req) "lng") = Some lngText ->
  JS.ToString (Alerts.field (Alerts.location req) "address") = Some address ->
  Spec.cache_miss st
    (Spec.snapshot_key latText lngText (Alerts.userPreferences req)) w ->
  Alerts.aggregate JSON_parse w req st
  = ({| Alerts.status := 200;
        Alerts.body :=
          Spec.assembled JSON_parse w req st (latText +:+ "_" +:+ lngText) |},
     Alerts.with_cache
       (snd (Spec.fetch6 JSON_parse w req st (latText +:+ "_" +:+ lngText)))
       (Cache.set
          (Alerts.cache
             (snd (Spec.fetch6 JSON_parse w req st
                     (latText +:+ "_" +:+ lngText))))
          (Spec.snapshot_key latText lngText (Alerts.userPreferences req))
          (Spec.assembled JSON_parse w req st (latText +:+ "_" +:+ lngText))
          300 (Alerts.Date_now w))).
Proof.
  intros Hloc Hlat Hlng Ha Hmiss. unfold Alerts.aggregate.
  rewrite (environmentalKey_Some _ _ _ Hlat Hlng).
  unfold Spec.cache_miss in Hmiss. rewrite Hmiss, Ha.
  unfold Alerts.getWeatherData, Alerts.getAirQualityData,
    Alerts.getTrafficData, Alerts.getHealthData, Alerts.getCrimeData,
    Alerts.getMarketData, Alerts.fetchByLocation.
  rewrite !(has_location_key _ _ _ _ Hloc Hlat Hlng).
  unfold Spec.assembled, Spec.fetch6, Spec.fetch5, Spec.fetch4, Spec.fetch3,
    Spec.fetch2, Spec.fetch1.
  destruct (Alerts.fetchData JSON_parse Alerts.Weather _ _ w st) as [v1 s1].
  cbn [fst snd].
  destruct (Alerts.fetchData JSON_parse Alerts.AirQuality _ _ w s1) as [v2 s2].
  cbn [fst snd].
  destruct (Alerts.fetchData JSON_parse Alerts.Traffic _ _ w s2) as [v3 s3].
  cbn [fst snd].
  destruct (Alerts.fetchData JSON_parse Alerts.Health _ _ w s3) as [v4 s4].
  cbn [fst snd].
  destruct (Alerts.fetchData JSON_parse Alerts.Crime _ _ w s4) as [v5 s5].
  cbn [fst snd].
  destruct (Alerts.fetchData JSON_parse Alerts.Markets _ _ w s5) as [v6 s6].
  reflexivity.
Qed.

Lemma aggregate_on_hit JSON_parse w req st key v :
  Alerts.environmentalKey req = Some key ->
  Cache.get (Alerts.cache st) key (Alerts.Date_now w) = Some v ->
  JS.truthy v = true ->
  Alerts.aggregate JSON_parse w req st
  = ({| Alerts.status := 200; Alerts.body := v |}, st).
Proof.
  intros Hkey Hget Htruthy. unfold Alerts.aggregate. rewrite Hkey, Hget. simpl.
  rewrite Htruthy. reflexivity.
Qed.

Lemma cache_get_set_live (c : gmap string Cache.entry) key v ttl now now' :
  now' <= now + ttl * 1000 ->
  Cache.get (Cache.set c key v ttl now) key now' = Some v.
Proof.
  intros H. unfold Cache.get, Cache.set. rewrite lookup_insert_eq. simpl.
  destruct (Z.ltb_spec (now + ttl * 1000) now'); [lia | reflexivity].
Qed.

Lemma cache_get_set_expired (c : gmap string Cache.entry) key v ttl now now' :
  now + ttl * 1000 < now' ->
  Cache.get (Cache.set c key v ttl now) key now' = None.
Proof.
  intros H. unfold Cache.get, Cache.set. rewrite lookup_insert_eq. simpl.
  destruct (Z.ltb_spec (now + ttl * 1000) now'); [reflexivity | lia].
Qed.

Lemma cache_get_set_other (c : gmap string Cache.entry) key key' v ttl now now' :
  key' <> key ->
  Cache.get (Cache.set c key v ttl now) key' now' = Cache.get c key' now'.
Proof.
  intros H. unfold Cache.get, Cache.set. rewrite lookup_insert_ne by congruence.
  reflexivity.
Qed.

Lemma cache_get_Some (c : gmap string Cache.entry) key now v :
  Cache.get c key now = Some v ->
  exists e, c !! key = Some e /\ Cache.value e = v.
Proof.
  unfold Cache.get. destruct (c !! key) as [e|]; [|discriminate].
  destruct (Cache.expiresAt e <? now); [discriminate|].
  intros [= <-]. exists e. split; reflexivity.
Qed.

Lemma truthy_cached (o : option JS.jsval) :
  JS.truthy (default JS.JUndefined o) = true ->
  exists v, o = Some v /\ JS.truthy v = true.
Proof. destruct o as [v|]; simpl; [eauto | discriminate]. Qed.

(** A fetch writes to no key but its own. *)
Lemma fetchData_frame JSON_parse d cacheKey promptBuilt w st key :
  key <> cacheKey ->
  Alerts.cache (snd (Alerts.fetchData JSON_parse d cacheKey promptBuilt w st))
    !! key
  = Alerts.cache st !! key.
Proof.
  intros Hne. unfold Alerts.fetchData.
  destruct (JS.truthy _); [reflexivity|].
  destruct (negb promptBuilt); [reflexivity|].
  destruct (Alerts.queryPerplexity w d); [reflexivity|].
  simpl. unfold Cache.set. apply lookup_insert_ne. congruence.
Qed.

Lemma fetchData_get_frame JSON_parse d cacheKey promptBuilt w st key now :
  key <> cacheKey ->
  Cache.get
    (Alerts.cache (snd (Alerts.fetchData JSON_parse d cacheKey promptBuilt w st)))
    key now
  = Cache.get (Alerts.cache st) key now.
Proof.
  intros Hne. unfold Cache.get.
  rewrite (fetchData_frame _ _ _ _ _ _ _ Hne). reflexivity.
Qed.

Lemma cache_miss_frame JSON_parse d cacheKey promptBuilt w st key :
  key <> cacheKey ->
  Spec.cache_miss st key w ->
  Spec.cache_miss
    (snd (Alerts.fetchData JSON_parse d cacheKey promptBuilt w st)) key w.
Proof.
  intros Hne. unfold Spec.cache_miss.
  rewrite (fetchData_get_frame _ _ _ _ _ _ _ _ Hne). auto.
Qed.

(** The fan-out writes to no key of the route. *)
Lemma fanout_frame JSON_parse w req st coords rest now :
  Cache.get
    (Alerts.cache (snd (Spec.fetch6 JSON_parse w req st coords)))
    ("environmental_data_" +:+ rest) now
  = Cache.get (Alerts.cache st) ("environmental_data_" +:+ rest) now.
Proof.
  unfold Spec.fetch6, Spec.fetch5, Spec.fetch4, Spec.fetch3, Spec.fetch2,
    Spec.fetch1.
  repeat rewrite fetchData_get_frame by (intros Hk; discriminate Hk).
  reflexivity.
Qed.

Lemma fetchData_fails JSON_parse d cacheKey promptBuilt w st :
  Spec.cache_miss st cacheKey w ->
  promptBuilt = false \/ Spec.upstream_fails JSON_parse w d ->
  fst (Alerts.fetchData JSON_parse d cacheKey promptBuilt w st)
  = Alerts.default_payload d.
Proof.
  intros Hmiss Hfail. destruct promptBuilt.
  - destruct Hfail as [H | [Hthrew | (response & Hreply & Hparse)]];
      [discriminate H | |].
    + rewrite (fetchData_threw _ _ _ _ _ Hmiss Hthrew). reflexivity.
    + rewrite (fetchData_on_reply _ _ _ _ _ _ Hmiss Hreply), Hparse.
      reflexivity.
  - rewrite (fetchData_no_prompt _ _ _ _ _ Hmiss). reflexivity.
Qed.

Lemma fetchData_parsed JSON_parse d cacheKey promptBuilt w st response payload :
  Spec.cache_miss st cacheKey w ->
  promptBuilt = true ->
  Alerts.queryPerplexity w d = Alerts.Content response ->
  JSON_parse (Alerts.jsonText response) = Some payload ->
  fst (Alerts.fetchData JSON_parse d cacheKey promptBuilt w st) = payload.
Proof.
  intros Hmiss -> Hreply Hparse.
  rewrite (fetchData_on_reply _ _ _ _ _ _ Hmiss Hreply), Hparse. reflexivity.
Qed.

(** A domain with nothing cached whose provider fails shows its default
    payload in the assembled snapshot. *)
Lemma fanout_default JSON_parse w req st latText lngText d key :
  Alerts.has_location (Alerts.location req) = true ->
  JS.ToString (Alerts.field (Alerts.location req) "lat") = Some latText ->
  JS.ToString (Alerts.field (Alerts.location req) "lng") = Some lngText ->
  Spec.key_of d w (Alerts.location req) = Some key ->
  Spec.cache_miss st key w ->
  Spec.provider_fails JSON_parse w (Alerts.preferencesOrEmpty req) d ->
  Alerts.field
    (Spec.assembled JSON_parse w req st (latText +:+ "_" +:+ lngText))
    (Spec.snapshot_field d)
  = Alerts.default_payload d.
Proof.
  intros Hloc Hlat Hlng Hkey Hmiss Hfail.
  destruct d; simpl in Hkey;
    rewrite ?(has_location_key _ _ _ _ Hloc Hlat Hlng) in Hkey;
    injection Hkey as <-;
    cbn [Spec.snapshot_field Spec.assembled Alerts.field JS.prop JS.assoc
         String.eqb Ascii.eqb Bool.eqb default];
    unfold Spec.fetch6, Spec.fetch5, Spec.fetch4, Spec.fetch3, Spec.fetch2,
      Spec.fetch1;
    (apply fetchData_fails; [|exact Hfail]);
    repeat first
      [ exact Hmiss
      | apply cache_miss_frame; [intros Hk; discriminate Hk|] ].
Qed.

(** A domain with nothing cached whose reply parses shows the parsed
    value, as it is, in the assembled snapshot. *)
Lemma fanout_parsed JSON_parse w req st latText lngText d key response payload :
  Alerts.has_location (Alerts.location req) = true ->
  JS.ToString (Alerts.field (Alerts.location req) "lat") = Some latText ->
  JS.ToString (Alerts.field (Alerts.location req) "lng") = Some lngText ->
  Spec.key_of d w (Alerts.location req) = Some key ->
  Spec.cache_miss st key w ->
  Alerts.promptBuilds d w (Alerts.preferencesOrEmpty req) = true ->
  Alerts.queryPerplexity w d = Alerts.Content response ->
  JSON_parse (Alerts.jsonText response) = Some payload ->
  Alerts.field
    (Spec.assembled JSON_parse w req st (latText +:+ "_" +:+ lngText))
    (Spec.snapshot_field d)
  = payload.
Proof.
  intros Hloc Hlat Hlng Hkey Hmiss Hbuilt Hreply Hparse.
  destruct d; simpl in Hkey;
    rewrite ?(has_location_key _ _ _ _ Hloc Hlat Hlng) in Hkey;
    injection Hkey as <-;
    cbn [Spec.snapshot_field Spec.assembled Alerts.field JS.prop JS.assoc
         String.eqb Ascii.eqb Bool.eqb default];
    unfold Spec.fetch6, Spec.fetch5, Spec.fetch4, Spec.fetch3, Spec.fetch2,
      Spec.fetch1;
    (apply (fetchData_parsed _ _ _ _ _ _ response);
       [|exact Hbuilt|exact Hreply|exact Hparse]);
    repeat first
      [ exact Hmiss
      | apply cache_miss_frame; [intros Hk; discriminate Hk|] ].
Qed.

(** C4, as the code has it. An aggregation that finds nothing cached
    under its key and completes caches its snapshot for 300 seconds
    under the key made of the latitude, the longitude and the
    serialised user preferences; the address is not part of the key. A
    later aggregation with the same latitude, longitude and preferences,
    whatever its address, no later than 300 seconds after the one that
    cached, returns the cached response and leaves the state, with its
    trace of upstream calls, as it was, also behind the route's
    admission check. A request whose preferences serialise differently
    is not served from it, and after the 300 seconds neither is a
    request with the same preferences. *)
Theorem snapshot_is_cached_for_five_minutes_under_coordinates_and_preferences
    (JSON_parse : string -> option JS.jsval) (w1 w2 : Alerts.world)
    (req req2 : Alerts.request) (st : Alerts.state)
    (latText lngText address : string) :
  Alerts.has_location (Alerts.location req) = true ->
  JS.ToString (Alerts.field (Alerts.location req) "lat") = Some latText ->
  JS.ToString (Alerts.field (Alerts.location req) "lng") = Some lngText ->
  JS.ToString (Alerts.field (Alerts.location req) "address") = Some address ->
  Spec.cache_miss st
    (Spec.snapshot_key latText lngText (Alerts.userPreferences req)) w1 ->
  Alerts.field (Alerts.location req2) "lat"
    = Alerts.field (Alerts.location req) "lat" ->
  Alerts.field (Alerts.location req2) "lng"
    = Alerts.field (Alerts.location req) "lng" ->
  (Alerts.environmentalKey req
     = Some (Spec.snapshot_key latText lngText (Alerts.userPreferences req))
   /\ Alerts.environmentalKey req2
      = Some (Spec.snapshot_key latText lngText (Alerts.userPreferences req2))
   /\ Alerts.status (fst (Alerts.aggregate JSON_parse w1 req st)) = 200
   /\ Alerts.cache (snd (Alerts.aggregate JSON_parse w1 req st))
        !! Spec.snapshot_key latText lngText (Alerts.userPreferences req)
      = Some {| Cache.value :=
                  Alerts.body (fst (Alerts.aggregate JSON_parse w1 req st));
                Cache.expiresAt := Alerts.Date_now w1 + 300000 |})
  /\ (Alerts.userPreferences req2 = Alerts.userPreferences req ->
      Alerts.Date_now w2 <= Alerts.Date_now w1 + 300000 ->
      Alerts.aggregate JSON_parse w2 req2
        (snd (Alerts.aggregate JSON_parse w1 req st))
      = (fst (Alerts.aggregate JSON_parse w1 req st),
         snd (Alerts.aggregate JSON_parse w1 req st))
      /\ (Alerts.has_location (Alerts.location req2) = true ->
          fst (RateLimit.checkRateLimit (Alerts.Date_now w2)
                 (Alerts.clientIP req2)
                 (Alerts.apiCallLimiter
                    (snd (Alerts.aggregate JSON_parse w1 req st)))) = true ->
          fst (Alerts.postEnvironmentalData JSON_parse w2 req2
                 (snd (Alerts.aggregate JSON_parse w1 req st)))
          = fst (Alerts.aggregate JSON_parse w1 req st)
          /\ Alerts.upstreamCalls
               (snd (Alerts.postEnvironmentalData JSON_parse w2 req2
                       (snd (Alerts.aggregate JSON_parse w1 req st))))
             = Alerts.upstreamCalls
                 (snd (Alerts.aggregate JSON_parse w1 req st))))
  /\ (JS.stringify_in_template (Alerts.userPreferences req2)
        <> JS.stringify_in_template (Alerts.userPreferences req) ->
      Spec.cache_miss st
        (Spec.snapshot_key latText lngText (Alerts.userPreferences req2)) w2 ->
      Spec.cache_miss (snd (Alerts.aggregate JSON_parse w1 req st))
        (Spec.snapshot_key latText lngText (Alerts.userPreferences req2)) w2)
  /\ (Alerts.Date_now w1 + 300000 < Alerts.Date_now w2 ->
      Spec.cache_miss (snd (Alerts.aggregate JSON_parse w1 req st))
        (Spec.snapshot_key latText lngText (Alerts.userPreferences req)) w2).
Proof.
  intros Hloc Hlat Hlng Ha Hmiss Hlat2 Hlng2.
  assert (Hkey2 : Alerts.environmentalKey req2
                  = Some (Spec.snapshot_key latText lngText
                            (Alerts.userPreferences req2))).
  { apply environmentalKey_Some; [rewrite Hlat2 | rewrite Hlng2]; assumption. }
  rewrite (aggregate_on_miss JSON_parse w1 req st _ _ _ Hloc Hlat Hlng Ha Hmiss).
  set (coords := latText +:+ "_" +:+ lngText).
  set (data := Spec.assembled JSON_parse w1 req st coords).
  set (st6 := snd (Spec.fetch6 JSON_parse w1 req st coords)).
  cbn [fst snd Alerts.status Alerts.body Alerts.cache Alerts.with_cache].
  split; [|split; [|split]].
  - split; [apply environmentalKey_Some; assumption|].
    split; [exact Hkey2|]. split; [reflexivity|].
    unfold Cache.set. rewrite lookup_insert_eq. reflexivity.
  - intros Hp Hnow.
    assert (Hhit : forall st',
               Alerts.cache st'
               = Cache.set (Alerts.cache st6)
                   (Spec.snapshot_key latText lngText
                      (Alerts.userPreferences req))
                   data 300 (Alerts.Date_now w1) ->
               Alerts.aggregate JSON_parse w2 req2 st'
               = ({| Alerts.status := 200; Alerts.body := data |}, st')).
    { intros st' Hc.
      apply (aggregate_on_hit _ _ _ _ _ _ Hkey2); [|reflexivity].
      rewrite Hp, Hc. apply cache_get_set_live. lia. }
    split; [apply Hhit; reflexivity|].
    intros Hloc2 Hadmit. unfold Alerts.postEnvironmentalData.
    rewrite Hloc2. cbn [negb].
    destruct (RateLimit.checkRateLimit _ _ _) as [admitted limiter].
    cbn [fst] in Hadmit. subst admitted. cbn [negb].
    rewrite Hhit by reflexivity. split; reflexivity.
  - intros Hne Hmiss2. unfold Spec.cache_miss in *.
    cbn [Alerts.cache Alerts.with_cache].
    rewrite cache_get_set_other
      by (intros E; apply Hne; apply (snapshot_key_inj _ _ _ _ E)).
    subst st6. unfold Spec.snapshot_key. rewrite fanout_frame. exact Hmiss2.
  - intros Hlate. unfold Spec.cache_miss.
    cbn [Alerts.cache Alerts.with_cache].
    rewrite cache_get_set_expired by exact Hlate. reflexivity.
Qed.

(** A first request at Indianapolis on a fresh process while every
    upstream call throws, and a second one 300 seconds later when the
    upstream answers again: the second is served the first snapshot. A
    request with a pollen allergy in its preferences finds nothing
    cached for it. *)
Lemma second_aggregate_witness :
  Alerts.aggregate Samples.parse_sample
    (Samples.world_at 301000 (fun _ => Alerts.Content Samples.aqi_object))
    (Samples.request_from Samples.indianapolis)
    (snd (Alerts.aggregate Samples.parse_sample
            (Samples.world_at 1000 (fun _ => Alerts.Threw))
            (Samples.request_from Samples.indianapolis)
            Samples.fresh_state))
  = Alerts.aggregate Samples.parse_sample
      (Samples.world_at 1000 (fun _ => Alerts.Threw))
      (Samples.request_from Samples.indianapolis)
      Samples.fresh_state
  /\ Spec.cache_miss
       (snd (Alerts.aggregate Samples.parse_sample
               (Samples.world_at 1000 (fun _ => Alerts.Threw))
               (Samples.request_from Samples.indianapolis)
               Samples.fresh_state))
       (Spec.snapshot_key "39.77" "-86.15" Samples.pollen_allergy)
       (Samples.world_at 301000 (fun _ => Alerts.Content Samples.aqi_object)).
Proof.
  split.
  - destruct (snapshot_is_cached_for_five_minutes_under_coordinates_and_preferences
                Samples.parse_sample
                (Samples.world_at 1000 (fun _ => Alerts.Threw))
                (Samples.world_at 301000
                   (fun _ => Alerts.Content Samples.aqi_object))
                (Samples.request_from Samples.indianapolis)
                (Samples.request_from Samples.indianapolis)
                Samples.fresh_state "39.77" "-86.15" "Indianapolis, IN")
      as (_ & H & _);
      [reflexivity | reflexivity | reflexivity | reflexivity | reflexivity
      | reflexivity | reflexivity |].
    destruct H as [H _]; [reflexivity | simpl; lia |].
    rewrite H. symmetry. apply surjective_pairing.
  - destruct (snapshot_is_cached_for_five_minutes_under_coordinates_and_preferences
                Samples.parse_sample
                (Samples.world_at 1000 (fun _ => Alerts.Threw))
                (Samples.world_at 301000
                   (fun _ => Alerts.Content Samples.aqi_object))
                (Samples.request_from Samples.indianapolis)
                (Samples.request_with Samples.indianapolis
                   Samples.pollen_allergy)
                Samples.fresh_state "39.77" "-86.15" "Indianapolis, IN")
      as (_ & _ & H & _);
      [reflexivity | reflexivity | reflexivity | reflexivity | reflexivity
      | reflexivity | reflexivity |].
    apply H; [intros E; vm_compute in E; discriminate E | reflexivity].
Defined.

(** C4 fails as stated. The five minutes run from the call that cached
    the snapshot, not from the last successful call: after a call at
    1 s that caches and a call at 300 s that is served from the cache, an
    identical call at 302 s, two seconds after a successful one, goes to
    all six upstreams and returns another snapshot. And the key is not
    derived from the full location: a request from another address at
    the same coordinates is served the snapshot of the first, with the
    first address in it. *)
Lemma second_call_after_a_cached_answer_goes_upstream :
  fst (Alerts.aggregate Samples.parse_sample
         (Samples.world_at 300000 (fun _ => Alerts.Content Samples.aqi_object))
         (Samples.request_from Samples.indianapolis)
         (snd (Alerts.aggregate Samples.parse_sample
                 (Samples.world_at 1000 (fun _ => Alerts.Threw))
                 (Samples.request_from Samples.indianapolis)
                 Samples.fresh_state)))
  = fst (Alerts.aggregate Samples.parse_sample
           (Samples.world_at 1000 (fun _ => Alerts.Threw))
           (Samples.request_from Samples.indianapolis)
           Samples.fresh_state)
  /\ Alerts.upstreamCalls
       (snd (Alerts.aggregate Samples.parse_sample
               (Samples.world_at 302000
                  (fun _ => Alerts.Content Samples.aqi_object))
               (Samples.request_from Samples.indianapolis)
               (snd (Alerts.aggregate Samples.parse_sample
                       (Samples.world_at 300000
                          (fun _ => Alerts.Content Samples.aqi_object))
                       (Samples.request_from Samples.indianapolis)
                       (snd (Alerts.aggregate Samples.parse_sample
                               (Samples.world_at 1000 (fun _ => Alerts.Threw))
                               (Samples.request_from Samples.indianapolis)
                               Samples.fresh_state))))))
     = Spec.all_domains ++ Spec.all_domains
  /\ Alerts.field
       (Alerts.body
          (fst (Alerts.aggregate Samples.parse_sample
                  (Samples.world_at 302000
                     (fun _ => Alerts.Content Samples.aqi_object))
                  (Samples.request_from Samples.indianapolis)
                  (snd (Alerts.aggregate Samples.parse_sample
                          (Samples.world_at 300000
                             (fun _ => Alerts.Content Samples.aqi_object))
                          (Samples.request_from Samples.indianapolis)
                          (snd (Alerts.aggregate Samples.parse_sample
                                  (Samples.world_at 1000 (fun _ => Alerts.Threw))
                                  (Samples.request_from Samples.indianapolis)
                                  Samples.fresh_state)))))))
       "weather"
     = Samples.aqi_payload
  /\ Alerts.field
       (Alerts.body
          (fst (Alerts.aggregate Samples.parse_sample
                  (Samples.world_at 300000
                     (fun _ => Alerts.Content Samples.aqi_object))
                  (Samples.request_from Samples.indianapolis)
                  (snd (Alerts.aggregate Samples.parse_sample
                          (Samples.world_at 1000 (fun _ => Alerts.Threw))
                          (Samples.request_from Samples.indianapolis)
                          Samples.fresh_state)))))
       "weather"
     = Alerts.default_payload Alerts.Weather
  /\ Alerts.location (Samples.request_from Samples.same_spot_other_address)
     <> Alerts.location (Samples.request_from Samples.indianapolis)
  /\ Alerts.field
       (Alerts.body
          (fst (Alerts.aggregate Samples.parse_sample
                  (Samples.world_at 61000
                     (fun _ => Alerts.Content Samples.aqi_object))
                  (Samples.request_from Samples.same_spot_other_address)
                  (snd (Alerts.aggregate Samples.parse_sample
                          (Samples.world_at 1000 (fun _ => Alerts.Threw))
                          (Samples.request_from Samples.indianapolis)
                          Samples.fresh_state)))))
       "location"
     = JS.JStr "Indianapolis, IN".
Proof.
  split; [vm_compute; reflexivity|].
  split; [vm_compute; reflexivity|].
  split; [vm_compute; reflexivity|].
  split; [vm_compute; reflexivity|].
  split; [intros H; discriminate H|].
  vm_compute. reflexivity.
Qed.

(** ** The snapshot, whatever the providers do *)

Lemma assembled_has_fields JSON_parse w req st coords :
  Spec.has_snapshot_fields (Spec.assembled JSON_parse w req st coords) = true.
Proof. reflexivity. Qed.

(** The aggregation of a validated request keeps snapshots, and nothing
    else, under the keys of the route. *)
Lemma aggregate_keeps_snapshots JSON_parse w req st :
  Alerts.has_location (Alerts.location req) = true ->
  Spec.snapshots_under_route_keys (Alerts.cache st) ->
  Spec.snapshots_under_route_keys
    (Alerts.cache (snd (Alerts.aggregate JSON_parse w req st))).
Proof.
  intros Hloc Hinv.
  destruct (Alerts.environmentalKey req) as [key|] eqn:Hkey;
    [|rewrite (aggregate_no_key _ _ _ _ Hkey); exact Hinv].
  destruct (JS.truthy
              (default JS.JUndefined
                 (Cache.get (Alerts.cache st) key (Alerts.Date_now w))))
    eqn:Hhit.
  { apply truthy_cached in Hhit as (v & Hget & Hv).
    rewrite (aggregate_on_hit _ _ _ _ _ _ Hkey Hget Hv). exact Hinv. }
  destruct (JS.ToString (Alerts.field (Alerts.location req) "address"))
    as [address|] eqn:Ha;
    [|rewrite (aggregate_no_address _ _ _ _ _ Hkey Hhit Ha); exact Hinv].
  destruct (environmentalKey_inv _ _ Hkey) as (latText & lngText & Hlat & Hlng & ->).
  rewrite (aggregate_on_miss _ _ _ _ _ _ _ Hloc Hlat Hlng Ha Hhit).
  cbn [snd Alerts.cache Alerts.with_cache].
  intros rest e. unfold Cache.set.
  destruct (decide (Spec.snapshot_key latText lngText (Alerts.userPreferences req)
                    = "environmental_data_" +:+ rest)) as [E|Hne].
  - rewrite E, lookup_insert_eq. intros [= <-]. apply assembled_has_fields.
  - rewrite lookup_insert_ne by exact Hne.
    unfold Spec.fetch6, Spec.fetch5, Spec.fetch4, Spec.fetch3, Spec.fetch2,
      Spec.fetch1.
    repeat rewrite fetchData_frame by (intros Hk; discriminate Hk).
    apply Hinv.
Qed.

Lemma reachable_snapshots JSON_parse st :
  Spec.reachable JSON_parse st ->
  Spec.snapshots_under_route_keys (Alerts.cache st).
Proof.
  induction 1 as [|w req st _ IH|production st _ IH].
  - intros rest e H. cbn [Alerts.cache] in H. rewrite lookup_empty in H.
    discriminate H.
  - unfold Alerts.postEnvironmentalData.
    destruct (Alerts.has_location (Alerts.location req)) eqn:Hloc;
      cbn [negb]; [|exact IH].
    destruct (RateLimit.checkRateLimit _ _ _) as [[|] limiter];
      cbn [negb]; [|exact IH].
    apply aggregate_keeps_snapshots; [exact Hloc | exact IH].
  - unfold Alerts.cacheClear. destruct production; cbn [negb snd]; [exact IH|].
    intros rest e H. cbn [Alerts.cache Alerts.with_cache] in H.
    rewrite lookup_empty in H. discriminate H.
Qed.

(** A validated request whose coordinates and address convert to text
    is answered 200 with an object that has the fields of a snapshot. *)
Lemma aggregate_fields JSON_parse w req st latText lngText address :
  Spec.snapshots_under_route_keys (Alerts.cache st) ->
  Alerts.has_location (Alerts.location req) = true ->
  JS.ToString (Alerts.field (Alerts.location req) "lat") = Some latText ->
  JS.ToString (Alerts.field (Alerts.location req) "lng") = Some lngText ->
  JS.ToString (Alerts.field (Alerts.location req) "address") = Some address ->
  Alerts.status (fst (Alerts.aggregate JSON_parse w req st)) = 200
  /\ Spec.has_snapshot_fields
       (Alerts.body (fst (Alerts.aggregate JSON_parse w req st))) = true.
Proof.
  intros Hinv Hloc Hlat Hlng Ha.
  pose proof (environmentalKey_Some _ _ _ Hlat Hlng) as Hkey.
  destruct (JS.truthy
              (default JS.JUndefined
                 (Cache.get (Alerts.cache st)
                    (Spec.snapshot_key latText lngText
                       (Alerts.userPreferences req))
                    (Alerts.Date_now w)))) eqn:Hhit.
  - apply truthy_cached in Hhit as (v & Hget & Hv).
    rewrite (aggregate_on_hit _ _ _ _ _ _ Hkey Hget Hv).
    cbn [fst Alerts.status Alerts.body]. split; [reflexivity|].
    apply cache_get_Some in Hget as (e & He & <-).
    apply (Hinv _ _ He).
  - rewrite (aggregate_on_miss _ _ _ _ _ _ _ Hloc Hlat Hlng Ha Hhit).
    cbn [fst Alerts.status Alerts.body]. split; [reflexivity|].
    apply assembled_has_fields.
Qed.

(** C2, as the code has it. In every state the router can reach, a
    request with a location whose latitude, longitude and address are
    present and convert to text is answered 200 with an object that has
    the six domain fields, lastUpdated and location, whatever each of the
    six providers does. When the snapshot is assembled, a domain with
    nothing cached whose provider fails (its prompt cannot be built, its
    call throws or its reply does not parse) holds its default payload,
    which is well-formed; a domain with nothing cached whose reply
    parses holds the parsed value as it is, of whatever shape. The route
    answers that response or the rate limiter's 429: no behaviour of the
    providers makes it answer an error. *)
Theorem aggregate_answers_a_snapshot_whatever_the_providers_do
    (JSON_parse : string -> option JS.jsval) (w : Alerts.world)
    (req : Alerts.request) (st : Alerts.state)
    (latText lngText address : string) :
  Spec.reachable JSON_parse st ->
  Alerts.has_location (Alerts.location req) = true ->
  JS.ToString (Alerts.field (Alerts.location req) "lat") = Some latText ->
  JS.ToString (Alerts.field (Alerts.location req) "lng") = Some lngText ->
  JS.ToString (Alerts.field (Alerts.location req) "address") = Some address ->
  (Alerts.status (fst (Alerts.aggregate JSON_parse w req st)) = 200
   /\ Spec.has_snapshot_fields
        (Alerts.body (fst (Alerts.aggregate JSON_parse w req st))) = true)
  /\ (Spec.cache_miss st
        (Spec.snapshot_key latText lngText (Alerts.userPreferences req)) w ->
      forall d key,
        Spec.key_of d w (Alerts.location req) = Some key ->
        Spec.cache_miss st key w ->
        (Spec.provider_fails JSON_parse w (Alerts.preferencesOrEmpty req) d ->
         Alerts.field
           (Alerts.body (fst (Alerts.aggregate JSON_parse w req st)))
           (Spec.snapshot_field d)
         = Alerts.default_payload d
         /\ Spec.well_formed d (Alerts.default_payload d) = true)
        /\ (forall response payload,
              Alerts.promptBuilds d w (Alerts.preferencesOrEmpty req) = true ->
              Alerts.queryPerplexity w d = Alerts.Content response ->
              JSON_parse (Alerts.jsonText response) = Some payload ->
              Alerts.field
                (Alerts.body (fst (Alerts.aggregate JSON_parse w req st)))
                (Spec.snapshot_field d)
              = payload))
  /\ (fst (Alerts.postEnvironmentalData JSON_parse w req st)
        = Alerts.rateLimitExceeded
      \/ (Alerts.status (fst (Alerts.postEnvironmentalData JSON_parse w req st))
            = 200
          /\ Spec.has_snapshot_fields
               (Alerts.body
                  (fst (Alerts.postEnvironmentalData JSON_parse w req st)))
             = true)).
Proof.
  intros Hreach Hloc Hlat Hlng Ha.
  pose proof (reachable_snapshots _ _ Hreach) as Hinv.
  split; [|split].
  - apply (aggregate_fields _ _ _ _ latText lngText address); assumption.
  - intros Hmiss d key Hkey Hmissd.
    rewrite (aggregate_on_miss _ _ _ _ _ _ _ Hloc Hlat Hlng Ha Hmiss).
    cbn [fst Alerts.body]. split.
    + intros Hfail. split; [|apply default_payload_well_formed].
      apply (fanout_default JSON_parse w req st latText lngText d key);
        assumption.
    + intros response payload Hbuilt Hreply Hparse.
      apply (fanout_parsed JSON_parse w req st latText lngText d key response);
        assumption.
  - unfold Alerts.postEnvironmentalData. rewrite Hloc. cbn [negb].
    destruct (RateLimit.checkRateLimit _ _ _) as [[|] limiter]; cbn [negb].
    + right.
      apply (aggregate_fields _ _ _ _ latText lngText address); assumption.
    + left. reflexivity.
Qed.

(** A request at Indianapolis on a fresh process while all six upstream
    calls throw: the snapshot has its eight fields, and its weather
    field is the default weather payload. *)
Lemma aggregate_all_failing_witness :
  Spec.has_snapshot_fields
    (Alerts.body
       (fst (Alerts.aggregate Samples.parse_sample
               (Samples.world_at 1000 (fun _ => Alerts.Threw))
               (Samples.request_from Samples.indianapolis)
               Samples.fresh_state))) = true
  /\ Alerts.field
       (Alerts.body
          (fst (Alerts.aggregate Samples.parse_sample
                  (Samples.world_at 1000 (fun _ => Alerts.Threw))
                  (Samples.request_from Samples.indianapolis)
                  Samples.fresh_state))) "weather"
     = Alerts.default_payload Alerts.Weather.
Proof.
  destruct (aggregate_answers_a_snapshot_whatever_the_providers_do
              Samples.parse_sample
              (Samples.world_at 1000 (fun _ => Alerts.Threw))
              (Samples.request_from Samples.indianapolis)
              Samples.fresh_state "39.77" "-86.15" "Indianapolis, IN")
    as ((_ & Hshape) & Hdefault & _).
  - exact (Spec.reach_start Samples.parse_sample).
  - reflexivity.
  - reflexivity.
  - reflexivity.
  - reflexivity.
  - split; [exact Hshape|].
    destruct (Hdefault eq_refl Alerts.Weather "weather_39.77_-86.15"
                eq_refl eq_refl) as [H _].
    apply H. right. left. reflexivity.
Defined.

(** C2 fails as stated: the code does not check the shape of a reply
    that parses. When the weather upstream answers with the empty
    object, the route answers 200 with a snapshot whose weather field
    is the empty object, which has none of the weather fields. *)
Lemma parsed_reply_of_another_shape_reaches_the_snapshot :
  Alerts.status
    (fst (Alerts.postEnvironmentalData Samples.parse_sample
            (Samples.world_at 1000 (fun _ => Alerts.Content "{}"))
            (Samples.request_from Samples.indianapolis)
            Samples.fresh_state)) = 200
  /\ Alerts.field
       (Alerts.body
          (fst (Alerts.postEnvironmentalData Samples.parse_sample
                  (Samples.world_at 1000 (fun _ => Alerts.Content "{}"))
                  (Samples.request_from Samples.indianapolis)
                  Samples.fresh_state))) "weather"
     = JS.JObj []
  /\ Spec.well_formed Alerts.Weather (JS.JObj []) = false
  /\ Spec.snapshot_well_formed
       (Alerts.body
          (fst (Alerts.postEnvironmentalData Samples.parse_sample
                  (Samples.world_at 1000 (fun _ => Alerts.Content "{}"))
                  (Samples.request_from Samples.indianapolis)
                  Samples.fresh_state))) = false.
Proof.
  split; [vm_compute; reflexivity|].
  split; [vm_compute; reflexivity|].
  split; [reflexivity|].
  vm_compute. reflexivity.
Qed.

(** ** The chat orchestrator *)

Lemma send_accepted JSON_parse svc req query history userData :
  Spec.accepted JSON_parse req query history userData ->
  Chat.send JSON_parse svc req
  = Chat.respond svc query history userData (Chat.file req).
Proof.
  intros (Hm & Hq & Hh & Hu). unfold Chat.send. rewrite Hm.
  destruct (String.eqb_spec (Text.trim query) ""); [contradiction|].
  rewrite Hh, Hu. reflexivity.
Qed.

(** C1, as the code has it. For an accepted chat request: when the
    classifier picks perplexity and perplexity fails, gemini is called
    exactly once, after it; a success is tagged with the backend that
    was called last and whose text it carries, so a fallback success is
    tagged gemini; the request ends in the error exactly when both
    backends fail. When the classifier picks gemini, gemini alone is
    called, once, and the request ends in the error exactly when gemini
    fails: there is no fallback from gemini to perplexity. *)
Theorem fallback_runs_from_perplexity_to_gemini_only
    (JSON_parse : string -> option JS.jsval) (svc : Chat.services)
    (req : Chat.sendRequest) (query : string) (history : list JS.jsval)
    (userData : JS.jsval) :
  Spec.accepted JSON_parse req query history userData ->
  (Chat.determineAiSource query = Chat.perplexity ->
   (Chat.callPerplexityAPI svc query history userData = None ->
    snd (Chat.send JSON_parse svc req) = [Chat.perplexity; Chat.gemini])
   /\ (forall text,
         Chat.callPerplexityAPI svc query history userData = Some text ->
         Chat.send JSON_parse svc req
         = (Chat.Success text Chat.perplexity, [Chat.perplexity]))
   /\ (forall text,
         Chat.callPerplexityAPI svc query history userData = None ->
         Chat.callGeminiAPI svc query history userData (Chat.file req)
           = Some text ->
         fst (Chat.send JSON_parse svc req) = Chat.Success text Chat.gemini)
   /\ (Spec.is_failure (fst (Chat.send JSON_parse svc req)) <->
       Chat.callPerplexityAPI svc query history userData = None
       /\ Chat.callGeminiAPI svc query history userData (Chat.file req)
          = None))
  /\ (Chat.determineAiSource query = Chat.gemini ->
      snd (Chat.send JSON_parse svc req) = [Chat.gemini]
      /\ (forall text,
            Chat.callGeminiAPI svc query history userData (Chat.file req)
              = Some text ->
            fst (Chat.send JSON_parse svc req) = Chat.Success text Chat.gemini)
      /\ (Spec.is_failure (fst (Chat.send JSON_parse svc req)) <->
          Chat.callGeminiAPI svc query history userData (Chat.file req)
          = None)).
Proof.
  intros Hacc. rewrite (send_accepted _ svc _ _ _ _ Hacc).
  unfold Chat.respond, Spec.is_failure. split; intros ->.
  - destruct (Chat.callPerplexityAPI svc query history userData) as [p|];
      destruct (Chat.callGeminiAPI svc query history userData (Chat.file req))
        as [g|]; simpl; repeat split; intros; settle_reply.
  - destruct (Chat.callGeminiAPI svc query history userData (Chat.file req))
      as [g|]; simpl; repeat split; intros; settle_reply.
Qed.

(** The weather question while Perplexity is down and Gemini answers
    ok: the reply is ok, tagged gemini, after one call to each. *)
Lemma fallback_witness :
  Chat.send Samples.parse_sample Samples.perplexity_down
    (Samples.just_message "What's the weather like today in Indianapolis?")
  = (Chat.Success "ok" Chat.gemini, [Chat.perplexity; Chat.gemini]).
Proof.
  destruct (fallback_runs_from_perplexity_to_gemini_only Samples.parse_sample
              Samples.perplexity_down
              (Samples.just_message
                 "What's the weather like today in Indianapolis?")
              "What's the weather like today in Indianapolis?" []
              (JS.JObj [])) as [H _].
  - repeat split. vm_compute. discriminate.
  - destruct (H eq_refl) as (Htrace & _ & Htext & _).
    specialize (Htrace eq_refl). specialize (Htext "ok" eq_refl eq_refl).
    rewrite (surjective_pairing (Chat.send _ _ _)), Htrace, Htext.
    reflexivity.
Defined.

(** C1 fails as stated: a greeting is classified gemini; with Gemini
    down and Perplexity answering, the request ends in the error after
    the one call to gemini, and perplexity, which would have answered
    ok, is never called. *)
Lemma gemini_failure_has_no_fallback :
  Chat.determineAiSource "Hello there" = Chat.gemini
  /\ Chat.callPerplexityAPI Samples.gemini_down "Hello there" [] (JS.JObj [])
     = Some "ok"
  /\ Chat.send Samples.parse_sample Samples.gemini_down
       (Samples.just_message "Hello there")
     = (Chat.ApiFailure Chat.gemini, [Chat.gemini]).
Proof. repeat split; vm_compute; reflexivity. Qed.

(** ** The bounded suffix of the conversation history *)

Lemma slice_last_app {A : Type} (n : nat) (older recent : list A) :
  (n <= length recent)%nat ->
  Chat.slice_last n (older ++ recent) = Chat.slice_last n recent.
Proof.
  intros Hn. unfold Chat.slice_last.
  rewrite length_app, skipn_app.
  rewrite skipn_all2 by lia.
  replace (length older + length recent - n - length older)%nat
    with (length recent - n)%nat by lia.
  reflexivity.
Qed.

(** Turns older than the last six reach neither request: the message
    lists read the last five turns and the system prompt the last
    six. *)
Lemma turns_before_last_six_have_no_effect (query : string)
    (older recent : list JS.jsval) (userData : JS.jsval)
    (file : option Chat.fileData) :
  length recent = 6%nat ->
  Chat.perplexityMessages query (older ++ recent) userData
  = Chat.perplexityMessages query recent userData
  /\ Chat.geminiContents query (older ++ recent) userData file
     = Chat.geminiContents query recent userData file.
Proof.
  intros Hlen.
  assert (Hclean : forall other,
             Chat.cleanedHistory other (older ++ recent)
             = Chat.cleanedHistory other recent).
  { intros other. unfold Chat.cleanedHistory.
    rewrite slice_last_app by lia. reflexivity. }
  assert (Hprompt : Chat.getSystemPrompt (older ++ recent) userData
                    = Chat.getSystemPrompt recent userData).
  { unfold Chat.getSystemPrompt. rewrite slice_last_app by lia.
    rewrite length_app, Hlen.
    replace (0 <? length older + 6)%nat with true
      by (symmetry; apply Nat.ltb_lt; lia).
    reflexivity. }
  unfold Chat.perplexityMessages, Chat.geminiContents.
  rewrite !Hclean, Hprompt. split; reflexivity.
Qed.

(** C9 at a failing input. Two histories of six turns with the same
    last five turns, sent with a question that goes to Perplexity: the
    system message built from the first holds the text of its oldest
    turn, the one built from the second does not, and the two requests
    differ. *)
Lemma sixth_turn_reaches_perplexity_system_prompt :
  Chat.slice_last 5 Samples.history_a = Chat.slice_last 5 Samples.history_b
  /\ Chat.determineAiSource Samples.closures_question = Chat.perplexity
  /\ option_map (fun p => Text.includes p "My permit number is 4921.")
       (Spec.system_content
          (Chat.perplexityMessages Samples.closures_question Samples.history_a
             Samples.resident))
     = Some true
  /\ option_map (fun p => Text.includes p "My permit number is 4921.")
       (Spec.system_content
          (Chat.perplexityMessages Samples.closures_question Samples.history_b
             Samples.resident))
     = Some false
  /\ Chat.perplexityMessages Samples.closures_question Samples.history_a
       Samples.resident
     <> Chat.perplexityMessages Samples.closures_question Samples.history_b
          Samples.resident.
Proof.
  assert (Ha : option_map (fun p => Text.includes p "My permit number is 4921.")
                 (Spec.system_content
                    (Chat.perplexityMessages Samples.closures_question
                       Samples.history_a Samples.resident)) = Some true)
    by (vm_compute; reflexivity).
  assert (Hb : option_map (fun p => Text.includes p "My permit number is 4921.")
                 (Spec.system_content
                    (Chat.perplexityMessages Samples.closures_question
                       Samples.history_b Samples.resident)) = Some false)
    by (vm_compute; reflexivity).
  split; [reflexivity|]. split; [vm_compute; reflexivity|].
  split; [exact Ha|]. split; [exact Hb|].
  intros H. rewrite H, Hb in Ha. discriminate Ha.
Qed.

(** * Further properties *)

(** ** The rate limiter over a run of checks *)

Lemma filter_filter_weaker {A : Type} (p q : A -> bool) (l : list A) :
  (forall x, p x = true -> q x = true) ->
  List.filter p (List.filter q l) = List.filter p l.
Proof.
  intros Hpq. induction l as [|x l IH]; simpl; [reflexivity|].
  destruct (q x) eqn:Hq; simpl.
  - rewrite IH. reflexivity.
  - destruct (p x) eqn:Hp; [|exact IH].
    apply Hpq in Hp. congruence.
Qed.

Lemma filter_length_weaker {A : Type} (p q : A -> bool) (l : list A) :
  (forall x, In x l -> p x = true -> q x = true) ->
  (length (List.filter p l) <= length (List.filter q l))%nat.
Proof.
  induction l as [|x l IH]; intros Hpq; simpl; [lia|].
  assert (IH' := IH (fun y Hy => Hpq y (or_intror Hy))).
  destruct (p x) eqn:Hp.
  - rewrite (Hpq x (or_introl eq_refl) Hp). simpl. lia.
  - destruct (q x); simpl; lia.
Qed.

Lemma window_count_snoc (a t : Z) (l : list Z) :
  Spec.window_count a (l ++ [t])
  = (Spec.window_count a l
     + if ((a <=? t)%Z && (t <? a + RateLimit.RATE_LIMIT_WINDOW)%Z)
       then 1 else 0)%nat.
Proof.
  unfold Spec.window_count. rewrite List.filter_app, length_app. simpl.
  destruct ((a <=? t) && (t <? a + RateLimit.RATE_LIMIT_WINDOW));
    reflexivity.
Qed.

(** The record of a caller holds, for every later clock reading, the
    admitted readings that are still in the window; so a run that keeps
    every window of the admitted readings within the maximum extends to
    one that does. *)
Lemma admitted_window_bound (identifier : string) :
  forall (times : list Z) (m : gmap string (list Z)) (adm : list Z) (lo : Z),
    (forall now, lo <= now ->
       List.filter (fun x => now - x <? RateLimit.RATE_LIMIT_WINDOW)
         (default [] (m !! identifier))
       = List.filter (fun x => now - x <? RateLimit.RATE_LIMIT_WINDOW) adm) ->
    Forall (fun x => x <= lo) adm ->
    Forall (fun t => lo <= t) times ->
    StronglySorted Z.le times ->
    (forall a, (Spec.window_count a adm <= 20)%nat) ->
    forall a,
      (Spec.window_count a (adm ++ Spec.admitted identifier times m) <= 20)%nat.
Proof.
  induction times as [|t times IH]; intros m adm lo Hinv Hadm Hlo Hsorted Hp a.
  - simpl. rewrite app_nil_r. apply Hp.
  - cbn [Spec.admitted]. rewrite checkRateLimit_step.
    apply List.Forall_cons_iff in Hlo as [Hlt Hlo].
    apply StronglySorted_inv in Hsorted as [Hsorted Hfrom].
    rewrite (Hinv t Hlt).
    assert (Hadm' : Forall (fun x => x <= t) adm).
    { eapply List.Forall_impl; [|exact Hadm]. simpl. intros x Hx. lia. }
    destruct (Nat.ltb_spec
                (length (List.filter
                           (fun x => t - x <? RateLimit.RATE_LIMIT_WINDOW) adm))
                RateLimit.MAX_API_CALLS_PER_MINUTE) as [Hroom|Hfull].
    + replace (adm ++ t :: Spec.admitted identifier times
                 (<[identifier :=
                      List.filter
                        (fun x => t - x <? RateLimit.RATE_LIMIT_WINDOW) adm
                      ++ [t]]> m))
        with ((adm ++ [t]) ++ Spec.admitted identifier times
                (<[identifier :=
                     List.filter
                       (fun x => t - x <? RateLimit.RATE_LIMIT_WINDOW) adm
                     ++ [t]]> m))
        by (rewrite <- app_assoc; reflexivity).
      apply (IH _ (adm ++ [t]) t); try assumption.
      * intros now Hnow. rewrite lookup_insert_eq. simpl default.
        rewrite !List.filter_app. f_equal.
        apply filter_filter_weaker. intros x Hx.
        apply Z.ltb_lt in Hx. apply Z.ltb_lt. lia.
      * apply List.Forall_app. split; [exact Hadm'|].
        constructor; [lia | constructor].
      * intros a'. rewrite window_count_snoc.
        destruct ((a' <=? t) && (t <? a' + RateLimit.RATE_LIMIT_WINDOW))
          eqn:Hin; [|specialize (Hp a'); lia].
        apply andb_true_iff in Hin as [Ha Hb].
        apply Z.leb_le in Ha. apply Z.ltb_lt in Hb.
        assert (Spec.window_count a' adm
                <= length (List.filter
                             (fun x : Z =>
                                (t - x <? RateLimit.RATE_LIMIT_WINDOW)%Z)
                             adm))%nat.
        { apply filter_length_weaker. intros x _ Hx.
          apply andb_true_iff in Hx as [Hx _]. apply Z.leb_le in Hx.
          apply Z.ltb_lt. lia. }
        unfold RateLimit.MAX_API_CALLS_PER_MINUTE in Hroom. lia.
    + apply (IH m adm t); try assumption.
      intros now Hnow. apply Hinv. lia.
Qed.

(** X1. Under a clock that never runs backwards, a caller with no
    record is admitted at most 20 times in any window of 60 seconds,
    however many checks it makes. *)
Theorem at_most_twenty_admits_in_any_window (identifier : string)
    (m : gmap string (list Z)) (times : list Z) (a : Z) :
  m !! identifier = None ->
  StronglySorted Z.le times ->
  (Spec.window_count a (Spec.admitted identifier times m) <= 20)%nat.
Proof.
  intros Hfresh Hsorted.
  destruct times as [|t times]; [unfold Spec.window_count; simpl; lia|].
  apply (admitted_window_bound identifier (t :: times) m [] t).
  - intros now _. rewrite Hfresh. reflexivity.
  - constructor.
  - apply StronglySorted_inv in Hsorted as [_ Hfrom].
    constructor; [lia | exact Hfrom].
  - exact Hsorted.
  - intros a'. unfold Spec.window_count. simpl. lia.
Qed.

(** A burst of 25 checks in two and a half seconds by a new caller:
    exactly 20 of them are admitted. *)
Lemma burst_witness :
  (Spec.window_count 0 (Spec.admitted "203.0.113.7" Samples.burst ∅) <= 20)%nat
  /\ Spec.window_count 0 (Spec.admitted "203.0.113.7" Samples.burst ∅) = 20%nat.
Proof.
  split; [|vm_compute; reflexivity].
  apply (at_most_twenty_admits_in_any_window "203.0.113.7" ∅ Samples.burst 0).
  - apply lookup_empty.
  - unfold Samples.burst. simpl. repeat constructor; lia.
Defined.

Lemma checkRateLimit_decision_ext (now : Z) (identifier : string)
    (m1 m2 : gmap string (list Z)) :
  m1 !! identifier = m2 !! identifier ->
  fst (RateLimit.checkRateLimit now identifier m1)
  = fst (RateLimit.checkRateLimit now identifier m2).
Proof.
  intros H. unfold RateLimit.checkRateLimit. rewrite H.
  destruct (_ <=? _)%nat; reflexivity.
Qed.

Lemma checkRateLimit_other (now : Z) (identifier other : string)
    (m : gmap string (list Z)) :
  identifier <> other ->
  snd (RateLimit.checkRateLimit now identifier m) !! other = m !! other.
Proof.
  intros Hne. unfold RateLimit.checkRateLimit.
  destruct (_ <=? _)%nat; simpl; [reflexivity|].
  apply lookup_insert_ne. exact Hne.
Qed.

(** X2. Callers do not share a quota: a check by one caller leaves the
    record of every other caller as it was, and does not change the
    decision any other caller gets next. *)
Theorem callers_do_not_share_quota (now now' : Z) (identifier other : string)
    (m : gmap string (list Z)) :
  identifier <> other ->
  snd (RateLimit.checkRateLimit now identifier m) !! other = m !! other
  /\ fst (RateLimit.checkRateLimit now' other
            (snd (RateLimit.checkRateLimit now identifier m)))
     = fst (RateLimit.checkRateLimit now' other m).
Proof.
  intros Hne. split.
  - apply checkRateLimit_other. exact Hne.
  - apply checkRateLimit_decision_ext. apply checkRateLimit_other. exact Hne.
Qed.

(** One caller uses up its quota in a burst; another caller is still
    admitted. *)
Lemma other_caller_witness :
  fst (RateLimit.checkRateLimit 2500 "198.51.100.2"
         (snd (RateLimit.checkRateLimit 2400 "203.0.113.7"
                 (snd (RateLimit.admit_all "203.0.113.7" Samples.burst ∅)))))
  = true.
Proof.
  destruct (callers_do_not_share_quota 2400 2500 "203.0.113.7" "198.51.100.2"
              (snd (RateLimit.admit_all "203.0.113.7" Samples.burst ∅)))
    as [_ H]; [discriminate|].
  rewrite H. vm_compute. reflexivity.
Defined.

(** ** What a fetch does to the state *)

Lemma fetchData_calls JSON_parse d cacheKey promptBuilt w st :
  Alerts.upstreamCalls
    (snd (Alerts.fetchData JSON_parse d cacheKey promptBuilt w st))
  = Alerts.upstreamCalls st
    ++ (if JS.truthy
             (default JS.JUndefined
                (Cache.get (Alerts.cache st) cacheKey (Alerts.Date_now w)))
        then []
        else if promptBuilt then [d] else []).
Proof.
  unfold Alerts.fetchData. destruct (JS.truthy _).
  - simpl. rewrite app_nil_r. reflexivity.
  - destruct promptBuilt; cbn [negb].
    + destruct (Alerts.queryPerplexity w d); reflexivity.
    + simpl. rewrite app_nil_r. reflexivity.
Qed.

Lemma fetchData_limiter JSON_parse d cacheKey promptBuilt w st :
  Alerts.apiCallLimiter
    (snd (Alerts.fetchData JSON_parse d cacheKey promptBuilt w st))
  = Alerts.apiCallLimiter st.
Proof.
  unfold Alerts.fetchData. destruct (JS.truthy _); [reflexivity|].
  destruct (negb promptBuilt); [reflexivity|].
  destruct (Alerts.queryPerplexity w d); reflexivity.
Qed.

(** The fan-out keeps the rate-limit map. *)
Lemma fanout_limiter JSON_parse w req st coords :
  Alerts.apiCallLimiter (snd (Spec.fetch6 JSON_parse w req st coords))
  = Alerts.apiCallLimiter st.
Proof.
  unfold Spec.fetch6, Spec.fetch5, Spec.fetch4, Spec.fetch3, Spec.fetch2,
    Spec.fetch1.
  rewrite !fetchData_limiter. reflexivity.
Qed.

(** The fan-out calls the upstream for exactly the domains that miss
    the cache at its start and get their prompt built, in source
    order. *)
Lemma fanout_calls JSON_parse w req st coords :
  Alerts.upstreamCalls (snd (Spec.fetch6 JSON_parse w req st coords))
  = Alerts.upstreamCalls st
    ++ List.filter (Spec.goes_upstream st w req coords) Spec.all_domains.
Proof.
  unfold Spec.fetch6, Spec.fetch5, Spec.fetch4, Spec.fetch3, Spec.fetch2,
    Spec.fetch1.
  rewrite !fetchData_calls.
  repeat rewrite fetchData_get_frame by (intros Hk; discriminate Hk).
  unfold Spec.all_domains, Spec.goes_upstream, Spec.domain_key, Spec.key_prefix.
  cbn [List.filter].
  change (Alerts.promptBuilds Alerts.Weather w (Alerts.preferencesOrEmpty req))
    with true.
  change (Alerts.promptBuilds Alerts.AirQuality w (Alerts.preferencesOrEmpty req))
    with true.
  change (Alerts.promptBuilds Alerts.Traffic w (Alerts.preferencesOrEmpty req))
    with true.
  change (Alerts.promptBuilds Alerts.Crime w (Alerts.preferencesOrEmpty req))
    with true.
  change (Alerts.promptBuilds Alerts.Markets w (Alerts.preferencesOrEmpty req))
    with true.
  destruct (Alerts.promptBuilds Alerts.Health w (Alerts.preferencesOrEmpty req));
    repeat match goal with
           | |- context [JS.truthy ?v] => destruct (JS.truthy v)
           end;
    cbn [negb andb]; rewrite <- ?app_assoc; reflexivity.
Qed.

(** ** The order of the checks of the aggregation route *)

(** The key of the route cannot be built, or nothing is cached under
    it and the address cannot be shown. *)
Lemma aggregate_error_iff JSON_parse w req st :
  Alerts.has_location (Alerts.location req) = true ->
  (Alerts.status (fst (Alerts.aggregate JSON_parse w req st)) = 200
   \/ Alerts.aggregate JSON_parse w req st = (Alerts.routeError w, st))
  /\ Alerts.apiCallLimiter (snd (Alerts.aggregate JSON_parse w req st))
     = Alerts.apiCallLimiter st
  /\ (fst (Alerts.aggregate JSON_parse w req st) = Alerts.routeError w <->
      Alerts.environmentalKey req = None
      \/ exists key,
           Alerts.environmentalKey req = Some key
           /\ Spec.cache_miss st key w
           /\ JS.ToString (Alerts.field (Alerts.location req) "address")
              = None).
Proof.
  intros Hloc.
  destruct (Alerts.environmentalKey req) as [key|] eqn:Hkey.
  2:{ rewrite (aggregate_no_key _ _ _ _ Hkey).
      split; [right; reflexivity|]. split; [reflexivity|].
      split; [intros _; left; reflexivity | reflexivity]. }
  destruct (JS.truthy
              (default JS.JUndefined
                 (Cache.get (Alerts.cache st) key (Alerts.Date_now w))))
    eqn:Hhit.
  { pose proof Hhit as Hhit'.
    apply truthy_cached in Hhit as (v & Hget & Hv).
    rewrite (aggregate_on_hit _ _ _ _ _ _ Hkey Hget Hv).
    split; [left; reflexivity|]. split; [reflexivity|].
    split; [intros H; discriminate H|].
    intros [H | (key' & [= <-] & Hmiss & _)]; [discriminate H|].
    unfold Spec.cache_miss in Hmiss. congruence. }
  destruct (JS.ToString (Alerts.field (Alerts.location req) "address"))
    as [address|] eqn:Ha.
  2:{ rewrite (aggregate_no_address _ _ _ _ _ Hkey Hhit Ha).
      split; [right; reflexivity|]. split; [reflexivity|].
      split; [|reflexivity].
      intros _. right. exists key. auto. }
  destruct (environmentalKey_inv _ _ Hkey) as (latText & lngText & Hlat & Hlng & ->).
  rewrite (aggregate_on_miss _ _ _ _ _ _ _ Hloc Hlat Hlng Ha Hhit).
  cbn [fst snd Alerts.status Alerts.apiCallLimiter Alerts.with_cache].
  split; [left; reflexivity|]. split; [apply fanout_limiter|].
  split; [intros H; discriminate H|].
  intros [H | (key' & _ & _ & H)]; discriminate H.
Qed.

(** X3. The aggregation route validates, then asks the rate limiter,
    then builds its key and looks at the cache. A request without a
    usable location is answered 400 and uses no quota; a request the
    limiter denies is answered 429 with the state untouched, whether or
    not its snapshot is cached; a request the limiter admits has its
    clock reading on the caller's record afterwards, also when the
    answer comes from the cache, and is answered 200, or else with the
    500 of the handler's catch, which it gets exactly when its latitude
    or longitude has no conversion to text, or nothing is cached for it
    and its address has none. *)
Theorem route_validates_then_limits_then_reads_cache
    (JSON_parse : string -> option JS.jsval) (w : Alerts.world)
    (req : Alerts.request) (st : Alerts.state) :
  (Alerts.has_location (Alerts.location req) = false ->
   Alerts.postEnvironmentalData JSON_parse w req st
   = (Alerts.missingLocation, st))
  /\ (Alerts.has_location (Alerts.location req) = true ->
      fst (RateLimit.checkRateLimit (Alerts.Date_now w) (Alerts.clientIP req)
             (Alerts.apiCallLimiter st)) = false ->
      Alerts.postEnvironmentalData JSON_parse w req st
      = (Alerts.rateLimitExceeded, st))
  /\ (Alerts.has_location (Alerts.location req) = true ->
      fst (RateLimit.checkRateLimit (Alerts.Date_now w) (Alerts.clientIP req)
             (Alerts.apiCallLimiter st)) = true ->
      (exists recent,
         Alerts.apiCallLimiter
           (snd (Alerts.postEnvironmentalData JSON_parse w req st))
         !! Alerts.clientIP req
         = Some (recent ++ [Alerts.Date_now w]))
      /\ (Alerts.status
            (fst (Alerts.postEnvironmentalData JSON_parse w req st)) = 200
          \/ fst (Alerts.postEnvironmentalData JSON_parse w req st)
             = Alerts.routeError w)
      /\ (fst (Alerts.postEnvironmentalData JSON_parse w req st)
            = Alerts.routeError w <->
          Alerts.environmentalKey req = None
          \/ exists key,
               Alerts.environmentalKey req = Some key
               /\ Spec.cache_miss st key w
               /\ JS.ToString (Alerts.field (Alerts.location req) "address")
                  = None)).
Proof.
  unfold Alerts.postEnvironmentalData. split; [|split].
  - intros ->. reflexivity.
  - intros -> Hdeny.
    destruct (RateLimit.checkRateLimit _ _ _) as [admitted limiter].
    cbn [fst] in Hdeny. subst admitted. reflexivity.
  - intros Hloc Hadmit. rewrite Hloc. cbn [negb].
    pose proof (checkRateLimit_step (Alerts.Date_now w) (Alerts.clientIP req)
                  (Alerts.apiCallLimiter st)) as Hstep.
    cbv zeta in Hstep.
    destruct (RateLimit.checkRateLimit _ _ _) as [admitted limiter].
    cbn [fst] in Hadmit. subst admitted. cbn [negb].
    destruct (aggregate_error_iff JSON_parse w req
                (Alerts.with_limiter st limiter) Hloc) as (Hs & Hl & Hiff).
    split; [|split].
    + rewrite Hl. cbn [Alerts.apiCallLimiter Alerts.with_limiter].
      destruct (length _ <? _)%nat; [|discriminate Hstep].
      injection Hstep as ->. eexists. apply lookup_insert_eq.
    + destruct Hs as [Hs|Hs]; [left; exact Hs | right; rewrite Hs; reflexivity].
    + exact Hiff.
Qed.

(** A latitude that is an object with an own property toString passes
    the guard, uses quota, and ends in the 500. *)
Lemma unprintable_latitude_witness :
  fst (Alerts.postEnvironmentalData Samples.parse_sample
         (Samples.world_at 1000 (fun _ => Alerts.Content Samples.aqi_object))
         (Samples.request_from
            (Samples.location_at Samples.unprintable (JS.JNum "-86.15")))
         Samples.fresh_state)
  = {| Alerts.status := 500;
       Alerts.body :=
         JS.JObj [("error", JS.JStr "Failed to fetch environmental data");
                  ("message",
                   JS.JStr "Cannot convert object to primitive value")] |}.
Proof.
  destruct (route_validates_then_limits_then_reads_cache Samples.parse_sample
              (Samples.world_at 1000 (fun _ => Alerts.Content Samples.aqi_object))
              (Samples.request_from
                 (Samples.location_at Samples.unprintable (JS.JNum "-86.15")))
              Samples.fresh_state) as (_ & _ & H).
  destruct (H eq_refl eq_refl) as (_ & _ & Hiff).
  apply Hiff. left. reflexivity.
Defined.

(** ** The upstream calls of one aggregation *)

(** X4. An aggregation that does not find its snapshot cached calls
    the upstream once for each domain that has no truthy live entry of
    its own in the cache and whose prompt can be built, in source
    order, and for no other domain; an aggregation that finds its
    snapshot cached, or that cannot show the address, calls no
    upstream. *)
Theorem aggregate_calls_upstream_once_per_missing_domain
    (JSON_parse : string -> option JS.jsval) (w : Alerts.world)
    (req : Alerts.request) (st : Alerts.state) (latText lngText : string) :
  Alerts.has_location (Alerts.location req) = true ->
  JS.ToString (Alerts.field (Alerts.location req) "lat") = Some latText ->
  JS.ToString (Alerts.field (Alerts.location req) "lng") = Some lngText ->
  (forall address,
     JS.ToString (Alerts.field (Alerts.location req) "address") = Some address ->
     Spec.cache_miss st
       (Spec.snapshot_key latText lngText (Alerts.userPreferences req)) w ->
     Alerts.upstreamCalls (snd (Alerts.aggregate JSON_parse w req st))
     = Alerts.upstreamCalls st
       ++ List.filter
            (Spec.goes_upstream st w req (latText +:+ "_" +:+ lngText))
            Spec.all_domains)
  /\ (forall v,
        Cache.get (Alerts.cache st)
          (Spec.snapshot_key latText lngText (Alerts.userPreferences req))
          (Alerts.Date_now w) = Some v ->
        JS.truthy v = true ->
        Alerts.upstreamCalls (snd (Alerts.aggregate JSON_parse w req st))
        = Alerts.upstreamCalls st)
  /\ (JS.ToString (Alerts.field (Alerts.location req) "address") = None ->
      Alerts.upstreamCalls (snd (Alerts.aggregate JSON_parse w req st))
      = Alerts.upstreamCalls st).
Proof.
  intros Hloc Hlat Hlng.
  pose proof (environmentalKey_Some _ _ _ Hlat Hlng) as Hkey.
  split; [|split].
  - intros address Ha Hmiss.
    rewrite (aggregate_on_miss _ _ _ _ _ _ _ Hloc Hlat Hlng Ha Hmiss).
    cbn [snd Alerts.upstreamCalls Alerts.with_cache]. apply fanout_calls.
  - intros v Hget Hv. rewrite (aggregate_on_hit _ _ _ _ _ _ Hkey Hget Hv).
    reflexivity.
  - intros Ha.
    destruct (JS.truthy
                (default JS.JUndefined
                   (Cache.get (Alerts.cache st)
                      (Spec.snapshot_key latText lngText
                         (Alerts.userPreferences req))
                      (Alerts.Date_now w)))) eqn:Hhit.
    + apply truthy_cached in Hhit as (v & Hget & Hv).
      rewrite (aggregate_on_hit _ _ _ _ _ _ Hkey Hget Hv). reflexivity.
    + rewrite (aggregate_no_address _ _ _ _ _ Hkey Hhit Ha). reflexivity.
Qed.

(** On a fresh process, a request whose allergies are a text and not a
    list: the health prompt cannot be built, and the aggregation calls
    the five other upstreams. *)
Lemma aggregate_calls_witness :
  Alerts.upstreamCalls
    (snd (Alerts.aggregate Samples.parse_sample
            (Samples.world_at 1000 (fun _ => Alerts.Threw))
            (Samples.request_with Samples.indianapolis
               Samples.allergies_as_text)
            Samples.fresh_state))
  = [Alerts.Weather; Alerts.AirQuality; Alerts.Traffic; Alerts.Crime;
     Alerts.Markets].
Proof.
  destruct (aggregate_calls_upstream_once_per_missing_domain
              Samples.parse_sample
              (Samples.world_at 1000 (fun _ => Alerts.Threw))
              (Samples.request_with Samples.indianapolis
                 Samples.allergies_as_text)
              Samples.fresh_state "39.77" "-86.15" eq_refl eq_refl eq_refl)
    as [H _].
  rewrite (H "Indianapolis, IN" eq_refl eq_refl). reflexivity.
Defined.

(** X8. Clearing the cache outside production answers 200 and makes
    the next aggregation call again every upstream whose prompt can be
    built, whatever was cached: all six, unless the allergies of the
    request break the health prompt; in production the route answers
    404 and leaves the state as it was. *)
Theorem cache_clear_forces_a_full_refetch
    (JSON_parse : string -> option JS.jsval) (w : Alerts.world)
    (req : Alerts.request) (st : Alerts.state)
    (latText lngText address : string) :
  Alerts.has_location (Alerts.location req) = true ->
  JS.ToString (Alerts.field (Alerts.location req) "lat") = Some latText ->
  JS.ToString (Alerts.field (Alerts.location req) "lng") = Some lngText ->
  JS.ToString (Alerts.field (Alerts.location req) "address") = Some address ->
  (Alerts.status (fst (Alerts.cacheClear false st)) = 200
   /\ Alerts.upstreamCalls
        (snd (Alerts.aggregate JSON_parse w req
                (snd (Alerts.cacheClear false st))))
      = Alerts.upstreamCalls st
        ++ List.filter
             (fun d => Alerts.promptBuilds d w (Alerts.preferencesOrEmpty req))
             Spec.all_domains
   /\ (Alerts.promptBuilds Alerts.Health w (Alerts.preferencesOrEmpty req)
         = true ->
       Alerts.upstreamCalls
         (snd (Alerts.aggregate JSON_parse w req
                 (snd (Alerts.cacheClear false st))))
       = Alerts.upstreamCalls st ++ Spec.all_domains))
  /\ Alerts.cacheClear true st
     = ({| Alerts.status := 404;
           Alerts.body := JS.JObj [("error", JS.JStr "Not found")] |}, st).
Proof.
  intros Hloc Hlat Hlng Ha. split; [|reflexivity]. split; [reflexivity|].
  cbn [Alerts.cacheClear negb snd].
  rewrite (aggregate_on_miss _ _ _ _ _ _ _ Hloc Hlat Hlng Ha)
    by (unfold Spec.cache_miss, Cache.get; cbn [Alerts.cache Alerts.with_cache];
        rewrite lookup_empty; reflexivity).
  cbn [snd Alerts.upstreamCalls Alerts.with_cache]. rewrite fanout_calls.
  cbn [Alerts.upstreamCalls Alerts.with_cache].
  assert (Hall : List.filter
                   (Spec.goes_upstream (Alerts.with_cache st ∅) w req
                      (latText +:+ "_" +:+ lngText)) Spec.all_domains
                 = List.filter
                     (fun d =>
                        Alerts.promptBuilds d w (Alerts.preferencesOrEmpty req))
                     Spec.all_domains).
  { apply List.filter_ext. intros d. unfold Spec.goes_upstream, Cache.get.
    cbn [Alerts.cache Alerts.with_cache]. rewrite lookup_empty. reflexivity. }
  rewrite Hall. split; [reflexivity|].
  intros Hbuilt. unfold Spec.all_domains. cbn [List.filter].
  rewrite Hbuilt. reflexivity.
Qed.

(** The state after clearing a cache that held a snapshot: the next
    aggregation calls all six upstreams again. *)
Lemma cache_clear_witness :
  Alerts.upstreamCalls
    (snd (Alerts.aggregate Samples.parse_sample
            (Samples.world_at 2000 (fun _ => Alerts.Threw))
            (Samples.request_from Samples.indianapolis)
            (snd (Alerts.cacheClear false
                    (snd (Alerts.aggregate Samples.parse_sample
                            (Samples.world_at 1000 (fun _ => Alerts.Threw))
                            (Samples.request_from Samples.indianapolis)
                            Samples.fresh_state))))))
  = Spec.all_domains ++ Spec.all_domains.
Proof.
  destruct (cache_clear_forces_a_full_refetch Samples.parse_sample
              (Samples.world_at 2000 (fun _ => Alerts.Threw))
              (Samples.request_from Samples.indianapolis)
              (snd (Alerts.aggregate Samples.parse_sample
                      (Samples.world_at 1000 (fun _ => Alerts.Threw))
                      (Samples.request_from Samples.indianapolis)
                      Samples.fresh_state))
              "39.77" "-86.15" "Indianapolis, IN"
              eq_refl eq_refl eq_refl eq_refl) as [(_ & _ & H) _].
  rewrite (H eq_refl). reflexivity.
Defined.

(** ** The snapshot cache and the address *)

(** X7. The key of the snapshot cache holds the coordinates and the
    preferences but not the address: a request with the coordinates and
    preferences of an earlier one that cached its snapshot, made while
    that snapshot is live, is answered with it, and the location field of
    the answer is the address of the earlier request. *)
Theorem snapshot_cache_ignores_address
    (JSON_parse : string -> option JS.jsval) (w1 w2 : Alerts.world)
    (req req2 : Alerts.request) (st : Alerts.state)
    (latText lngText address : string) :
  Alerts.has_location (Alerts.location req) = true ->
  JS.ToString (Alerts.field (Alerts.location req) "lat") = Some latText ->
  JS.ToString (Alerts.field (Alerts.location req) "lng") = Some lngText ->
  JS.ToString (Alerts.field (Alerts.location req) "address") = Some address ->
  Spec.cache_miss st
    (Spec.snapshot_key latText lngText (Alerts.userPreferences req)) w1 ->
  Alerts.field (Alerts.location req2) "lat"
    = Alerts.field (Alerts.location req) "lat" ->
  Alerts.field (Alerts.location req2) "lng"
    = Alerts.field (Alerts.location req) "lng" ->
  Alerts.userPreferences req2 = Alerts.userPreferences req ->
  Alerts.Date_now w2 <= Alerts.Date_now w1 + 300000 ->
  fst (Alerts.aggregate JSON_parse w2 req2
         (snd (Alerts.aggregate JSON_parse w1 req st)))
  = fst (Alerts.aggregate JSON_parse w1 req st)
  /\ Alerts.field
       (Alerts.body
          (fst (Alerts.aggregate JSON_parse w2 req2
                  (snd (Alerts.aggregate JSON_parse w1 req st)))))
       "location"
     = Alerts.field (Alerts.location req) "address".
Proof.
  intros Hloc Hlat Hlng Ha Hmiss Hlat2 Hlng2 Hprefs Hnow.
  assert (Hkey2 : Alerts.environmentalKey req2
                  = Some (Spec.snapshot_key latText lngText
                            (Alerts.userPreferences req))).
  { rewrite <- Hprefs. apply environmentalKey_Some;
      [rewrite Hlat2 | rewrite Hlng2]; assumption. }
  rewrite (aggregate_on_miss JSON_parse w1 req st _ _ _ Hloc Hlat Hlng Ha Hmiss).
  cbn [fst snd].
  rewrite (aggregate_on_hit JSON_parse w2 req2 _ _
             (Spec.assembled JSON_parse w1 req st (latText +:+ "_" +:+ lngText))
             Hkey2).
  - split; reflexivity.
  - cbn [Alerts.cache Alerts.with_cache]. apply cache_get_set_live. lia.
  - reflexivity.
Qed.

(** A request from Monument Circle a minute after one from
    Indianapolis with the same coordinates: the answer says
    Indianapolis, IN. *)
Lemma snapshot_address_witness :
  Alerts.field
    (Alerts.body
       (fst (Alerts.aggregate Samples.parse_sample
               (Samples.world_at 61000 (fun _ => Alerts.Threw))
               (Samples.request_from Samples.same_spot_other_address)
               (snd (Alerts.aggregate Samples.parse_sample
                       (Samples.world_at 1000 (fun _ => Alerts.Threw))
                       (Samples.request_from Samples.indianapolis)
                       Samples.fresh_state)))))
    "location"
  = JS.JStr "Indianapolis, IN".
Proof.
  destruct (snapshot_cache_ignores_address Samples.parse_sample
              (Samples.world_at 1000 (fun _ => Alerts.Threw))
              (Samples.world_at 61000 (fun _ => Alerts.Threw))
              (Samples.request_from Samples.indianapolis)
              (Samples.request_from Samples.same_spot_other_address)
              Samples.fresh_state "39.77" "-86.15" "Indianapolis, IN")
    as [_ H];
    [reflexivity | reflexivity | reflexivity | reflexivity | reflexivity
    | reflexivity | reflexivity | reflexivity | simpl; lia |].
  rewrite H. reflexivity.
Defined.

(** ** The provider caches *)

(** X5. What a fetcher obtained from an upstream reply on a miss, be it
    the parsed reply (when truthy) or the default payload put in place
    of a reply that does not parse, is what the same fetcher returns,
    whatever the request then is, for the same key until
    the time to live of its domain has run out, with no state change
    and so no upstream call; once it has run out the key is a miss
    again. *)
Theorem fetched_payload_is_served_until_it_expires
    (JSON_parse : string -> option JS.jsval) (d : Alerts.domain)
    (w w' : Alerts.world) (location userPreferences : JS.jsval)
    (st : Alerts.state) (cacheKey response : string) :
  Spec.key_of d w location = Some cacheKey ->
  Spec.key_of d w' location = Some cacheKey ->
  Spec.cache_miss st cacheKey w ->
  Alerts.promptBuilds d w userPreferences = true ->
  Alerts.queryPerplexity w d = Alerts.Content response ->
  JS.truthy (default (Alerts.default_payload d)
               (JSON_parse (Alerts.jsonText response))) = true ->
  (Alerts.Date_now w' <= Alerts.Date_now w + Alerts.ttl_seconds d * 1000 ->
   Alerts.fetcher JSON_parse d w' location userPreferences
     (snd (Alerts.fetcher JSON_parse d w location userPreferences st))
   = (fst (Alerts.fetcher JSON_parse d w location userPreferences st),
      snd (Alerts.fetcher JSON_parse d w location userPreferences st)))
  /\ (Alerts.Date_now w + Alerts.ttl_seconds d * 1000 < Alerts.Date_now w' ->
      Spec.cache_miss
        (snd (Alerts.fetcher JSON_parse d w location userPreferences st))
        cacheKey w').
Proof.
  intros Hkey Hkey' Hmiss Hbuilt Hreply Htruthy.
  rewrite !fetcher_at_key, Hkey, ?Hkey', Hbuilt.
  rewrite (fetchData_on_reply _ _ _ _ _ _ Hmiss Hreply).
  cbn [fst snd]. split; intros Hnow.
  - rewrite (fetchData_hit _ _ _ _ _ _
               (default (Alerts.default_payload d)
                  (JSON_parse (Alerts.jsonText response)))).
    + reflexivity.
    + cbn [Alerts.cache Alerts.with_cache]. apply cache_get_set_live. exact Hnow.
    + exact Htruthy.
  - unfold Spec.cache_miss. cbn [Alerts.cache Alerts.with_cache].
    rewrite cache_get_set_expired by exact Hnow. reflexivity.
Qed.

(** The air-quality reply of the samples, asked for again nine minutes
    later, comes from the cache. *)
Lemma fetched_payload_witness :
  Alerts.fetcher Samples.parse_sample Alerts.AirQuality
    (Samples.world_at 541000 (fun _ => Alerts.Threw))
    Samples.indianapolis JS.JUndefined
    (snd (Alerts.fetcher Samples.parse_sample Alerts.AirQuality
            (Samples.world_at 1000 (fun _ => Alerts.Content Samples.aqi_object))
            Samples.indianapolis JS.JUndefined Samples.fresh_state))
  = (fst (Alerts.fetcher Samples.parse_sample Alerts.AirQuality
            (Samples.world_at 1000 (fun _ => Alerts.Content Samples.aqi_object))
            Samples.indianapolis JS.JUndefined Samples.fresh_state),
     snd (Alerts.fetcher Samples.parse_sample Alerts.AirQuality
            (Samples.world_at 1000 (fun _ => Alerts.Content Samples.aqi_object))
            Samples.indianapolis JS.JUndefined Samples.fresh_state)).
Proof.
  destruct (fetched_payload_is_served_until_it_expires Samples.parse_sample
              Alerts.AirQuality
              (Samples.world_at 1000 (fun _ => Alerts.Content Samples.aqi_object))
              (Samples.world_at 541000 (fun _ => Alerts.Threw))
              Samples.indianapolis JS.JUndefined Samples.fresh_state
              "air_quality_39.77_-86.15" Samples.aqi_object)
    as [H _];
    [reflexivity | reflexivity | reflexivity | reflexivity | reflexivity
    | reflexivity |].
  apply H. simpl. lia.
Defined.

(** X6. A reply that parses to a falsy value (null, 0, false, the empty
    string) is returned and written to the cache like any other, but the
    truthiness test on the cached value never lets it be served: the key
    stays a miss at every later time, so every later request for it goes
    upstream again. *)
Theorem falsy_payload_is_cached_but_never_served
    (JSON_parse : string -> option JS.jsval) (d : Alerts.domain)
    (w : Alerts.world) (location userPreferences : JS.jsval)
    (st : Alerts.state) (cacheKey response : string) (v : JS.jsval) :
  Spec.key_of d w location = Some cacheKey ->
  Spec.cache_miss st cacheKey w ->
  Alerts.promptBuilds d w userPreferences = true ->
  Alerts.queryPerplexity w d = Alerts.Content response ->
  JSON_parse (Alerts.jsonText response) = Some v ->
  JS.truthy v = false ->
  fst (Alerts.fetcher JSON_parse d w location userPreferences st)
  = Alerts.Fulfilled v
  /\ Alerts.cache
       (snd (Alerts.fetcher JSON_parse d w location userPreferences st))
     = Cache.set (Alerts.cache st) cacheKey v (Alerts.ttl_seconds d)
         (Alerts.Date_now w)
  /\ forall w' : Alerts.world,
       Spec.cache_miss
         (snd (Alerts.fetcher JSON_parse d w location userPreferences st))
         cacheKey w'.
Proof.
  intros Hkey Hmiss Hbuilt Hreply Hparse Hfalsy.
  rewrite fetcher_at_key, Hkey, Hbuilt.
  rewrite (fetchData_on_reply _ _ _ _ _ _ Hmiss Hreply), Hparse.
  cbn [fst snd default from_option Alerts.cache Alerts.with_cache]. unfold id.
  split; [reflexivity|]. split; [reflexivity|].
  intros w'. unfold Spec.cache_miss. cbn [Alerts.cache Alerts.with_cache].
  unfold Cache.get, Cache.set. rewrite lookup_insert_eq.
  cbn [Cache.expiresAt Cache.value].
  destruct (_ <? _); [reflexivity | exact Hfalsy].
Qed.

(** An upstream that answers null: a second later the weather key is
    still a miss. *)
Lemma falsy_payload_witness :
  Spec.cache_miss
    (snd (Alerts.fetcher Samples.parse_sample_null Alerts.Weather
            (Samples.world_at 1000 (fun _ => Alerts.Content "null"))
            Samples.indianapolis JS.JUndefined Samples.fresh_state))
    "weather_39.77_-86.15"
    (Samples.world_at 2000 (fun _ => Alerts.Content "null")).
Proof.
  destruct (falsy_payload_is_cached_but_never_served Samples.parse_sample_null
              Alerts.Weather
              (Samples.world_at 1000 (fun _ => Alerts.Content "null"))
              Samples.indianapolis JS.JUndefined Samples.fresh_state
              "weather_39.77_-86.15" "null" JS.JNull)
    as (_ & _ & H);
    [reflexivity | reflexivity | reflexivity | reflexivity | reflexivity
    | reflexivity |].
  apply H.
Defined.

(** ** Fetchers of different domains *)

Lemma fetchData_cache JSON_parse d cacheKey promptBuilt w st :
  Alerts.cache (snd (Alerts.fetchData JSON_parse d cacheKey promptBuilt w st))
  = Spec.fetched_cache JSON_parse d cacheKey promptBuilt w (Alerts.cache st).
Proof.
  unfold Alerts.fetchData, Spec.fetched_cache.
  destruct (JS.truthy _); [reflexivity|].
  destruct (negb promptBuilt); [reflexivity|].
  destruct (Alerts.queryPerplexity w d); [reflexivity|].
  destruct (JSON_parse _); reflexivity.
Qed.

Lemma fetchData_fst_ext JSON_parse d cacheKey promptBuilt w st st' :
  Cache.get (Alerts.cache st') cacheKey (Alerts.Date_now w)
  = Cache.get (Alerts.cache st) cacheKey (Alerts.Date_now w) ->
  fst (Alerts.fetchData JSON_parse d cacheKey promptBuilt w st')
  = fst (Alerts.fetchData JSON_parse d cacheKey promptBuilt w st).
Proof.
  intros H. unfold Alerts.fetchData. rewrite H.
  destruct (JS.truthy _); [reflexivity|].
  destruct (negb promptBuilt); [reflexivity|].
  destruct (Alerts.queryPerplexity w d); [reflexivity|].
  destruct (JSON_parse _); reflexivity.
Qed.

Lemma fetched_cache_get_other JSON_parse d key key' promptBuilt w c now :
  key' <> key ->
  Cache.get (Spec.fetched_cache JSON_parse d key promptBuilt w c) key' now
  = Cache.get c key' now.
Proof.
  intros Hne. unfold Spec.fetched_cache.
  destruct (JS.truthy _); [reflexivity|].
  destruct (negb promptBuilt); [reflexivity|].
  destruct (Alerts.queryPerplexity w d); [reflexivity|].
  apply cache_get_set_other. exact Hne.
Qed.

Lemma fetched_cache_commute JSON_parse d1 d2 k1 k2 b1 b2 w c :
  k1 <> k2 ->
  Spec.fetched_cache JSON_parse d2 k2 b2 w
    (Spec.fetched_cache JSON_parse d1 k1 b1 w c)
  = Spec.fetched_cache JSON_parse d1 k1 b1 w
      (Spec.fetched_cache JSON_parse d2 k2 b2 w c).
Proof.
  intros Hne.
  pose proof (fetched_cache_get_other JSON_parse d1 k1 k2 b1 w c
                (Alerts.Date_now w) (not_eq_sym Hne)) as E1.
  pose proof (fetched_cache_get_other JSON_parse d2 k2 k1 b2 w c
                (Alerts.Date_now w) Hne) as E2.
  set (c1 := Spec.fetched_cache JSON_parse d1 k1 b1 w c) in *.
  set (c2 := Spec.fetched_cache JSON_parse d2 k2 b2 w c) in *.
  unfold Spec.fetched_cache. rewrite E1, E2.
  subst c1 c2. unfold Spec.fetched_cache.
  destruct (JS.truthy (default JS.JUndefined (Cache.get c k1 _)));
    destruct (JS.truthy (default JS.JUndefined (Cache.get c k2 _)));
    try reflexivity.
  destruct b1, b2; cbn [negb]; try reflexivity.
  destruct (Alerts.queryPerplexity w d1); destruct (Alerts.queryPerplexity w d2);
    try reflexivity.
  unfold Cache.set. apply insert_insert_ne. congruence.
Qed.

Lemma key_of_prefix d w location cacheKey :
  Spec.key_of d w location = Some cacheKey ->
  exists rest, cacheKey = Spec.key_prefix d +:+ rest.
Proof.
  destruct d; cbn [Spec.key_of]; unfold Alerts.locationKey;
    try (destruct (JS.prop location "lat") as [lat|]; [|discriminate];
         destruct (JS.prop location "lng") as [lng|]; [|discriminate];
         destruct (JS.ToString lat); [|discriminate];
         destruct (JS.ToString lng); [|discriminate]);
    intros [= <-]; eexists; reflexivity.
Qed.

(** X9. The fetchers of two different domains do not interfere: each
    returns what it would have returned had the other not run, and the
    cache they leave is the same in either order. The fan-out hands the
    six of them to [Promise.allSettled] at once; this is why the order in
    which their continuations run cannot show in the snapshot or in the
    cache. *)
Theorem fetchers_of_different_domains_commute
    (JSON_parse : string -> option JS.jsval) (d1 d2 : Alerts.domain)
    (w : Alerts.world) (location userPreferences : JS.jsval)
    (st : Alerts.state) :
  d1 <> d2 ->
  fst (Alerts.fetcher JSON_parse d2 w location userPreferences
         (snd (Alerts.fetcher JSON_parse d1 w location userPreferences st)))
  = fst (Alerts.fetcher JSON_parse d2 w location userPreferences st)
  /\ fst (Alerts.fetcher JSON_parse d1 w location userPreferences
            (snd (Alerts.fetcher JSON_parse d2 w location userPreferences st)))
     = fst (Alerts.fetcher JSON_parse d1 w location userPreferences st)
  /\ Alerts.cache
       (snd (Alerts.fetcher JSON_parse d2 w location userPreferences
               (snd (Alerts.fetcher JSON_parse d1 w location userPreferences st))))
     = Alerts.cache
         (snd (Alerts.fetcher JSON_parse d1 w location userPreferences
                 (snd (Alerts.fetcher JSON_parse d2 w location userPreferences st)))).
Proof.
  intros Hd. rewrite !fetcher_at_key.
  destruct (Spec.key_of d1 w location) as [k1|] eqn:H1;
    destruct (Spec.key_of d2 w location) as [k2|] eqn:H2;
    cbn [fst snd]; try (repeat split; reflexivity).
  assert (Hk : k1 <> k2).
  { intros ->. destruct (key_of_prefix _ _ _ _ H1) as [r1 E1].
    destruct (key_of_prefix _ _ _ _ H2) as [r2 E2].
    apply Hd. apply (key_prefix_disjoint d1 d2 r1 r2). congruence. }
  split; [|split].
  - f_equal. apply fetchData_fst_ext. apply fetchData_get_frame. congruence.
  - f_equal. apply fetchData_fst_ext. apply fetchData_get_frame. congruence.
  - rewrite !fetchData_cache. apply fetched_cache_commute. exact Hk.
Qed.

(** Weather and traffic on a fresh process, both answered with the
    air-quality object. *)
Lemma fetchers_commute_witness :
  Alerts.cache
    (snd (Alerts.fetcher Samples.parse_sample Alerts.Traffic
            (Samples.world_at 1000 (fun _ => Alerts.Content Samples.aqi_object))
            Samples.indianapolis JS.JUndefined
            (snd (Alerts.fetcher Samples.parse_sample Alerts.Weather
                    (Samples.world_at 1000
                       (fun _ => Alerts.Content Samples.aqi_object))
                    Samples.indianapolis JS.JUndefined Samples.fresh_state))))
  = Alerts.cache
      (snd (Alerts.fetcher Samples.parse_sample Alerts.Weather
              (Samples.world_at 1000 (fun _ => Alerts.Content Samples.aqi_object))
              Samples.indianapolis JS.JUndefined
              (snd (Alerts.fetcher Samples.parse_sample Alerts.Traffic
                      (Samples.world_at 1000
                         (fun _ => Alerts.Content Samples.aqi_object))
                      Samples.indianapolis JS.JUndefined Samples.fresh_state)))).
Proof.
  apply (fetchers_of_different_domains_commute Samples.parse_sample
           Alerts.Weather Alerts.Traffic
           (Samples.world_at 1000 (fun _ => Alerts.Content Samples.aqi_object))
           Samples.indianapolis JS.JUndefined Samples.fresh_state).
  discriminate.
Defined.

(** ** The system prompt: when it throws *)

Lemma mapM_None {A B : Type} (f : A -> option B) (l : list A) :
  Chat.mapM f l = None <-> exists x, In x l /\ f x = None.
Proof.
  induction l as [|a l IH]; simpl.
  - split; [discriminate | intros (x & [] & _)].
  - destruct (f a) as [y|] eqn:Ha.
    + destruct (Chat.mapM f l) as [ys|].
      * split; [discriminate|].
        intros (x & [<- | Hin] & Hx); [congruence|].
        assert (Some ys = None) as HN by (apply IH; exists x; auto).
        discriminate HN.
      * split; [|reflexivity]. intros _.
        destruct (proj1 IH eq_refl) as (x & Hin & Hx). exists x. auto.
    + split; [|reflexivity]. intros _. exists a. auto.
Qed.

(** A turn gives no line of context when it has no [parts[0]] to read
    a text from, or when the text has no conversion to text. *)
Lemma contextLine_None msg :
  Chat.contextLine msg = None <->
  Chat.partsText msg = None
  \/ exists text, Chat.partsText msg = Some text /\ JS.ToString text = None.
Proof.
  unfold Chat.contextLine.
  destruct (JS.prop msg "role") eqn:R.
  - destruct (Chat.partsText msg) as [text|].
    + destruct (JS.ToString text) eqn:T.
      * split; [discriminate|]. intros [H | (t & [= <-] & H)]; congruence.
      * split; [|reflexivity]. intros _. right. exists text. auto.
    + split; [|reflexivity]. intros _. left. reflexivity.
  - destruct msg; try discriminate R; split; try reflexivity;
      intros _; left; reflexivity.
Qed.

Lemma context_None (conversationHistory : list JS.jsval) :
  (if (0 <? length conversationHistory)%nat
   then option_map (Text.join Chat.newline)
          (Chat.mapM Chat.contextLine (Chat.slice_last 6 conversationHistory))
   else Some EmptyString) = None
  <-> exists msg, In msg (Chat.slice_last 6 conversationHistory)
                  /\ Chat.contextLine msg = None.
Proof.
  destruct conversationHistory as [|m h].
  - simpl. split; [discriminate|]. intros (x & [] & _).
  - cbn [length Nat.ltb Nat.leb].
    rewrite <- mapM_None.
    destruct (Chat.mapM Chat.contextLine (Chat.slice_last 6 (m :: h)));
      split; first [discriminate | reflexivity].
Qed.

Lemma getSystemPrompt_None conversationHistory userData :
  Chat.getSystemPrompt conversationHistory userData = None <->
  (exists msg, In msg (Chat.slice_last 6 conversationHistory)
               /\ Chat.contextLine msg = None)
  \/ exists name,
       In name Spec.profile_fields
       /\ Chat.interpolated
            (match userData with
             | JS.JUndefined => JS.JObj []
             | _ => userData
             end) name = None.
Proof.
  rewrite <- context_None. unfold Chat.getSystemPrompt. cbv zeta.
  set (shown := match userData with
                | JS.JUndefined => JS.JObj []
                | _ => userData
                end).
  destruct (if (0 <? length conversationHistory)%nat then _ else _) as [ctx|];
    [|split; [intros _; left; reflexivity | reflexivity]].
  destruct (Chat.interpolated shown "name") eqn:E1;
    [|split; [intros _; right; exists "name"; split; [simpl; auto | exact E1]
             | reflexivity]].
  destruct (Chat.interpolated shown "zipCode") eqn:E2;
    [|split; [intros _; right; exists "zipCode"; split; [simpl; auto | exact E2]
             | reflexivity]].
  destruct (Chat.interpolated shown "phone") eqn:E3;
    [|split; [intros _; right; exists "phone"; split; [simpl; auto | exact E3]
             | reflexivity]].
  destruct (Chat.interpolated shown "bloodGroup") eqn:E4;
    [|split; [intros _; right; exists "bloodGroup";
              split; [simpl; auto 6 | exact E4]
             | reflexivity]].
  destruct (Chat.interpolated shown "gender") eqn:E5;
    [|split; [intros _; right; exists "gender";
              split; [simpl; auto 7 | exact E5]
             | reflexivity]].
  split; [discriminate|].
  intros [H | (name & Hin & H)]; [discriminate H|].
  destruct Hin as [<-|[<-|[<-|[<-|[<-|[]]]]]]; congruence.
Qed.

(** User data that are absent count as the empty object; of all other
    user data, only null has no properties to read. *)
Lemma interpolated_None userData name :
  Chat.interpolated
    (match userData with
     | JS.JUndefined => JS.JObj []
     | _ => userData
     end) name = None
  <-> userData = JS.JNull
      \/ exists x, JS.prop userData name = Some x /\ JS.ToString x = None.
Proof.
  unfold Chat.interpolated.
  destruct userData; cbn [JS.prop JS.assoc JS.ToString].
  - split; [discriminate|]. intros [H | (x & H & _)]; discriminate H.
  - split; [intros _; left; reflexivity | reflexivity].
  - split; [discriminate|].
    intros [H | (x & [= <-] & H)]; discriminate H.
  - split; [discriminate|].
    intros [H | (x & [= <-] & H)]; discriminate H.
  - split; [discriminate|].
    intros [H | (x & [= <-] & H)]; discriminate H.
  - split; [discriminate|].
    intros [H | (x & [= <-] & H)]; discriminate H.
  - split.
    + intros H. right. eexists. split; [reflexivity | exact H].
    + intros [H | (x & [= <-] & H)]; [discriminate H | exact H].
Qed.

(** X11. The system prompt throws exactly when the user data are null,
    or one of the five properties of the user data that it shows has no
    conversion to text, or one of the last six turns of the history has
    no [parts[0]] to read a text from (the turn, its [parts] or its
    [parts[0]] is null or undefined) or a text with no conversion to
    text. User data that are undefined are replaced by the empty object
    and do not make it throw. *)
Theorem system_prompt_throws_exactly_on_unreadable_input
    (conversationHistory : list JS.jsval) (userData : JS.jsval) :
  Chat.getSystemPrompt conversationHistory userData = None <->
  userData = JS.JNull
  \/ (exists name x,
        In name Spec.profile_fields
        /\ JS.prop userData name = Some x /\ JS.ToString x = None)
  \/ exists msg,
       In msg (Chat.slice_last 6 conversationHistory)
       /\ (Chat.partsText msg = None
           \/ exists text,
                Chat.partsText msg = Some text /\ JS.ToString text = None).
Proof.
  rewrite getSystemPrompt_None. split.
  - intros [(msg & Hin & H) | (name & Hin & H)].
    + right. right. exists msg. split; [exact Hin|].
      apply contextLine_None. exact H.
    + apply interpolated_None in H as [H | (x & Hx & Ht)];
        [left; exact H | right; left; exists name, x; auto].
  - intros [H | [(name & x & Hin & Hx & Ht) | (msg & Hin & H)]].
    + right. exists "name". split; [simpl; auto|].
      apply interpolated_None. left. exact H.
    + right. exists name. split; [exact Hin|].
      apply interpolated_None. right. exists x. auto.
    + left. exists msg. split; [exact Hin|].
      apply contextLine_None. exact H.
Qed.

Lemma getSystemPrompt_null conversationHistory :
  Chat.getSystemPrompt conversationHistory JS.JNull = None.
Proof.
  unfold Chat.getSystemPrompt.
  destruct (if (0 <? length conversationHistory)%nat then _ else _); reflexivity.
Qed.

(** X12. User data that parse to null (the text null is valid JSON, and
    the default of the parameter only replaces undefined) make the
    system prompt throw. Perplexity, whose request always starts with
    the system prompt, then fails whatever the service would answer;
    and while no turn of the history survives the cleaning, Gemini is
    sent the system prompt too, so the request ends in the error even
    when both services are up. *)
Theorem null_user_data_fails_while_history_has_no_text
    (JSON_parse : string -> option JS.jsval) (svc : Chat.services)
    (req : Chat.sendRequest) (query : string) (history : list JS.jsval) :
  Spec.accepted JSON_parse req query history JS.JNull ->
  Chat.callPerplexityAPI svc query history JS.JNull = None
  /\ (Chat.cleanedHistory "model" history = Some [] ->
      Spec.is_failure (fst (Chat.send JSON_parse svc req))).
Proof.
  intros Hacc.
  assert (HP : Chat.callPerplexityAPI svc query history JS.JNull = None).
  { unfold Chat.callPerplexityAPI, Chat.perplexityMessages.
    rewrite getSystemPrompt_null.
    destruct (negb _); [reflexivity|].
    destruct (Chat.cleanedHistory "assistant" history); reflexivity. }
  split; [exact HP|]. intros Hclean.
  assert (HG : Chat.callGeminiAPI svc query history JS.JNull (Chat.file req)
               = None).
  { unfold Chat.callGeminiAPI, Chat.geminiContents.
    rewrite Hclean, getSystemPrompt_null. cbn [length Nat.eqb].
    destruct (negb _); reflexivity. }
  rewrite (send_accepted _ svc _ _ _ _ Hacc). unfold Chat.respond, Spec.is_failure.
  rewrite HP, HG. destruct (Chat.determineAiSource query); eexists; reflexivity.
Qed.

(** A first message with the user data null, while both services
    answer. *)
Lemma null_user_data_witness :
  Spec.is_failure
    (fst (Chat.send Samples.parse_sample_null Samples.both_up
            (Samples.null_profile "Where do I pay a parking ticket?"))).
Proof.
  destruct (null_user_data_fails_while_history_has_no_text
              Samples.parse_sample_null Samples.both_up
              (Samples.null_profile "Where do I pay a parking ticket?")
              "Where do I pay a parking ticket?" []) as [_ H].
  - split; [reflexivity|].
    split; [intros E; vm_compute in E; discriminate E|].
    split; reflexivity.
  - apply H. reflexivity.
Defined.

(** ** The requests sent to the backends *)

Lemma mapM_Some {A B : Type} (f : A -> option B) (l : list A) (ys : list B) :
  Chat.mapM f l = Some ys -> Forall2 (fun x y => f x = Some y) l ys.
Proof.
  revert ys. induction l as [|a l IH]; simpl; intros ys H.
  - injection H as <-. constructor.
  - destruct (f a) as [y|] eqn:Ha; [|discriminate].
    destruct (Chat.mapM f l) as [ys'|]; [|discriminate].
    injection H as <-. constructor; [exact Ha | apply IH; reflexivity].
Qed.

Lemma slice_last_length {A : Type} (n : nat) (l : list A) :
  (length (Chat.slice_last n l) <= n)%nat.
Proof. unfold Chat.slice_last. rewrite length_skipn. lia. Qed.

Lemma filter_length_le {A : Type} (f : A -> bool) (l : list A) :
  (length (List.filter f l) <= length l)%nat.
Proof.
  induction l as [|a l IH]; simpl; [lia|]. destruct (f a); simpl; lia.
Qed.

Lemma cleanedHistory_turns other conversationHistory cleaned :
  Chat.cleanedHistory other conversationHistory = Some cleaned ->
  (length cleaned <= 5)%nat
  /\ List.Forall
       (fun rc =>
          (fst rc = "user" \/ fst rc = other)
          /\ exists msg text,
               In msg (Chat.slice_last 5 conversationHistory)
               /\ Chat.partsText msg = Some (JS.JStr text)
               /\ text <> EmptyString
               /\ snd rc = Text.trim text)
       cleaned.
Proof.
  unfold Chat.cleanedHistory. intros H. apply mapM_Some in H.
  split.
  - assert (Hlen : length cleaned
                   = length (List.filter Chat.hasText
                               (Chat.slice_last 5 conversationHistory)))
      by (clear -H; induction H; simpl; congruence).
    rewrite Hlen.
    etransitivity; [apply filter_length_le | apply slice_last_length].
  - revert H.
    generalize (Chat.slice_last 5 conversationHistory) as l.
    intros l H.
    assert (Hin : forall msg, In msg (List.filter Chat.hasText l)
                              -> In msg l /\ Chat.hasText msg = true)
      by (intros msg Hm; apply List.filter_In; exact Hm).
    revert Hin. induction H as [|msg rc ms rcs Hrc _ IH]; intros Hin.
    + constructor.
    + constructor; [|apply IH; intros m Hm; apply Hin; right; exact Hm].
      destruct (Hin msg (or_introl eq_refl)) as [Hl Ht].
      unfold Chat.cleanTurn in Hrc.
      destruct (JS.prop msg "role") as [r|] eqn:Hr; [|discriminate].
      destruct (Chat.partsText msg) as [[| | | |text| |]|] eqn:Hp;
        try discriminate.
      injection Hrc as <-. cbn [fst snd]. split.
      * destruct (JS.is_str r "user"); auto.
      * exists msg, text. repeat split; try assumption.
        intros ->. revert Ht Hp. unfold Chat.hasText, Chat.partsText.
        destruct (JS.prop msg "parts") as [ps|]; [|discriminate].
        cbn [default from_option]. unfold id.
        destruct (JS.index0 ps) as [p0|]; [|discriminate].
        cbn [default from_option]. unfold id.
        intros Ht Hp. rewrite Hp in Ht. cbn in Ht.
        rewrite !andb_false_r in Ht. discriminate.
Qed.

(** X13. The request to Perplexity, when one is built: the system
    message comes first and carries the system prompt followed by the
    real-time suffix; the current query, trimmed, comes last under the
    role user; between them stand at most five messages, each with the
    role user or assistant and with the trimmed, non-empty text of one
    of the last five turns of the history. *)
Theorem perplexity_request_is_system_then_history_then_query
    (query : string) (conversationHistory : list JS.jsval)
    (userData : JS.jsval) (messages : list Chat.chatMessage) :
  Chat.perplexityMessages query conversationHistory userData = Some messages ->
  exists systemPrompt between,
    Chat.getSystemPrompt conversationHistory userData = Some systemPrompt
    /\ messages
       = {| Chat.role := "system";
            Chat.content := systemPrompt +:+ Chat.perplexitySuffix |}
         :: between
         ++ [{| Chat.role := "user"; Chat.content := Text.trim query |}]
    /\ (length between <= 5)%nat
    /\ List.Forall
         (fun m =>
            (Chat.role m = "user" \/ Chat.role m = "assistant")
            /\ exists msg text,
                 In msg (Chat.slice_last 5 conversationHistory)
                 /\ Chat.partsText msg = Some (JS.JStr text)
                 /\ text <> EmptyString
                 /\ Chat.content m = Text.trim text)
         between.
Proof.
  unfold Chat.perplexityMessages.
  destruct (Chat.cleanedHistory "assistant" conversationHistory) as [cleaned|]
    eqn:Hc; [|discriminate].
  destruct (Chat.getSystemPrompt conversationHistory userData) as [sp|];
    [|discriminate].
  intros [= <-]. apply cleanedHistory_turns in Hc as [Hlen Hall].
  exists sp, (map (fun rc => {| Chat.role := fst rc; Chat.content := snd rc |})
                cleaned).
  split; [reflexivity|]. split; [reflexivity|].
  split; [rewrite length_map; exact Hlen|].
  apply List.Forall_map. exact Hall.
Qed.

(** The request for a question after the five turns of the samples. *)
Lemma perplexity_request_witness :
  exists systemPrompt between,
    Chat.getSystemPrompt Samples.recent_five Samples.resident = Some systemPrompt
    /\ default [] (Chat.perplexityMessages Samples.closures_question
                     Samples.recent_five Samples.resident)
       = {| Chat.role := "system";
            Chat.content := systemPrompt +:+ Chat.perplexitySuffix |}
         :: between
         ++ [{| Chat.role := "user";
                Chat.content := Text.trim Samples.closures_question |}]
    /\ (length between <= 5)%nat.
Proof.
  destruct (perplexity_request_is_system_then_history_then_query
              Samples.closures_question Samples.recent_five Samples.resident
              (default [] (Chat.perplexityMessages Samples.closures_question
                             Samples.recent_five Samples.resident)))
    as (sp & between & H1 & H2 & H3 & _).
  - reflexivity.
  - exists sp, between. repeat split; assumption.
Defined.

(** ** The classifier: letter case and context *)

Lemma lower_fold_ascii (x : ascii) :
  Text.lower_char (Spec.fold_ascii x) = Text.lower_char x.
Proof. destruct x as [[] [] [] [] [] [] [] []]; reflexivity. Qed.

Lemma upper_fold_ascii (x : ascii) :
  Text.upper_char (Spec.fold_ascii x) = Text.upper_char x.
Proof. destruct x as [[] [] [] [] [] [] [] []]; reflexivity. Qed.

Lemma newline_fold_ascii (x : ascii) :
  Regex.class_ok true Regex.CDot (Spec.fold_ascii x)
  = Regex.class_ok true Regex.CDot x.
Proof. destruct x as [[] [] [] [] [] [] [] []]; reflexivity. Qed.

Lemma class_ok_fold (k : Regex.cclass) (x x' : ascii) :
  Spec.fold_ascii x = Spec.fold_ascii x' ->
  Regex.class_ok true k x = Regex.class_ok true k x'.
Proof.
  intros H. destruct k as [c| |]; [| |reflexivity].
  - cbn [Regex.class_ok].
    rewrite <- (upper_fold_ascii x), <- (upper_fold_ascii x'), H. reflexivity.
  - rewrite <- (newline_fold_ascii x), <- (newline_fold_ascii x'), H.
    reflexivity.
Qed.

Lemma map_eq_app_split {A B : Type} (f : A -> B) (l1 l2 l' : list A) :
  map f (l1 ++ l2) = map f l' ->
  exists l1' l2', l' = l1' ++ l2' /\ map f l1 = map f l1' /\ map f l2 = map f l2'.
Proof.
  revert l'. induction l1 as [|a l1 IH]; intros l' H.
  - exists [], l'. auto.
  - destruct l' as [|a' l']; [discriminate|].
    simpl in H. injection H as Ha Hl.
    destruct (IH _ Hl) as (l1' & l2' & -> & H1 & H2).
    exists (a' :: l1'), l2'. simpl. rewrite Ha, H1. auto.
Qed.

(** Under the ignore-case flag a pattern has, with a word, every word
    that differs from it in the case of the letters A-Z only. *)
Lemma matches_fold (r : Regex.regex) (w : list ascii) :
  Regex.matches true r w ->
  forall w', map Spec.fold_ascii w = map Spec.fold_ascii w' ->
             Regex.matches true r w'.
Proof.
  induction 1 as [|k x Hx|k|k x w Hx _ IH|r1 r2 w1 w2 _ IH1 _ IH2
                  |r1 r2 w _ IH|r1 r2 w _ IH]; intros w' Hw.
  - destruct w'; [constructor | discriminate].
  - destruct w' as [|x' [|]]; try discriminate. injection Hw as Hx'.
    constructor. rewrite <- (class_ok_fold k x x' Hx'). exact Hx.
  - destruct w'; [constructor | discriminate].
  - destruct w' as [|x' w']; [discriminate|]. injection Hw as Hx' Hw'.
    constructor; [rewrite <- (class_ok_fold k x x' Hx'); exact Hx | auto].
  - apply map_eq_app_split in Hw as (w1' & w2' & -> & H1 & H2).
    constructor; auto.
  - apply Regex.M_alt_l. auto.
  - apply Regex.M_alt_r. auto.
Qed.

Lemma pattern_found_fold (r : Regex.regex) (q q' : string) :
  Spec.same_but_for_ascii_case q q' ->
  Spec.pattern_found r q -> Spec.pattern_found r q'.
Proof.
  unfold Spec.same_but_for_ascii_case, Spec.pattern_found.
  intros H (pre & w & post & Hq & Hw). rewrite Hq in H.
  apply map_eq_app_split in H as (pre' & rest & Hq' & _ & H).
  apply map_eq_app_split in H as (w' & post' & -> & Hw' & _).
  exists pre', w', post'. split; [exact Hq'|].
  apply (matches_fold r w Hw). exact Hw'.
Qed.

Lemma toLowerCase_fold (q q' : string) :
  Spec.same_but_for_ascii_case q q' ->
  Text.toLowerCase q = Text.toLowerCase q'.
Proof.
  unfold Spec.same_but_for_ascii_case, Text.toLowerCase. intros H.
  f_equal.
  assert (Hfold : forall l,
             map Text.lower_char l
             = map Text.lower_char (map Spec.fold_ascii l)).
  { intros l. rewrite map_map. apply map_ext. intros x. symmetry.
    apply lower_fold_ascii. }
  rewrite (Hfold (Text.chars q)), (Hfold (Text.chars q')), H. reflexivity.
Qed.

Lemma needs_live_fold (q q' : string) :
  Spec.same_but_for_ascii_case q q' ->
  Spec.needs_live q -> Spec.needs_live q'.
Proof.
  intros H [(kw & Hin & Hk) | (r & Hin & Hr)].
  - left. exists kw. rewrite <- (toLowerCase_fold _ _ H). auto.
  - right. exists r. split; [exact Hin|].
    apply (pattern_found_fold r q q' H Hr).
Qed.

(** X15. The classifier ignores the case of the letters A-Z: two
    queries that differ only in the case of these letters are sent to
    the same backend. *)
Theorem classification_ignores_letter_case (query query' : string) :
  Spec.same_but_for_ascii_case query query' ->
  Chat.determineAiSource query = Chat.determineAiSource query'.
Proof.
  intros H.
  destruct (Chat.determineAiSource query) eqn:E;
    destruct (Chat.determineAiSource query') eqn:E'; try reflexivity.
  - apply determineAiSource_live in E.
    apply (needs_live_fold _ _ H) in E.
    apply determineAiSource_live in E. congruence.
  - apply determineAiSource_live in E'.
    apply (needs_live_fold _ _ (eq_sym H)) in E'.
    apply determineAiSource_live in E'. congruence.
Qed.

(** The closures question and the same in capitals. *)
Lemma classification_case_witness :
  Chat.determineAiSource "WHAT IS THE LATEST NEWS ON ROAD CLOSURES?"
  = Chat.determineAiSource Samples.closures_question.
Proof.
  apply classification_ignores_letter_case. reflexivity.
Defined.

Lemma chars_append (a b : string) :
  Text.chars (a +:+ b) = Text.chars a ++ Text.chars b.
Proof.
  induction a as [|c a IH]; simpl; [reflexivity|].
  unfold Text.chars in *. simpl. f_equal. exact IH.
Qed.

Lemma toLowerCase_chars (s : string) :
  Text.chars (Text.toLowerCase s) = map Text.lower_char (Text.chars s).
Proof. unfold Text.toLowerCase. apply chars_text. Qed.

(** X16. The classifier has only positive tests: a query that is sent
    to Perplexity is still sent there with any text put before and after
    it. So is every query of which it is a part; and no part of a query
    that goes to Gemini goes to Perplexity. *)
Theorem live_query_stays_live_in_any_context (before query after : string) :
  Chat.determineAiSource query = Chat.perplexity ->
  Chat.determineAiSource (before +:+ query +:+ after) = Chat.perplexity.
Proof.
  rewrite !determineAiSource_live.
  intros [(kw & Hin & pre & post & Hk) | (r & Hin & pre & w & post & Hq & Hw)].
  - left. exists kw. split; [exact Hin|].
    exists (map Text.lower_char (Text.chars before) ++ pre),
           (post ++ map Text.lower_char (Text.chars after)).
    rewrite toLowerCase_chars in *. rewrite !chars_append, !map_app, Hk.
    rewrite <- !app_assoc. reflexivity.
  - right. exists r. split; [exact Hin|].
    exists (Text.chars before ++ pre), w, (post ++ Text.chars after).
    split; [|exact Hw].
    rewrite !chars_append, Hq, <- !app_assoc. reflexivity.
Qed.

(** The closures question inside a longer message. *)
Lemma live_in_context_witness :
  Chat.determineAiSource
    ("Hello. " +:+ Samples.closures_question +:+ " Thank you.")
  = Chat.perplexity.
Proof.
  apply live_query_stays_live_in_any_context. reflexivity.
Defined.

(** ** The global error handler *)

(** X17. In production the body the global error handler sends depends
    on the error only through its [type] and [code]: neither the message
    nor the stack trace of an error, nor any other of its properties,
    reaches the client. *)
Theorem production_error_body_shows_only_type_and_code (error error' : JS.jsval) :
  Server.member error "type" = Server.member error' "type" ->
  Server.member error "code" = Server.member error' "code" ->
  Server.body (Server.errorHandler true error)
  = Server.body (Server.errorHandler true error').
Proof.
  intros Ht Hc. unfold Server.errorHandler. rewrite Ht, Hc.
  destruct (JS.is_str _ "entity.parse.failed"); [reflexivity|].
  destruct (JS.is_str _ "LIMIT_FILE_SIZE"); reflexivity.
Qed.

(** Two errors with different messages, stacks and status codes. *)
Lemma production_error_witness :
  Server.body
    (Server.errorHandler true
       (JS.JObj [("message", JS.JStr "connect ECONNREFUSED 10.0.0.5:5432");
                 ("stack", JS.JStr "at Pool.connect (db.js:12:7)");
                 ("status", JS.JNum "503")]))
  = Server.body
      (Server.errorHandler true (Server.newError "boom" "at handler (app.js:1:1)")).
Proof.
  apply production_error_body_shows_only_type_and_code; reflexivity.
Defined.

Lemma existsb_eqb_In (x : string) (l : list string) :
  existsb (String.eqb x) l = true <-> In x l.
Proof.
  rewrite existsb_exists. split.
  - intros (y & Hin & Hy). apply String.eqb_eq in Hy. subst. exact Hin.
  - intros Hin. exists x. split; [exact Hin | apply String.eqb_refl].
Qed.

(** X18. A file whose MIME type is not in the list of supported types
    is refused by the file filter with an error that names the type; the
    global error handler, to which the upload middleware forwards it,
    answers that error with the status 500 (it carries no status of its
    own), with the fixed text in production and with the message naming
    the type and the stack trace otherwise. A file whose type is in the
    list is accepted. *)
Theorem unsupported_file_type_ends_as_status_500
    (mimetype stack : string) (production : bool) :
  (In mimetype Server.supportedTypes ->
   Server.fileFilter mimetype stack = Server.Accepted)
  /\ (~ In mimetype Server.supportedTypes ->
      exists error,
        Server.fileFilter mimetype stack = Server.Refused error
        /\ Server.status (Server.errorHandler production error) = JS.JNum "500"
        /\ Server.body (Server.errorHandler production error)
           = if production
             then JS.JObj [("error", JS.JStr "Internal server error")]
             else JS.JObj [("error",
                            JS.JStr ("Unsupported file type: " +:+ mimetype));
                           ("stack", JS.JStr stack)]).
Proof.
  unfold Server.fileFilter. split; intros H.
  - apply existsb_eqb_In in H. rewrite H. reflexivity.
  - destruct (existsb (String.eqb mimetype) Server.supportedTypes) eqn:E;
      [apply existsb_eqb_In in E; contradiction|].
    eexists. split; [reflexivity|].
    destruct production; split; reflexivity.
Qed.

(** ** The size of the rate-limit map *)

(** X19. The rate-limit map only grows: a check removes no caller from
    it, and after a check, admitted or denied, the caller that was
    checked is on record with at least one reading. Nothing in the
    module deletes an entry, so the map holds every caller ever seen. *)
Theorem rate_limit_map_never_forgets_a_caller (now : Z) (identifier : string)
    (m : gmap string (list Z)) :
  (exists reading readings,
     snd (RateLimit.checkRateLimit now identifier m) !! identifier
     = Some (reading :: readings))
  /\ forall caller : string,
       m !! caller <> None ->
       snd (RateLimit.checkRateLimit now identifier m) !! caller <> None.
Proof.
  unfold RateLimit.checkRateLimit.
  set (recent := List.filter _ _).
  destruct (Nat.leb_spec RateLimit.MAX_API_CALLS_PER_MINUTE (length recent))
    as [Hle|Hlt]; cbn [snd].
  - split; [|auto].
    destruct (m !! identifier) as [[|t l]|] eqn:E;
      try (subst recent; cbn in Hle; unfold RateLimit.MAX_API_CALLS_PER_MINUTE in Hle; lia).
    eauto.
  - split.
    + rewrite lookup_insert_eq. destruct recent; simpl; eauto.
    + intros caller Hc. destruct (decide (identifier = caller)) as [->|Hne].
      * rewrite lookup_insert_eq. discriminate.
      * rewrite lookup_insert_ne by exact Hne. exact Hc.
Qed.
